(** * pico-webserver: the connectivity bootstrap of [micropython_default]

    A shallow embedding of

    - [lib/project/utility.py]: [create_secrets], [dynamic_get_secret],
      [dynamic_set_secret] (the secrets file [env/secrets.py]);
    - [lib/project/connection.py]: [activate_interface],
      [deactivate_interface], [connect_interface], [access_point_reset],
      [get_network_interface], [connection_issue];
    - [main.py]: the [POST /connection] handler [set_connection].

    The secrets file is modelled by its text.  The radio ([network.WLAN]) is
    modelled by an environment that answers every query from the history of
    the calls made so far, and every call made on the radio is recorded in
    that history.  Python exceptions are values of [exn]; a raised exception
    keeps the effects that happened before it. *)

From Stdlib Require Import String Ascii List Bool Arith ZArith Lia.
From Stdlib Require Import Strings.Byte.
Import ListNotations.
Local Open Scope list_scope.
Local Open Scope string_scope.

(* ===================================================================== *)
(** ** Text helpers (Python [str] operations used by the sources) *)
(* ===================================================================== *)

Module PyStr.

(** The line feed character. *)
Definition LF : ascii := "010"%char.

Definition is_LF (c : ascii) : bool := Ascii.eqb c LF.

(** [b.startswith(a)]. *)
Fixpoint starts_with (a b : string) : bool :=
  match a, b with
  | EmptyString, _ => true
  | String x a', String y b' => Ascii.eqb x y && starts_with a' b'
  | String _ _, EmptyString => false
  end.

(** [a in b] on Python strings: [a] occurs in [b] as a substring. *)
Fixpoint str_in (a b : string) : bool :=
  if starts_with a b then true
  else match b with
       | EmptyString => false
       | String _ b' => str_in a b'
       end.

(** [c] is one of the characters of [s]. *)
Fixpoint has_char (c : ascii) (s : string) : bool :=
  match s with
  | EmptyString => false
  | String d s' => Ascii.eqb c d || has_char c s'
  end.

(** Every character of [s] satisfies [p]. *)
Fixpoint all_chars (p : ascii -> bool) (s : string) : bool :=
  match s with
  | EmptyString => true
  | String c s' => p c && all_chars p s'
  end.

(** The longest prefix of [s] whose characters satisfy [p], and the rest. *)
Fixpoint span (p : ascii -> bool) (s : string) : string * string :=
  match s with
  | EmptyString => (EmptyString, EmptyString)
  | String c s' =>
      if p c then let '(a, b) := span p s' in (String c a, b)
      else (EmptyString, s)
  end.

(** [s] without the prefix [pre], when it starts with it. *)
Fixpoint strip_prefix (pre s : string) : option string :=
  match pre, s with
  | EmptyString, _ => Some s
  | String a pre', String b s' =>
      if Ascii.eqb a b then strip_prefix pre' s' else None
  | String _ _, EmptyString => None
  end.

(** [file.readlines()]: the text cut after every line feed; the line feed
    stays at the end of its line, and a last line without one is kept. *)
Fixpoint readlines (s : string) : list string :=
  match s with
  | EmptyString => []
  | String c s' =>
      if is_LF c then String c EmptyString :: readlines s'
      else match readlines s' with
           | [] => [String c EmptyString]
           | l :: ls => String c l :: ls
           end
  end.

(** ["".join(lines)]. *)
Definition join (lines : list string) : string :=
  fold_right String.append EmptyString lines.

(** [str.upper()] on ASCII text. *)
Definition upper_char (c : ascii) : ascii :=
  let n := nat_of_ascii c in
  if ((97 <=? n)%nat && (n <=? 122)%nat)%bool then ascii_of_nat (n - 32) else c.

Fixpoint upper (s : string) : string :=
  match s with
  | EmptyString => EmptyString
  | String c s' => String (upper_char c) (upper s')
  end.

(** [binascii.hexlify(bytes).decode()]: two lower-case digits per byte. *)
Definition hex_digit (n : nat) : ascii :=
  if (n <? 10)%nat then ascii_of_nat (48 + n) else ascii_of_nat (87 + n).

Fixpoint hexlify (bs : list byte) : string :=
  match bs with
  | [] => EmptyString
  | b :: bs' =>
      let n := Byte.to_nat b in
      String (hex_digit (n / 16)) (String (hex_digit (n mod 16)) (hexlify bs'))
  end.

(** White space as [str.strip()] of MicroPython sees it: the space and the
    five control characters from the tab to the carriage return. *)
Definition is_space (c : ascii) : bool :=
  let n := nat_of_ascii c in
  ((n =? 32)%nat || ((9 <=? n)%nat && (n <=? 13)%nat))%bool.

(** [s.lstrip()], [s.rstrip()] and [s.strip()]. *)
Fixpoint lstrip (s : string) : string :=
  match s with
  | EmptyString => EmptyString
  | String c s' => if is_space c then lstrip s' else s
  end.

Fixpoint rstrip (s : string) : string :=
  match s with
  | EmptyString => EmptyString
  | String c s' =>
      match rstrip s' with
      | EmptyString => if is_space c then EmptyString else String c EmptyString
      | String d r => String c (String d r)
      end
  end.

Definition strip (s : string) : string := rstrip (lstrip s).

(** [s.split("\n")]: the text between the line feeds; one piece more than
    there are line feeds, so never the empty list. *)
Fixpoint split_LF (s : string) : list string :=
  match s with
  | EmptyString => [EmptyString]
  | String c s' =>
      if is_LF c then EmptyString :: split_LF s'
      else match split_LF s' with
           | [] => [String c EmptyString]
           | l :: ls => String c l :: ls
           end
  end.

(** ["\n".join(pieces)]. *)
Fixpoint join_LF (pieces : list string) : string :=
  match pieces with
  | [] => EmptyString
  | l :: ls =>
      match ls with
      | [] => l
      | _ :: _ => l ++ String LF (join_LF ls)
      end
  end.

End PyStr.
Import PyStr.

(* ===================================================================== *)
(** ** Results, exceptions and the world *)
(* ===================================================================== *)

(** The exceptions that the modelled code raises, catches or lets through. *)
Inductive exn : Type :=
| WLANConnectionError
| StopIteration
| TypeError
| OSError
| NameError
| SyntaxError
| ImportError.

Definition exn_eqb (a b : exn) : bool :=
  match a, b with
  | WLANConnectionError, WLANConnectionError
  | StopIteration, StopIteration
  | TypeError, TypeError
  | OSError, OSError
  | NameError, NameError
  | SyntaxError, SyntaxError
  | ImportError, ImportError => true
  | _, _ => false
  end.

Inductive result (A : Type) : Type :=
| Ok (a : A)
| Raise (e : exn).
Arguments Ok {A} a.
Arguments Raise {A} e.

(** [network.STA_IF], [network.AP_IF] (also [WLAN.IF_STA], [WLAN.IF_AP]) and
    [network.STAT_GOT_IP]. *)
Definition STA_IF : Z := 0%Z.
Definition AP_IF : Z := 1%Z.
Definition STAT_GOT_IP : Z := 3%Z.

(** A call on the radio or on the clock. *)
Inductive event : Type :=
| EvNew (mode : Z)                              (* network.WLAN(mode) *)
| EvConfig (ssid password : option string) (pm : option Z)
                                                  (* WLAN.config(...) *)
| EvSetActive (on : bool)                       (* WLAN.active(on) *)
| EvActive                                      (* WLAN.active() *)
| EvStatus                                      (* WLAN.status() *)
| EvIsConnected                                 (* WLAN.isconnected() *)
| EvScan                                        (* WLAN.scan() *)
| EvConnect (ssid : string) (password : option string)
                                                  (* WLAN.connect(...) *)
| EvDisconnect                                  (* WLAN.disconnect() *)
| EvDeinit                                      (* WLAN.deinit() *)
| EvSleep (seconds : nat).                      (* time.sleep(seconds) *)

Definition is_status (e : event) : bool :=
  match e with EvStatus => true | _ => false end.
Definition is_active_query (e : event) : bool :=
  match e with EvActive => true | _ => false end.
Definition is_scan (e : event) : bool :=
  match e with EvScan => true | _ => false end.
Definition is_connect (e : event) : bool :=
  match e with EvConnect _ _ => true | _ => false end.
Definition is_sleep (e : event) : bool :=
  match e with EvSleep _ => true | _ => false end.
Definition is_new_ap (e : event) : bool :=
  match e with EvNew m => Z.eqb m AP_IF | _ => false end.
Definition is_deinit (e : event) : bool :=
  match e with EvDeinit => true | _ => false end.

(** How many events of [tr] satisfy [p]. *)
Definition count (p : event -> bool) (tr : list event) : nat :=
  length (filter p tr).

(** The radio and the board, as the environment of the program: every answer
    is a function of the calls made so far (oldest first).  [hw_scan] and
    [hw_connect] may raise, as the handlers of [connect_interface] expect.
    The other calls ([active], [status], [isconnected], [disconnect],
    [deinit], [config] and the constructor) are taken to return normally. *)
Record Radio : Type := {
  hw_unique_id : list byte;                        (* machine.unique_id() *)
  hw_status : list event -> Z;
  hw_active : list event -> bool;
  hw_isconnected : list event -> bool;
  hw_scan : list event -> result (list string);   (* the names, decoded *)
  hw_connect : list event -> option exn           (* None: accepted *)
}.

(** The state the program acts on: the text of [env/secrets.py] ([None] when
    the file does not exist) and the history of calls.  [env/secrets.mpy] is
    not modelled: it is taken to be absent. *)
Record world : Type := {
  secrets_py : option string;
  trace : list event
}.

Definition M (A : Type) : Type := world -> result A * world.

Definition ret {A} (a : A) : M A := fun w => (Ok a, w).

Definition bind {A B} (m : M A) (k : A -> M B) : M B :=
  fun w => match m w with
           | (Ok a, w') => k a w'
           | (Raise e, w') => (Raise e, w')
           end.

Definition raise {A} (e : exn) : M A := fun w => (Raise e, w).

(** [try: m  except ...: h e]; the handler re-raises what it does not catch. *)
Definition try_except {A} (m : M A) (h : exn -> M A) : M A :=
  fun w => match m w with
           | (Ok a, w') => (Ok a, w')
           | (Raise e, w') => h e w'
           end.

Declare Scope py_scope.
Delimit Scope py_scope with py.
Notation "x <- m ;; k" := (bind m (fun x => k))
  (at level 61, m at next level, right associativity) : py_scope.
Notation "m ;;; k" := (bind m (fun _ => k))
  (at level 61, right associativity) : py_scope.
Local Open Scope py_scope.

Definition log (e : event) : M unit :=
  fun w => (Ok tt, {| secrets_py := secrets_py w; trace := (trace w ++ [e])%list |}).

Definition sleep (seconds : nat) : M unit := log (EvSleep seconds).

(* ===================================================================== *)
(** ** [lib/project/utility.py]: the secrets file *)
(* ===================================================================== *)

(** The one-character string ["\n"]. *)
Definition NL : string := String LF EmptyString.

(** *** [debug_message]

    The console is not part of [world]: [debug_message] is modelled by the
    text that it hands to [print], [None] when it prints nothing. *)
Definition debug_message (message : string) (verbose : bool)
    : option string :=
  if negb verbose then None
  else Some (join_LF (map strip (split_LF message))).

(** *** [import env.secrets]

    [dynamic_get_secret] makes Python execute [env/secrets.py] as a module
    and reads one attribute of it.  The evaluator below covers the two
    statements that [create_secrets] and [dynamic_set_secret] write,

      [NAME = None]      and      [NAME = 'text']

    with [NAME] made of letters, digits and underscores, starting with a
    letter and not a keyword, and [text] made of printable ASCII characters
    other than the quote and the backslash (so that the literal denotes
    [text] itself).  Python accepts other statements as well (double
    quotes, comments, blank lines, numbers); the evaluator does not, and
    answers [SyntaxError] on them: it is the import of Python on the files
    of these two forms, and the statements below are about such files. *)

Definition is_letter (c : ascii) : bool :=
  let n := nat_of_ascii c in
  (((65 <=? n)%nat && (n <=? 90)%nat) || ((97 <=? n)%nat && (n <=? 122)%nat))%bool.

Definition is_digit (c : ascii) : bool :=
  let n := nat_of_ascii c in ((48 <=? n)%nat && (n <=? 57)%nat)%bool.

Definition ident_char (c : ascii) : bool :=
  (is_letter c || is_digit c || Ascii.eqb c "_"%char)%bool.

Definition keywords : list string :=
  [ "False"; "None"; "True"; "and"; "as"; "assert"; "async"; "await";
    "break"; "class"; "continue"; "def"; "del"; "elif"; "else"; "except";
    "finally"; "for"; "from"; "global"; "if"; "import"; "in"; "is";
    "lambda"; "nonlocal"; "not"; "or"; "pass"; "raise"; "return"; "try";
    "while"; "with"; "yield" ].

Definition is_ident (name : string) : bool :=
  (match name with
   | EmptyString => false
   | String c _ => is_letter c
   end
   && all_chars ident_char name
   && negb (existsb (String.eqb name) keywords))%bool.

(** A character that stands for itself between single quotes. *)
Definition lit_char (c : ascii) : bool :=
  let n := nat_of_ascii c in
  ((32 <=? n)%nat && (n <=? 126)%nat
   && negb (Ascii.eqb c "'"%char) && negb (Ascii.eqb c "\"%char))%bool.

(** The value of a secret as Python sees it: [None] or a [str]. *)
Definition pyval : Type := option string.

Definition parse_value (s : string) : option (pyval * string) :=
  match strip_prefix "None" s with
  | Some rest => Some (None, rest)
  | None =>
      match strip_prefix "'" s with
      | Some body =>
          let '(text, rest) := span lit_char body in
          match strip_prefix "'" rest with
          | Some rest' => Some (Some text, rest')
          | None => None
          end
      | None => None
      end
  end.

Definition at_eol (s : string) : bool :=
  (String.eqb s EmptyString || String.eqb s NL)%bool.

Definition parse_line (line : string) : option (string * pyval) :=
  let '(name, r1) := span ident_char line in
  if is_ident name then
    match strip_prefix " = " r1 with
    | Some r2 =>
        match parse_value r2 with
        | Some (v, r3) => if at_eol r3 then Some (name, v) else None
        | None => None
        end
    | None => None
    end
  else None.

Fixpoint exec_lines (lines : list string) : option (list (string * pyval)) :=
  match lines with
  | [] => Some []
  | l :: ls =>
      match parse_line l, exec_lines ls with
      | Some b, Some bs => Some (b :: bs)
      | _, _ => None
      end
  end.

(** The assignments of the module, in the order of the file. *)
Definition exec_module (text : string) : option (list (string * pyval)) :=
  exec_lines (readlines text).

(** [getattr(module, name, default)]: the last assignment to [name] wins.
    The attributes that every module has ([__name__], [__file__]) are not
    among the assignments: the lookup is the one of Python for the names
    that start with a letter. *)
Fixpoint getattr (bs : list (string * pyval)) (name : string)
    (default : pyval) : pyval :=
  match bs with
  | [] => default
  | (k, v) :: bs' => getattr bs' name (if String.eqb k name then v else default)
  end.

(** [None if isinstance(v, str) and v == "" else v]. *)
Definition none_if_empty (v : pyval) : pyval :=
  match v with
  | Some EmptyString => None
  | _ => v
  end.

Definition dynamic_get_secret (name : string) : M pyval :=
  fun w =>
    match secrets_py w with
    | None => (Raise ImportError, w)
    | Some text =>
        match exec_module text with
        | None => (Raise SyntaxError, w)
        | Some bs => (Ok (none_if_empty (getattr bs name None)), w)
        end
    end.

(** *** [create_secrets] and [dynamic_set_secret] *)

(** The six lines that [create_secrets] writes when the file is missing. *)
Definition secret_lines0 : list string :=
  [ "AP_SSID = None" ++ NL;
    "AP_PASSWORD = None" ++ NL;
    "WLAN_SSID = None" ++ NL;
    "WLAN_PASSWORD = None" ++ NL;
    "MQTT_ENDPOINT = None" ++ NL;
    "MQTT_CLIENT_ID = None" ++ NL ].

Definition create_secrets : M string :=
  fun w =>
    match secrets_py w with
    | None =>
        (Ok "secrets.py",
         {| secrets_py := Some (join secret_lines0); trace := trace w |})
    | Some _ => (Ok "secrets.py", w)
    end.

(** [str(value)] inside [str.format]. *)
Definition py_str (v : pyval) : string :=
  match v with
  | None => "None"
  | Some s => s
  end.

(** ["{} = {}\n".format(name, value)] and ["{} = '{}'\n".format(name, value)]. *)
Definition format_plain (name : string) (value : pyval) : string :=
  name ++ " = " ++ py_str value ++ NL.
Definition format_quoted (name : string) (value : pyval) : string :=
  name ++ " = '" ++ py_str value ++ "'" ++ NL.

(** The loop over [secret_lines]: every line in which [name] occurs is
    replaced; the flag is [name_found]. *)
Fixpoint replace_lines (name : string) (value : pyval)
    (secret_lines : list string) : list string * bool :=
  match secret_lines with
  | [] => ([], false)
  | l :: ls =>
      let '(ls', name_found) := replace_lines name value ls in
      if negb (str_in name l) then (l :: ls', name_found)
      else
        let secret_line :=
          match value with
          | None => format_plain name value
          | Some _ => format_quoted name value
          end in
        (secret_line :: ls', true)
  end.

Definition dynamic_set_secret (name : string) (value : pyval) : M bool :=
  let value := none_if_empty value in
  _ <- create_secrets ;;
  fun w =>
    match secrets_py w with
    | None => (Raise OSError, w)
    | Some text =>
        let '(secret_lines, name_found) :=
          replace_lines name value (readlines text) in
        let secret_lines :=
          if negb name_found
          then (secret_lines ++ [format_quoted name value])%list
          else secret_lines in
        (Ok (match value with None => false | Some _ => true end),
         {| secrets_py := Some (join secret_lines); trace := trace w |})
    end.

(** *** [main.py]: the [POST /connection] handler *)

(** [request.form.get(...)] is [None] when the field is not in the form. *)
Record form : Type := {
  input_ssid : pyval;
  input_password : pyval
}.

(** The JSON body [{"request": ..., "valid": ...}] and the status code. *)
Record response : Type := {
  body_request : bool;
  body_valid : bool;
  status_code : Z
}.

Definition set_connection (request : form) : M response :=
  let WLAN_SSID := input_ssid request in
  let WLAN_PASSWORD := input_password request in
  _ <- dynamic_set_secret "WLAN_PASSWORD" WLAN_PASSWORD ;;
  ok <- dynamic_set_secret "WLAN_SSID" WLAN_SSID ;;
  if negb ok
  then ret {| body_request := true; body_valid := false; status_code := 400 |}
  else ret {| body_request := true; body_valid := true; status_code := 205 |}.

(** *** [main.py]: [synchronise_time]

    [ntptime.settime()] is answered by the environment: [ntp n] is the
    outcome of the call made after [n] earlier ones, [None] when the clock
    was set.  The state that is passed along is the number of calls made so
    far.  [localtime()] is taken to return normally. *)
Definition Ntp : Type := nat -> option exn.

(** [while next(attempt) >= 0:] with [left] items left in [attempt]. *)
Fixpoint attempt_settime (ntp : Ntp) (left calls : nat) : result unit * nat :=
  match left with
  | O => (Raise StopIteration, calls)
  | S left' =>
      match ntp calls with
      | None => (Ok tt, S calls)                              (* break *)
      | Some OSError => attempt_settime ntp left' (S calls)   (* continue *)
      | Some e => (Raise e, S calls)
      end
  end.

Definition synchronise_time (ntp : Ntp) (verbose : bool) (calls : nat)
    : result bool * nat :=
  match attempt_settime ntp 30 calls with
  | (Ok _, calls') => (Ok true, calls')
  | (Raise StopIteration, calls') => (Ok false, calls')
  | (Raise e, calls') => (Raise e, calls')
  end.

(* ===================================================================== *)
(** ** [lib/project/connection.py] *)
(* ===================================================================== *)

(** A [network.WLAN] object: the interface it was created for and what
    [WLAN.config] has set on it.  Whether the radio is active or connected
    is not stored here: it is what the radio answers when asked. *)
Record wlan : Type := {
  w_mode : Z;
  w_ssid : pyval;
  w_password : pyval;
  w_pm : option Z
}.

(** [debug_message] only prints; console output is not part of [world].  A
    call of the radio made while building a message (an f-string argument is
    evaluated whatever [verbose] is) is kept where the source has it. *)

Section Connection.

Variable hw : Radio.

(** *** The methods of [network.WLAN] *)

Definition ask {A} (e : event) (answer : list event -> A) : M A :=
  fun w =>
    (Ok (answer (trace w)),
     {| secrets_py := secrets_py w; trace := (trace w ++ [e])%list |}).

Definition WLAN_new (mode : Z) : M wlan :=
  log (EvNew mode) ;;;
  ret {| w_mode := mode; w_ssid := None; w_password := None; w_pm := None |}.

Definition WLAN_config (WLAN : wlan) (ssid password : pyval)
    (pm : option Z) : M wlan :=
  log (EvConfig ssid password pm) ;;;
  ret {| w_mode := w_mode WLAN; w_ssid := ssid; w_password := password;
         w_pm := match pm with Some _ => pm | None => w_pm WLAN end |}.

Definition WLAN_set_active (WLAN : wlan) (on : bool) : M unit :=
  log (EvSetActive on).
Definition WLAN_active (WLAN : wlan) : M bool := ask EvActive (hw_active hw).
Definition WLAN_status (WLAN : wlan) : M Z := ask EvStatus (hw_status hw).
Definition WLAN_isconnected (WLAN : wlan) : M bool :=
  ask EvIsConnected (hw_isconnected hw).
Definition WLAN_disconnect (WLAN : wlan) : M unit := log EvDisconnect.
Definition WLAN_deinit (WLAN : wlan) : M unit := log EvDeinit.

Definition WLAN_scan (WLAN : wlan) : M (list string) :=
  r <- ask EvScan (hw_scan hw) ;;
  match r with
  | Ok names => ret names
  | Raise e => raise e
  end.

Definition WLAN_connect (WLAN : wlan) (ssid : string) (password : pyval)
    : M unit :=
  r <- ask (EvConnect ssid password) (hw_connect hw) ;;
  match r with
  | None => ret tt
  | Some e => raise e
  end.

(** *** [activate_interface] and [deactivate_interface]

    [await_timeout = iter(range(n))]; [while next(await_timeout) >= 0:]
    runs its body once per remaining item and, when none is left, [next]
    raises [StopIteration].  The argument is the number of items left. *)

Fixpoint await_active (WLAN : wlan) (left : nat) : M unit :=
  match left with
  | O => raise StopIteration
  | S left' =>
      status <- WLAN_status WLAN ;;
      if Z.eqb status STAT_GOT_IP then ret tt
      else
        active <- WLAN_active WLAN ;;
        if active then ret tt
        else sleep 1 ;;; await_active WLAN left'
  end.

Definition activate_interface (WLAN : wlan) (verbose : bool) : M unit :=
  WLAN_set_active WLAN true ;;;
  try_except (await_active WLAN 5)
    (fun e => match e with
              | StopIteration => ret tt
              | _ => raise e
              end).

Fixpoint await_inactive (WLAN : wlan) (left : nat) : M unit :=
  match left with
  | O => raise StopIteration
  | S left' =>
      active <- WLAN_active WLAN ;;
      if negb active then ret tt
      else sleep 1 ;;; await_inactive WLAN left'
  end.

Definition deactivate_interface (WLAN : wlan) (verbose : bool) : M unit :=
  WLAN_set_active WLAN false ;;;
  try_except (await_inactive WLAN 5)
    (fun e => match e with
              | StopIteration => ret tt
              | _ => raise e
              end).

(** *** [connect_interface] *)

(** [{name.decode() for name, *_ in set(WLAN.scan()) if name}] *)
Definition available_networks (names : list string) : list string :=
  filter (fun name => negb (String.eqb name EmptyString)) names.

(** [x in s] for a set of strings. *)
Definition member (x : string) (s : list string) : bool :=
  existsb (String.eqb x) s.

Fixpoint await_connection (WLAN : wlan) (left : nat) : M unit :=
  match left with
  | O => raise StopIteration
  | S left' =>
      _ <- WLAN_status WLAN ;;                 (* f"WLAN STATUS: {...}" *)
      status <- WLAN_status WLAN ;;
      if Z.eqb status STAT_GOT_IP then ret tt
      else
        connected <- WLAN_isconnected WLAN ;;
        if connected then ret tt
        else sleep 1 ;;; await_connection WLAN left'
  end.

Definition connect_interface (WLAN : wlan) (verbose : bool) : M unit :=
  try_except
    (WLAN_SSID <- dynamic_get_secret "WLAN_SSID" ;;
     WLAN_PASSWORD <- dynamic_get_secret "WLAN_PASSWORD" ;;
     match WLAN_SSID with
     | None => raise WLANConnectionError
     | Some ssid =>
         names <- WLAN_scan WLAN ;;
         if negb (member ssid (available_networks names))
         then raise WLANConnectionError
         else WLAN_connect WLAN ssid WLAN_PASSWORD
     end)
    (fun e => match e with
              | TypeError => raise WLANConnectionError
              | OSError =>
                  (* f"OSError: {e}": this handler does not bind [e] *)
                  raise NameError
              | _ => raise e
              end) ;;;
  try_except (await_connection WLAN 30)
    (fun e => match e with
              | StopIteration =>
                  _ <- WLAN_status WLAN ;;     (* f"... STATUS: {...}" *)
                  raise StopIteration          (* raise *)
              | _ => raise e
              end).

(** *** [access_point_reset] *)

Definition access_point_reset (WLAN : wlan) (verbose : bool)
    : M (wlan * Z) :=
  WLAN_disconnect WLAN ;;;
  deactivate_interface WLAN verbose ;;;
  WLAN_deinit WLAN ;;;
  WLAN <- WLAN_new AP_IF ;;
  AP_SSID <- dynamic_get_secret "AP_SSID" ;;
  AP_PASSWORD <- dynamic_get_secret "AP_PASSWORD" ;;
  WLAN <- WLAN_config WLAN AP_SSID AP_PASSWORD None ;;
  activate_interface WLAN verbose ;;;
  ret (WLAN, AP_IF).

(** *** [get_network_interface] *)

(** [binascii.hexlify(machine.unique_id()).decode().upper()] *)
Definition PICO_ID : string := upper (hexlify (hw_unique_id hw)).

Definition is_None (v : pyval) : bool :=
  match v with None => true | Some _ => false end.

Definition get_network_interface (verbose : bool) : M (wlan * Z) :=
  WLAN_SSID <- dynamic_get_secret "WLAN_SSID" ;;
  WLAN_PASSWORD <- dynamic_get_secret "WLAN_PASSWORD" ;;
  AP_SSID <- dynamic_get_secret "AP_SSID" ;;
  AP_PASSWORD <- dynamic_get_secret "AP_PASSWORD" ;;
  AP <- (if (is_None AP_SSID || is_None AP_PASSWORD)%bool then
           let AP_SSID := "PICO-W-" ++ PICO_ID in
           let AP_PASSWORD := PICO_ID in
           _ <- dynamic_set_secret "AP_SSID" (Some AP_SSID) ;;
           _ <- dynamic_set_secret "AP_PASSWORD" (Some AP_PASSWORD) ;;
           ret (Some AP_SSID, Some AP_PASSWORD)
         else ret (AP_SSID, AP_PASSWORD)) ;;
  WLAN_MODE <- (if (is_None WLAN_SSID
                    || (String.length (py_str WLAN_SSID) <? 1)%nat)%bool then
                  _ <- dynamic_set_secret "WLAN_SSID" None ;;
                  _ <- dynamic_set_secret "WLAN_PASSWORD" None ;;
                  ret AP_IF
                else ret STA_IF) ;;
  WLAN <- WLAN_new WLAN_MODE ;;
  WLAN <- WLAN_config WLAN (fst AP) (snd AP) (Some 10555712%Z) ;;
  activate_interface WLAN verbose ;;;
  try_except
    (connect_interface WLAN verbose ;;; ret (WLAN, WLAN_MODE))
    (fun e => match e with
              | WLANConnectionError => access_point_reset WLAN verbose
              | StopIteration => access_point_reset WLAN verbose
              | _ => raise e
              end).

(** *** [connection_issue] *)

Definition connection_issue (WLAN : wlan) (WLAN_MODE : Z) (verbose : bool)
    : M bool :=
  if Z.eqb WLAN_MODE AP_IF then ret true
  else if Z.eqb WLAN_MODE STA_IF then
    connected <- WLAN_isconnected WLAN ;;
    ret (negb connected)
  else ret false.

End Connection.

(** *** [get_context]

    The files of [certs/] are given by what [open(name, "rb")] finds: the
    bytes of the file, or [None] when there is no such file and [open]
    raises [OSError].  The context is modelled by what is loaded into it;
    the calls of the [ssl] module are taken to return normally. *)

Inductive ssl_protocol : Type := PROTOCOL_TLS_CLIENT.
Inductive ssl_verify : Type := CERT_REQUIRED.

Record SSLContext : Type := {
  protocol : ssl_protocol;              (* ssl.SSLContext(protocol) *)
  verify_mode : ssl_verify;
  cert_chain : list byte * list byte;   (* load_cert_chain(certfile, keyfile) *)
  cadata : list byte                    (* load_verify_locations(cadata=...) *)
}.

(** What [get_context] raises: [OSError(message)], or the [IndexError] of
    [file_names[len(certs) + 1]]. *)
Inductive context_error : Type :=
| CertOSError (message : string)
| CertIndexError.

Definition file_names : list string :=
  [ "certs/irrigation-control.private.key.der";
    "certs/irrigation-control.certificate.der";
    "certs/AmazonRootCA1.cer" ].

(** The handler of [OSError], entered with [len(certs) = opened]. *)
Definition certificate_missing (opened : nat) : context_error :=
  match nth_error file_names (opened + 1) with
  | Some certificate => CertOSError (certificate ++ " missing")
  | None => CertIndexError
  end.

Definition get_context (open : string -> option (list byte)) (verbose : bool)
    : context_error + SSLContext :=
  match open "certs/irrigation-control.private.key.der" with
  | None => inl (certificate_missing 0)
  | Some PRIVATE_KEY_DER =>
      match open "certs/irrigation-control.certificate.der" with
      | None => inl (certificate_missing 1)
      | Some CERT_DER =>
          match open "certs/AmazonRootCA1.cer" with
          | None => inl (certificate_missing 2)
          | Some CA_DER =>
              inr {| protocol := PROTOCOL_TLS_CLIENT;
                     verify_mode := CERT_REQUIRED;
                     cert_chain := (CERT_DER, PRIVATE_KEY_DER);
                     cadata := CA_DER |}
          end
      end
  end.

(* ===================================================================== *)
(** ** [pico-webserver/lib/project/connection.py]

    The second copy of the module differs from the first in
    [connect_interface], whose handler catches [OSError] and [TypeError]
    together, and in [connection_issue], which has no [verbose] argument.
    Its [dynamic_get_secret] is the one of [utility.py] above, line for
    line. *)
(* ===================================================================== *)

Module PicoWebserver.

Section Connection.

Variable hw : Radio.

Definition connect_interface (WLAN : wlan) (verbose : bool) : M unit :=
  try_except
    (WLAN_SSID <- dynamic_get_secret "WLAN_SSID" ;;
     WLAN_PASSWORD <- dynamic_get_secret "WLAN_PASSWORD" ;;
     match WLAN_SSID with
     | None => raise WLANConnectionError
     | Some ssid =>
         names <- WLAN_scan hw WLAN ;;
         if negb (member ssid (available_networks names))
         then raise WLANConnectionError
         else WLAN_connect hw WLAN ssid WLAN_PASSWORD
     end)
    (fun e => match e with
              | OSError => raise WLANConnectionError
              | TypeError => raise WLANConnectionError
              | _ => raise e
              end) ;;;
  try_except (await_connection hw WLAN 30)
    (fun e => match e with
              | StopIteration =>
                  _ <- WLAN_status hw WLAN ;;    (* f"... STATUS: {...}" *)
                  raise StopIteration            (* raise *)
              | _ => raise e
              end).

Definition connection_issue (WLAN : wlan) (WLAN_MODE : Z) : M bool :=
  if Z.eqb WLAN_MODE AP_IF then ret true
  else if Z.eqb WLAN_MODE STA_IF then
    connected <- WLAN_isconnected hw WLAN ;;
    ret (negb connected)
  else ret false.

End Connection.

End PicoWebserver.

(* ===================================================================== *)
(** ** The vocabulary of the statements *)
(* ===================================================================== *)

(** *** Text and lines *)

(** A line as [readlines] returns it when the text goes on after it: it
    ends with its only line feed. *)
Fixpoint proper_line (l : string) : bool :=
  match l with
  | EmptyString => false
  | String c l' =>
      match l' with
      | EmptyString => is_LF c
      | String _ _ => negb (is_LF c) && proper_line l'
      end
  end.

Definition upper_hex (c : ascii) : bool :=
  has_char c "0123456789ABCDEF".

(** *** The secrets file *)

(** The line that replaces a line in which the name occurs. *)
Definition new_line (name : string) (value : pyval) : string :=
  match value with
  | None => format_plain name value
  | Some _ => format_quoted name value
  end.

(** The lines that [dynamic_set_secret] writes, from the lines it read. *)
Definition set_lines (name : string) (value : pyval) (ls : list string)
    : list string :=
  let '(ls', name_found) := replace_lines name value ls in
  if negb name_found then (ls' ++ [format_quoted name value])%list else ls'.

(** The text of a value can stand between quotes. *)
Definition clean (value : pyval) : bool := all_chars lit_char (py_str value).

(** A line that ends with its line feed and that the import accepts. *)
Definition good_line (l : string) : bool :=
  (proper_line l && match parse_line l with Some _ => true | None => false end)%bool.

(** A secrets file in the form in which the program writes it. *)
Definition well_formed (text : string) : bool :=
  forallb good_line (readlines text).

(** The assignments of the lines that parse. *)
Definition bindings (ls : list string) : list (string * pyval) :=
  flat_map (fun l => match parse_line l with Some b => [b] | None => [] end) ls.

(** The text that [create_secrets] writes. *)
Definition baseline : string := join secret_lines0.




(** The file after the two station credentials were cleared. *)
Definition cleared (text : string) : string :=
  join (set_lines "WLAN_PASSWORD" None
          (readlines (join (set_lines "WLAN_SSID" None (readlines text))))).

(** *** The history of calls *)

(** [w'] is [w] after the calls [evs]: the same secrets file and a history
    longer by [evs]. *)
Definition after (w : world) (evs : list event) (w' : world) : Prop :=
  secrets_py w' = secrets_py w /\ trace w' = (trace w ++ evs)%list.

(** The calls that a wait makes: polls and sleeps. *)
Definition is_poll (e : event) : bool :=
  match e with
  | EvStatus | EvActive | EvIsConnected | EvSleep _ => true
  | _ => false
  end.

(** In the calls [evs] made from the history [tr], nothing follows a poll
    [q] whose answer [reported] was the one waited for. *)
Definition stops_at (q : event) (reported : list event -> bool)
    (tr evs : list event) : Prop :=
  forall pre post,
    evs = (pre ++ q :: post)%list -> reported (tr ++ pre)%list = true ->
    post = [].

Definition got_ip (hw : Radio) (tr : list event) : bool :=
  Z.eqb (hw_status hw tr) STAT_GOT_IP.

(** The calls of [access_point_reset], when its two waits made the calls
    [d] and [a]. *)
Definition reset_events (ssid password : pyval) (d a : list event)
    : list event :=
  ([EvDisconnect; EvSetActive false] ++ d
   ++ [EvDeinit; EvNew AP_IF; EvConfig ssid password None; EvSetActive true]
   ++ a)%list.

(** *** Handlers and answers *)

(** What [connect_interface] does with the exceptions of its wait. *)
Definition reraise (hw : Radio) (WLAN : wlan) (e : exn) : M unit :=
  match e with
  | StopIteration => bind (WLAN_status hw WLAN) (fun _ => raise StopIteration)
  | _ => raise e
  end.

(** The power-management value [0xa11140] passed to [WLAN.config]. *)
Definition PM : Z := 10555712%Z.

(** What [get_network_interface] does with the exceptions of
    [connect_interface]. *)
Definition fallback (hw : Radio) (WLAN : wlan) (verbose : bool) (e : exn)
    : M (wlan * Z) :=
  match e with
  | WLANConnectionError => access_point_reset hw WLAN verbose
  | StopIteration => access_point_reset hw WLAN verbose
  | _ => raise e
  end.

(** The answers of the handler. *)
Definition bad_request : response :=
  {| body_request := true; body_valid := false; status_code := 400 |}.
Definition reset_content : response :=
  {| body_request := true; body_valid := true; status_code := 205 |}.

(** *** Messages *)

(** The last character of a text. *)
Fixpoint last_char (s : string) : option ascii :=
  match s with
  | EmptyString => None
  | String c s' =>
      match s' with
      | EmptyString => Some c
      | String _ _ => last_char s'
      end
  end.

(** A text that neither starts nor ends with white space. *)
Definition trimmed (s : string) : bool :=
  (match s with
   | EmptyString => true
   | String c _ => negb (is_space c)
   end
   && match last_char s with
      | None => true
      | Some c => negb (is_space c)
      end)%bool.

(** *** Secrets that do not touch each other *)

(** The lines of [ls] in which [name] occurs do not assign [other]. *)
Definition apart (name other : string) (ls : list string) : bool :=
  forallb (fun l => negb (str_in name l)
                    || match parse_line l with
                       | Some (k, _) => negb (String.eqb k other)
                       | None => true
                       end)%bool ls.

(** *** A board that has booted *)


(** *** Reading the identifier back *)

(** The value of an upper-case hexadecimal digit. *)
Definition unhex_digit (c : ascii) : nat :=
  let n := nat_of_ascii c in
  if (n <? 58)%nat then n - 48 else n - 55.

(** The bytes that a text of upper-case hexadecimal digits stands for, two
    digits per byte. *)
Fixpoint unhexlify (s : string) : list byte :=
  match s with
  | String a (String b s') =>
      match Byte.of_nat (16 * unhex_digit a + unhex_digit b) with
      | Some x => x :: unhexlify s'
      | None => []
      end
  | _ => []
  end.

(** *** Results and requests *)

(** The last call of the history [h] was a poll that reported a
    connection: a status poll answered [STAT_GOT_IP], or [isconnected()]
    answered true. *)
Definition connection_reported (hw : Radio) (h : list event) : Prop :=
  exists pre,
    (h = (pre ++ [EvStatus])%list /\ got_ip hw pre = true) \/
    (h = (pre ++ [EvIsConnected])%list /\ hw_isconnected hw pre = true).

(** What the first [try] of [connect_interface] makes of an exception. *)
Definition connect_error (e : exn) : exn :=
  match e with
  | TypeError => WLANConnectionError
  | OSError => NameError
  | _ => e
  end.


(** The body of the first [try] of [connect_interface], the same in the two
    copies of the module: read the credentials, scan, ask to connect. *)
Definition connect_request (hw : Radio) (WLAN : wlan) : M unit :=
  WLAN_SSID <- dynamic_get_secret "WLAN_SSID" ;;
  WLAN_PASSWORD <- dynamic_get_secret "WLAN_PASSWORD" ;;
  match WLAN_SSID with
  | None => raise WLANConnectionError
  | Some ssid =>
      names <- WLAN_scan hw WLAN ;;
      if negb (member ssid (available_networks names))
      then raise WLANConnectionError
      else WLAN_connect hw WLAN ssid WLAN_PASSWORD
  end.

(** *** Bounds on the calls *)

(** Whatever [m] answers or raises, and from whatever state, the calls that
    it makes are added at the end of the history, and at most [k] of them
    satisfy [p]. *)
Definition at_most {A : Type} (p : event -> bool) (k : nat) (m : M A)
    : Prop :=
  forall w, exists evs,
    trace (snd (m w)) = (trace w ++ evs)%list /\ count p evs <= k.

(** What one call adds to the number of calls that satisfy [p]. *)
Definition weight (p : event -> bool) (e : event) : nat :=
  if p e then 1 else 0.

(** The weight of one round of each wait. *)
Definition round_active (p : event -> bool) : nat :=
  weight p EvStatus + weight p EvActive + weight p (EvSleep 1).
Definition round_inactive (p : event -> bool) : nat :=
  weight p EvActive + weight p (EvSleep 1).
Definition round_connection (p : event -> bool) : nat :=
  2 * weight p EvStatus + weight p EvIsConnected + weight p (EvSleep 1).

(** The weight of the calls of [connect_interface], [access_point_reset]
    and [get_network_interface], given bounds on the weight of the calls
    that carry arguments. *)
Definition cost_connect (p : event -> bool) (connect : nat) : nat :=
  weight p EvScan + connect + (30 * round_connection p + weight p EvStatus).
Definition cost_reset (p : event -> bool) (new_interface config : nat)
    : nat :=
  weight p EvDisconnect
  + (weight p (EvSetActive false) + 5 * round_inactive p)
  + weight p EvDeinit + new_interface + config
  + (weight p (EvSetActive true) + 5 * round_active p).
Definition cost_acquire (p : event -> bool)
    (new_interface config connect : nat) : nat :=
  new_interface + config
  + (weight p (EvSetActive true) + 5 * round_active p)
  + cost_connect p connect + cost_reset p new_interface config.

(** *** Rounds of a wait *)

(** The calls of [n] rounds of a wait, [round] being the calls of one. *)
Fixpoint rounds (n : nat) (round : list event) : list event :=
  match n with
  | O => []
  | S n' => (round ++ rounds n' round)%list
  end.

(** *** States with a well-formed secrets file *)

(** The state has a secrets file, in the form in which the program writes
    it: every line is [NAME = None] or [NAME = 'text'] and ends with its
    line feed. *)
Definition well_kept (w : world) : Prop :=
  exists text, secrets_py w = Some text /\ well_formed text = true.

(** [m] keeps [I]: from a state in which [I] holds it leaves a state in
    which [I] holds, whether it returns or raises. *)
Definition preserves {A : Type} (I : world -> Prop) (m : M A) : Prop :=
  forall w, I w -> I (snd (m w)).

(** From the state [w], the calls that [m] makes are added at the end of
    the history, and at most [k] of them satisfy [p]. *)
Definition within {A : Type} (p : event -> bool) (k : nat) (m : M A)
    (w : world) : Prop :=
  exists evs,
    trace (snd (m w)) = (trace w ++ evs)%list /\ count p evs <= k.

(** From a state with a well-formed secrets file, [m] leaves such a state,
    and an exception that it raises is one of [E]. *)
Definition raises_only {A : Type} (E : exn -> Prop) (m : M A) : Prop :=
  forall w, well_kept w ->
    well_kept (snd (m w)) /\
    match fst (m w) with
    | Ok _ => True
    | Raise e => E e
    end.




(* ===================================================================== *)
(** ** A board, radios and secrets files to run the code on *)
(* ===================================================================== *)

(** The identifier of the example in the sources: [E66161234567890B]. *)
Definition board_id : list byte := [xe6; x61; x61; x23; x45; x67; x89; x0b].

(** A radio that sees the networks [names], accepts every connect request
    and answers every status poll with [status] and every other poll with
    [flag]. *)
Definition radio (names : list string) (status : Z) (flag : bool) : Radio :=
  {| hw_unique_id := board_id;
     hw_status := fun _ => status;
     hw_active := fun _ => flag;
     hw_isconnected := fun _ => flag;
     hw_scan := fun _ => Ok names;
     hw_connect := fun _ => None |}.

(** A secrets file with the given four credentials, each written as
    [dynamic_set_secret] writes it, and the two MQTT lines of
    [create_secrets]. *)
Definition secrets_text (ap_ssid ap_password wlan_ssid wlan_password : pyval)
    : string :=
  join [ new_line "AP_SSID" ap_ssid;
         new_line "AP_PASSWORD" ap_password;
         new_line "WLAN_SSID" wlan_ssid;
         new_line "WLAN_PASSWORD" wlan_password;
         "MQTT_ENDPOINT = None" ++ NL;
         "MQTT_CLIENT_ID = None" ++ NL ].

Definition booted (text : string) : world :=
  {| secrets_py := Some text; trace := [] |}.

(** A provisioned board: its access-point credentials are stored and the
    station credentials are the ones of the spec's scenario. *)
Definition homenet : string :=
  secrets_text (Some "PICO-W-E66161234567890B") (Some "E66161234567890B")
    (Some "HomeNet") (Some "secret").

(** What the import of [homenet] gives. *)
Definition homenet_bindings : list (string * pyval) :=
  [ ("AP_SSID", Some "PICO-W-E66161234567890B");
    ("AP_PASSWORD", Some "E66161234567890B");
    ("WLAN_SSID", Some "HomeNet"); ("WLAN_PASSWORD", Some "secret");
    ("MQTT_ENDPOINT", None); ("MQTT_CLIENT_ID", None) ].

Definition station : wlan :=
  {| w_mode := STA_IF; w_ssid := None; w_password := None; w_pm := None |}.

(** The provisioned board after a request with an empty SSID. *)
Definition unprovisioned : string :=
  secrets_text (Some "PICO-W-E66161234567890B") (Some "E66161234567890B")
    None (Some "secret").

(** A secrets file written by hand with the two MQTT settings only. *)
Definition mqtt_only : string :=
  join [ "MQTT_ENDPOINT = None" ++ NL; "MQTT_CLIENT_ID = None" ++ NL ].

(** A board not booted yet (no access-point credentials) whose station
    network is named like a key of the secrets file. *)
Definition colliding : string :=
  secrets_text None None (Some "AP_SSID") (Some "secret").

(** *** More radios, boards and clocks *)


(** A radio whose scan fails with [OSError]. *)
Definition radio_scan_fails : Radio :=
  {| hw_unique_id := board_id;
     hw_status := fun _ => 0%Z;
     hw_active := fun _ => false;
     hw_isconnected := fun _ => false;
     hw_scan := fun _ => Raise OSError;
     hw_connect := fun _ => None |}.

(** A second board, with another identifier. *)
Definition other_board : Radio :=
  {| hw_unique_id := [xe6; x61; x61; x23; x45; x67; x89; x0c];
     hw_status := fun _ => 0%Z;
     hw_active := fun _ => false;
     hw_isconnected := fun _ => false;
     hw_scan := fun _ => Ok [];
     hw_connect := fun _ => None |}.

(** A time server that fails three times and answers from then on. *)
Definition ntp_late : Ntp :=
  fun n => if (n <? 3)%nat then Some OSError else None.


(** *** Tactics *)

(** Split a goal along its conjunctions, and no further. *)
Ltac splits := repeat match goal with |- _ /\ _ => split end.

(* ===================================================================== *)
(** ** Facts about text *)
(* ===================================================================== *)

Module PyStrFacts.

Lemma append_assoc (a b c : string) : (a ++ b) ++ c = a ++ (b ++ c).
Proof. induction a as [|x a IH]; simpl; [reflexivity | now rewrite IH]. Qed.

Lemma append_nil_r (a : string) : a ++ EmptyString = a.
Proof. induction a as [|x a IH]; simpl; [reflexivity | now rewrite IH]. Qed.

Lemma has_char_app (c : ascii) (a b : string) :
  has_char c (a ++ b) = (has_char c a || has_char c b)%bool.
Proof.
  induction a as [|x a IH]; simpl; [reflexivity|].
  now rewrite IH, orb_assoc.
Qed.

Lemma all_chars_app (p : ascii -> bool) (a b : string) :
  all_chars p (a ++ b) = (all_chars p a && all_chars p b)%bool.
Proof.
  induction a as [|x a IH]; simpl; [reflexivity|].
  now rewrite IH, andb_assoc.
Qed.

(** A character that fails [p] is not in a text whose characters pass. *)
Lemma all_chars_has_char (p : ascii -> bool) (c : ascii) (s : string) :
  all_chars p s = true -> p c = false -> has_char c s = false.
Proof.
  induction s as [|x s IH]; simpl; [reflexivity|].
  intros H Hc. apply andb_true_iff in H as [Hx Hs].
  rewrite (IH Hs Hc), orb_false_r.
  destruct (Ascii.eqb_spec c x) as [->|]; [congruence | reflexivity].
Qed.

Lemma all_chars_weaken (p q : ascii -> bool) (s : string) :
  (forall c, p c = true -> q c = true) ->
  all_chars p s = true -> all_chars q s = true.
Proof.
  intros Hpq. induction s as [|x s IH]; simpl; [reflexivity|].
  intros H. apply andb_true_iff in H as [Hx Hs].
  now rewrite (Hpq _ Hx), (IH Hs).
Qed.

Lemma starts_with_app (a r : string) : starts_with a (a ++ r) = true.
Proof.
  induction a as [|x a IH]; simpl; [reflexivity|].
  now rewrite Ascii.eqb_refl, IH.
Qed.


Lemma str_in_prefix (a r : string) : str_in a (a ++ r) = true.
Proof.
  destruct (a ++ r) eqn:E; simpl; rewrite <- E, starts_with_app;
    reflexivity.
Qed.



(** [span] stops at the first character that fails the test. *)
Lemma span_app (p : ascii -> bool) (a b : string) :
  all_chars p a = true ->
  match b with EmptyString => true | String c _ => negb (p c) end = true ->
  span p (a ++ b) = (a, b).
Proof.
  intros Ha Hb. induction a as [|x a IH]; simpl in *.
  - destruct b as [|c b]; [reflexivity|].
    apply negb_true_iff in Hb. simpl. now rewrite Hb.
  - apply andb_true_iff in Ha as [Hx Ha]. now rewrite Hx, (IH Ha).
Qed.

Lemma span_split (p : ascii -> bool) (s a b : string) :
  span p s = (a, b) -> s = a ++ b.
Proof.
  revert a b. induction s as [|x s IH]; simpl; intros a b H.
  - now inversion H.
  - destruct (p x).
    + destruct (span p s) as [a' b'] eqn:E. inversion H; subst.
      simpl. now rewrite (IH _ _ eq_refl).
    + now inversion H.
Qed.

Lemma strip_prefix_app (a r : string) : strip_prefix a (a ++ r) = Some r.
Proof.
  induction a as [|x a IH]; simpl; [reflexivity|].
  now rewrite Ascii.eqb_refl.
Qed.

Lemma proper_line_intro (b : string) :
  has_char LF b = false -> proper_line (b ++ String LF EmptyString) = true.
Proof.
  induction b as [|x b IH]; [reflexivity|].
  cbn [has_char append proper_line].
  intros H. apply orb_false_iff in H as [Hx Hb].
  rewrite (IH Hb). unfold is_LF. rewrite Ascii.eqb_sym, Hx.
  destruct (b ++ String LF EmptyString) eqn:E; [|reflexivity].
  destruct b; discriminate.
Qed.

Lemma readlines_proper_cons (l r : string) :
  proper_line l = true -> readlines (l ++ r) = l :: readlines r.
Proof.
  induction l as [|x l IH]; [discriminate|].
  cbn [proper_line append readlines].
  destruct l as [|y l].
  - intros ->. reflexivity.
  - intros H. apply andb_true_iff in H as [Hx Hl].
    apply negb_true_iff in Hx. rewrite Hx.
    now rewrite (IH Hl).
Qed.

(** Reading back what was written, when every line written is proper. *)
Lemma readlines_join (ls : list string) :
  forallb proper_line ls = true -> readlines (join ls) = ls.
Proof.
  induction ls as [|l ls IH]; simpl; [reflexivity|].
  intros H. apply andb_true_iff in H as [Hl Hls].
  cbn [join fold_right].
  now rewrite (readlines_proper_cons _ _ Hl), (IH Hls).
Qed.

(** Writing back what was read gives the same text. *)
Lemma join_readlines (s : string) : join (readlines s) = s.
Proof.
  unfold join. induction s as [|x s IH]; [reflexivity|].
  cbn [readlines]. destruct (is_LF x).
  - cbn [fold_right append]. now rewrite IH.
  - destruct (readlines s) as [|l ls] eqn:E;
      cbn [fold_right append] in *; now rewrite <- IH.
Qed.

Lemma hexlify_upper_hex (bs : list byte) :
  all_chars upper_hex (upper (hexlify bs)) = true.
Proof.
  induction bs as [|b bs IH]; simpl; [reflexivity|].
  rewrite IH, andb_true_r, andb_true_iff.
  destruct b; vm_compute; split; reflexivity.
Qed.



End PyStrFacts.
Import PyStrFacts.

Module SecretsFacts.

Lemma replace_lines_spec (name : string) (value : pyval) (ls : list string) :
  replace_lines name value ls =
    (map (fun l => if str_in name l then new_line name value else l) ls,
     existsb (str_in name) ls).
Proof.
  induction ls as [|l ls IH]; [reflexivity|].
  cbn [replace_lines map existsb]. rewrite IH.
  destruct (str_in name l); cbn [negb orb]; [|reflexivity].
  unfold new_line. destruct value; reflexivity.
Qed.

Lemma set_lines_spec (name : string) (value : pyval) (ls : list string) :
  set_lines name value ls =
    (map (fun l => if str_in name l then new_line name value else l) ls
     ++ (if existsb (str_in name) ls then []
         else [format_quoted name value]))%list.
Proof.
  unfold set_lines. rewrite replace_lines_spec.
  destruct (existsb (str_in name) ls); cbn [negb];
    [now rewrite app_nil_r | reflexivity].
Qed.

(** What [dynamic_set_secret] does to an existing file. *)
Lemma dynamic_set_secret_text (name : string) (value : pyval)
    (text : string) (tr : list event) :
  dynamic_set_secret name value {| secrets_py := Some text; trace := tr |} =
    (Ok (negb (is_None (none_if_empty value))),
     {| secrets_py :=
          Some (join (set_lines name (none_if_empty value) (readlines text)));
        trace := tr |}).
Proof.
  unfold dynamic_set_secret, bind, create_secrets, set_lines.
  cbn [secrets_py trace].
  destruct (replace_lines name (none_if_empty value) (readlines text))
    as [ls' found].
  destruct (none_if_empty value); reflexivity.
Qed.

(** What [dynamic_get_secret] reads in a file that imports. *)
Lemma dynamic_get_secret_text (name : string) (text : string)
    (tr : list event) (bs : list (string * pyval)) :
  exec_module text = Some bs ->
  dynamic_get_secret name {| secrets_py := Some text; trace := tr |} =
    (Ok (none_if_empty (getattr bs name None)),
     {| secrets_py := Some text; trace := tr |}).
Proof.
  intros H. unfold dynamic_get_secret. cbn [secrets_py]. now rewrite H.
Qed.

(** *** Parsing the lines that are written *)

Lemma ident_char_not_LF : ident_char LF = false.
Proof. reflexivity. Qed.

Lemma lit_char_not_LF : lit_char LF = false.
Proof. reflexivity. Qed.

Lemma is_ident_chars (name : string) :
  is_ident name = true -> all_chars ident_char name = true.
Proof.
  unfold is_ident. intros H.
  apply andb_true_iff in H as [H _]. now apply andb_true_iff in H as [_ H].
Qed.

Lemma parse_line_plain (name : string) :
  is_ident name = true ->
  parse_line (format_plain name None) = Some (name, None).
Proof.
  intros H. unfold parse_line, format_plain.
  rewrite span_app; [| now apply is_ident_chars | reflexivity].
  rewrite H. reflexivity.
Qed.

Lemma parse_line_quoted (name : string) (value : pyval) :
  is_ident name = true -> clean value = true ->
  parse_line (format_quoted name value) = Some (name, Some (py_str value)).
Proof.
  intros H Hc. unfold parse_line, format_quoted.
  rewrite span_app; [| now apply is_ident_chars | reflexivity].
  rewrite H.
  change (strip_prefix " = " (" = '" ++ py_str value ++ "'" ++ NL))
    with (Some ("'" ++ py_str value ++ "'" ++ NL)).
  cbv iota beta.
  unfold parse_value.
  change (strip_prefix "None" ("'" ++ py_str value ++ "'" ++ NL))
    with (@None string).
  change (strip_prefix "'" ("'" ++ py_str value ++ "'" ++ NL))
    with (Some (py_str value ++ "'" ++ NL)).
  cbv iota beta.
  rewrite span_app; [| exact Hc | reflexivity].
  reflexivity.
Qed.

Lemma parse_line_new (name : string) (value : pyval) :
  is_ident name = true -> clean value = true ->
  parse_line (new_line name value) = Some (name, value).
Proof.
  intros H Hc. destruct value as [s|]; cbn [new_line].
  - now rewrite parse_line_quoted.
  - now apply parse_line_plain.
Qed.

(** The name that a line assigns is at the start of the line. *)
Lemma parse_line_key (l k : string) (v : pyval) :
  parse_line l = Some (k, v) -> str_in k l = true /\ is_ident k = true.
Proof.
  unfold parse_line. destruct (span ident_char l) as [name r1] eqn:E.
  destruct (is_ident name) eqn:Hid; [|discriminate].
  destruct (strip_prefix " = " r1) as [r2|]; [|discriminate].
  destruct (parse_value r2) as [[v' r3]|]; [|discriminate].
  destruct (at_eol r3); [|discriminate].
  intros H. inversion H; subst.
  apply span_split in E. subst l. split; [apply str_in_prefix | exact Hid].
Qed.

Lemma proper_format_plain (name : string) (value : pyval) :
  is_ident name = true -> clean value = true ->
  proper_line (format_plain name value) = true.
Proof.
  intros H Hc. unfold format_plain, NL.
  rewrite <- !append_assoc. apply proper_line_intro.
  rewrite !has_char_app.
  rewrite (all_chars_has_char _ _ _ (is_ident_chars _ H) ident_char_not_LF).
  rewrite (all_chars_has_char _ _ _ Hc lit_char_not_LF).
  reflexivity.
Qed.

Lemma proper_format_quoted (name : string) (value : pyval) :
  is_ident name = true -> clean value = true ->
  proper_line (format_quoted name value) = true.
Proof.
  intros H Hc. unfold format_quoted, NL.
  rewrite <- !append_assoc. apply proper_line_intro.
  rewrite !has_char_app.
  rewrite (all_chars_has_char _ _ _ (is_ident_chars _ H) ident_char_not_LF).
  rewrite (all_chars_has_char _ _ _ Hc lit_char_not_LF).
  reflexivity.
Qed.

Lemma good_format_quoted (name : string) (value : pyval) :
  is_ident name = true -> clean value = true ->
  good_line (format_quoted name value) = true.
Proof.
  intros H Hc. unfold good_line.
  now rewrite proper_format_quoted, parse_line_quoted.
Qed.

Lemma good_new_line (name : string) (value : pyval) :
  is_ident name = true -> clean value = true ->
  good_line (new_line name value) = true.
Proof.
  intros H Hc. unfold good_line. rewrite parse_line_new by assumption.
  destruct value; cbn [new_line];
    [now rewrite proper_format_quoted | now rewrite proper_format_plain].
Qed.

(** *** The lines after a write *)

Lemma set_lines_good (name : string) (value : pyval) (ls : list string) :
  is_ident name = true -> clean value = true ->
  forallb good_line ls = true ->
  forallb good_line (set_lines name value ls) = true.
Proof.
  intros H Hc Hls. rewrite set_lines_spec, forallb_app.
  apply andb_true_iff. split.
  - rewrite forallb_forall in *. intros l Hl.
    apply in_map_iff in Hl as (l0 & <- & Hl0).
    destruct (str_in name l0); [now apply good_new_line | now apply Hls].
  - destruct (existsb (str_in name) ls); [reflexivity|].
    cbn [forallb]. now rewrite good_format_quoted.
Qed.

Lemma good_lines_proper (ls : list string) :
  forallb good_line ls = true -> forallb proper_line ls = true.
Proof.
  rewrite !forallb_forall. intros H l Hl.
  specialize (H l Hl). unfold good_line in H.
  now apply andb_true_iff in H as [H _].
Qed.

Lemma exec_lines_good (ls : list string) :
  forallb good_line ls = true -> exec_lines ls = Some (bindings ls).
Proof.
  induction ls as [|l ls IH]; [reflexivity|].
  cbn [forallb exec_lines bindings flat_map]. intros H.
  apply andb_true_iff in H as [Hl Hls]. rewrite (IH Hls).
  unfold good_line in Hl. apply andb_true_iff in Hl as [_ Hl].
  destruct (parse_line l); [reflexivity | discriminate].
Qed.

(** A well-formed file is the lines it is read as, and it imports. *)
Lemma well_formed_exec (text : string) :
  well_formed text = true ->
  exec_module text = Some (bindings (readlines text)).
Proof. intros H. now apply exec_lines_good. Qed.

Lemma well_formed_join (ls : list string) :
  forallb good_line ls = true -> well_formed (join ls) = true.
Proof.
  intros H. unfold well_formed.
  now rewrite (readlines_join _ (good_lines_proper _ H)).
Qed.

(** *** Reading an attribute *)

(** When every assignment to [name] gives [v], so does the lookup that
    starts from [v]. *)
Lemma getattr_all (name : string) (v : pyval) (ls : list string) :
  (forall l k v', In l ls -> parse_line l = Some (k, v') -> k = name ->
                  v' = v) ->
  getattr (bindings ls) name v = v.
Proof.
  induction ls as [|l ls IH]; [reflexivity|]. intros H.
  cbn [bindings flat_map]. fold (bindings ls).
  destruct (parse_line l) as [[k v']|] eqn:E; cbn [app getattr].
  - destruct (String.eqb_spec k name) as [->|Hk].
    + rewrite (H l name v' (or_introl eq_refl) E eq_refl).
      apply IH. intros l0 k0 v0 Hl0. apply H. now right.
    + apply IH. intros l0 k0 v0 Hl0. apply H. now right.
  - apply IH. intros l0 k0 v0 Hl0. apply H. now right.
Qed.

(** When every assignment to [name] gives [v] and there is one, the lookup
    finds [v] whatever it starts from. *)
Lemma getattr_some (name : string) (v d : pyval) (ls : list string) :
  (forall l k v', In l ls -> parse_line l = Some (k, v') -> k = name ->
                  v' = v) ->
  (exists l, In l ls /\ parse_line l = Some (name, v)) ->
  getattr (bindings ls) name d = v.
Proof.
  revert d. induction ls as [|l ls IH]; intros d H (l1 & Hin & Hp).
  - destruct Hin.
  - cbn [bindings flat_map]. fold (bindings ls).
    assert (Hrest : forall l0 k0 v0, In l0 ls ->
              parse_line l0 = Some (k0, v0) -> k0 = name -> v0 = v).
    { intros l0 k0 v0 Hl0. apply H. now right. }
    destruct (parse_line l) as [[k v']|] eqn:E; cbn [app getattr].
    + destruct (String.eqb_spec k name) as [->|Hk].
      * rewrite (H l name v' (or_introl eq_refl) E eq_refl).
        now apply getattr_all.
      * apply IH; [exact Hrest|].
        destruct Hin as [<- | Hin]; [congruence | now exists l1].
    + apply IH; [exact Hrest|].
      destruct Hin as [<- | Hin]; [congruence | now exists l1].
Qed.

(** A lookup of another name does not see the lines of [name]. *)
Lemma in_set_lines (name : string) (value : pyval) (ls : list string)
    (l : string) :
  In l (set_lines name value ls) ->
  l = new_line name value \/ l = format_quoted name value \/
  (In l ls /\ str_in name l = false).
Proof.
  rewrite set_lines_spec. intros H. apply in_app_or in H as [H | H].
  - apply in_map_iff in H as (l0 & <- & Hl0).
    destruct (str_in name l0) eqn:E; [now left | right; right; now split].
  - destruct (existsb (str_in name) ls); [destruct H|].
    destruct H as [<- | []]. right; now left.
Qed.

(** After [name] was set to a text, the lookup of [name] gives that text:
    every line that assigned [name] was replaced, and a line was added
    when there was none. *)
Lemma getattr_set_lines_Some (name s : string) (ls : list string)
    (d : pyval) :
  is_ident name = true -> clean (Some s) = true ->
  getattr (bindings (set_lines name (Some s) ls)) name d = Some s.
Proof.
  intros H Hc. apply getattr_some.
  - intros l k v' Hl Hp ->.
    apply in_set_lines in Hl as [-> | [-> | [Hl Hno]]].
    + rewrite parse_line_new in Hp by assumption. congruence.
    + rewrite parse_line_quoted in Hp by assumption. cbn in Hp. congruence.
    + apply parse_line_key in Hp as [Hp _]. congruence.
  - rewrite set_lines_spec.
    destruct (existsb (str_in name) ls) eqn:E.
    + apply existsb_exists in E as (l0 & Hl0 & Hin).
      exists (new_line name (Some s)). split.
      * rewrite app_nil_r. apply in_map_iff. exists l0.
        now rewrite Hin.
      * now apply parse_line_new.
    + exists (format_quoted name (Some s)). split.
      * apply in_or_app. right. now left.
      * now rewrite parse_line_quoted.
Qed.

(** After [name] was cleared in a file where the name occurs, the lookup of
    [name] gives [None]. *)
Lemma getattr_set_lines_None (name : string) (ls : list string) :
  is_ident name = true -> existsb (str_in name) ls = true ->
  getattr (bindings (set_lines name None ls)) name None = None.
Proof.
  intros H Hex. apply getattr_all.
  intros l k v' Hl Hp ->. rewrite set_lines_spec, Hex, app_nil_r in Hl.
  apply in_map_iff in Hl as (l0 & <- & Hl0).
  destruct (str_in name l0) eqn:E.
  - rewrite parse_line_new in Hp by (assumption || reflexivity). congruence.
  - apply parse_line_key in Hp as [Hp _]. congruence.
Qed.

End SecretsFacts.
Import SecretsFacts.

(* ===================================================================== *)
(** ** Facts about the waits on the radio *)
(* ===================================================================== *)

Lemma after_nil (w : world) : after w [] w.
Proof. split; [reflexivity | now rewrite app_nil_r]. Qed.


Lemma count_app (p : event -> bool) (a b : list event) :
  count p (a ++ b)%list = count p a + count p b.
Proof. unfold count. now rewrite filter_app, length_app. Qed.

Lemma count_cons (p : event -> bool) (e : event) (tr : list event) :
  count p (e :: tr) = (if p e then 1 else 0) + count p tr.
Proof. unfold count. simpl. now destruct (p e). Qed.

Lemma count_nil (p : event -> bool) : count p [] = 0.
Proof. reflexivity. Qed.

(** Count over a list given by its first events. *)
Ltac count_simpl :=
  repeat (rewrite ?count_app, ?count_cons, ?count_nil);
  cbn [is_status is_active_query is_scan is_connect is_sleep is_new_ap
       is_deinit].

Lemma count_zero_iff (p : event -> bool) (tr : list event) :
  count p tr = 0 <-> forall e, In e tr -> p e = false.
Proof.
  unfold count. induction tr as [|e tr IH]; simpl.
  - split; [intros _ e [] | reflexivity].
  - destruct (p e) eqn:E; simpl.
    + split; [discriminate |].
      intros H. specialize (H e (or_introl eq_refl)). congruence.
    + rewrite IH. split.
      * intros H x [<- | Hx]; auto.
      * intros H x Hx. apply H. now right.
Qed.

Lemma stops_at_nil q reported tr : stops_at q reported tr [].
Proof. intros [|e pre] post H; discriminate. Qed.

Lemma stops_at_single q reported tr e : stops_at q reported tr [e].
Proof.
  intros [|e1 pre] post H _.
  - now inversion H.
  - inversion H. destruct pre; discriminate.
Qed.

Lemma stops_at_cons q reported tr e evs :
  (e = q -> reported tr = false) ->
  stops_at q reported (tr ++ [e])%list evs ->
  stops_at q reported tr (e :: evs).
Proof.
  intros He Hs [|e1 pre] post H Hr.
  - inversion H; subst. rewrite app_nil_r in Hr.
    rewrite (He eq_refl) in Hr. discriminate.
  - inversion H; subst. apply (Hs pre post eq_refl).
    now rewrite <- app_assoc.
Qed.

Section Waits.

Variable hw : Radio.
Variable WLAN : wlan.

(** The wait of [activate_interface] started with [n] items left: it ends
    normally right after a poll (no sleep follows that poll), or it runs
    out of items after [n] polls, each followed by a sleep. *)
Lemma await_active_run (n : nat) (w : world) :
  exists r evs w',
    await_active hw WLAN n w = (r, w') /\ after w evs w' /\
    Forall (fun e => is_poll e = true) evs /\
    count is_status evs <= n /\ count is_active_query evs <= n /\
    stops_at EvStatus (got_ip hw) (trace w) evs /\
    stops_at EvActive (hw_active hw) (trace w) evs /\
    ((r = Ok tt /\ count is_sleep evs + 1 = count is_status evs) \/
     (r = Raise StopIteration /\ count is_status evs = n /\
      count is_sleep evs = n)).
Proof.
  revert w. induction n as [|n IH]; intros w.
  - exists (Raise StopIteration), [], w. simpl.
    splits; auto using after_nil, stops_at_nil.
  - simpl. unfold bind, WLAN_status, WLAN_active, ask, sleep, log, ret.
    destruct (Z.eqb (hw_status hw (trace w)) STAT_GOT_IP) eqn:Es.
    + exists (Ok tt), [EvStatus]. eexists. split; [reflexivity|].
      splits; try (now split); try (unfold count; simpl; lia);
        auto using stops_at_single.
    + cbn [trace secrets_py].
      destruct (hw_active hw (trace w ++ [EvStatus])%list) eqn:Ea.
      * exists (Ok tt), [EvStatus; EvActive]. eexists.
        split; [reflexivity|].
        split; [split; cbn; [reflexivity | now rewrite <- app_assoc]|].
        splits; try (unfold count; simpl; lia); auto.
        -- apply stops_at_cons; [intros _; exact Es|].
           apply stops_at_single.
        -- apply stops_at_cons; [discriminate|]. apply stops_at_single.
      * match goal with
        | |- context [await_active hw WLAN n ?w1] =>
            destruct (IH w1)
              as (r & evs & w' & Hrun & [Hs Ht] & Hp & H1 & H2 & S1 & S2
                  & H3)
        end.
        cbn [trace] in S1, S2.
        exists r, ([EvStatus; EvActive; EvSleep 1] ++ evs)%list, w'.
        split; [exact Hrun|].
        split; [split; [exact Hs | rewrite Ht; cbn; now rewrite <- !app_assoc]|].
        rewrite !count_app. unfold count at 1 3 5; simpl.
        splits; try lia.
        { repeat constructor. exact Hp. }
        { apply stops_at_cons; [intros _; exact Es|].
          apply stops_at_cons; [discriminate|].
          apply stops_at_cons; [discriminate | exact S1]. }
        { apply stops_at_cons; [discriminate|].
          apply stops_at_cons; [intros _; exact Ea|].
          apply stops_at_cons; [discriminate | exact S2]. }
        destruct H3 as [[-> H3] | (-> & H3 & H4)]; [left | right];
          splits; (reflexivity || lia).
Qed.

(** The same for the wait of [deactivate_interface]; its poll is
    [WLAN.active()], and it waits for the answer [False]. *)
Lemma await_inactive_run (n : nat) (w : world) :
  exists r evs w',
    await_inactive hw WLAN n w = (r, w') /\ after w evs w' /\
    Forall (fun e => is_poll e = true) evs /\
    count is_active_query evs <= n /\
    stops_at EvActive (fun h => negb (hw_active hw h)) (trace w) evs /\
    ((r = Ok tt /\ count is_sleep evs + 1 = count is_active_query evs) \/
     (r = Raise StopIteration /\ count is_active_query evs = n /\
      count is_sleep evs = n)).
Proof.
  revert w. induction n as [|n IH]; intros w.
  - exists (Raise StopIteration), [], w. simpl.
    splits; auto using after_nil, stops_at_nil.
  - simpl. unfold bind, WLAN_active, ask, sleep, log, ret.
    destruct (hw_active hw (trace w)) eqn:Ea; cbn [negb].
    + cbn [trace secrets_py].
      match goal with
      | |- context [await_inactive hw WLAN n ?w1] =>
          destruct (IH w1)
            as (r & evs & w' & Hrun & [Hs Ht] & Hp & H1 & S1 & H3)
      end.
      cbn [trace] in S1.
      exists r, ([EvActive; EvSleep 1] ++ evs)%list, w'.
      split; [exact Hrun|].
      split; [split; [exact Hs | rewrite Ht; cbn; now rewrite <- !app_assoc]|].
      rewrite !count_app. unfold count at 1 3 5; simpl.
      splits; try lia.
      { repeat constructor. exact Hp. }
      { apply stops_at_cons; [intros _; now rewrite Ea|].
        apply stops_at_cons; [discriminate | exact S1]. }
      destruct H3 as [[-> H3] | (-> & H3 & H4)]; [left | right];
        splits; (reflexivity || lia).
    + exists (Ok tt), [EvActive]. eexists. split; [reflexivity|].
      splits; try (now split); try (unfold count; simpl; lia);
        auto using stops_at_single.
Qed.

(** [activate_interface] returns normally whatever the radio answers.  It
    touches nothing but the history: one [WLAN.active(True)], then polls
    and sleeps, with at most five status polls; nothing follows a poll
    that reported the awaited state, and if it returns before the fifth
    poll failed, no sleep follows the last poll. *)
Lemma activate_interface_run (verbose : bool) (w : world) :
  exists evs w',
    activate_interface hw WLAN verbose w = (Ok tt, w') /\
    after w (EvSetActive true :: evs) w' /\
    Forall (fun e => is_poll e = true) evs /\
    count is_status evs <= 5 /\ count is_active_query evs <= 5 /\
    stops_at EvStatus (got_ip hw) (trace w) (EvSetActive true :: evs) /\
    stops_at EvActive (hw_active hw) (trace w) (EvSetActive true :: evs) /\
    (count is_sleep evs + 1 = count is_status evs \/
     (count is_status evs = 5 /\ count is_sleep evs = 5)).
Proof.
  unfold activate_interface, bind, try_except, WLAN_set_active, log.
  match goal with
  | |- context [await_active hw WLAN 5 ?w1] =>
      destruct (await_active_run 5 w1)
        as (r & evs & w' & Hrun & [Hs Ht] & Hp & H1 & H2 & S1 & S2 & H3)
  end.
  cbn [trace] in S1, S2.
  exists evs, w'. rewrite Hrun.
  assert (Ha : after w (EvSetActive true :: evs) w').
  { split; [exact Hs | rewrite Ht; cbn; now rewrite <- app_assoc]. }
  assert (S1' : stops_at EvStatus (got_ip hw) (trace w)
                  (EvSetActive true :: evs)).
  { apply stops_at_cons; [discriminate | exact S1]. }
  assert (S2' : stops_at EvActive (hw_active hw) (trace w)
                  (EvSetActive true :: evs)).
  { apply stops_at_cons; [discriminate | exact S2]. }
  destruct H3 as [[-> H3] | (-> & H3 & H4)];
    (split; [reflexivity|]); splits; auto.
Qed.

Lemma deactivate_interface_run (verbose : bool) (w : world) :
  exists evs w',
    deactivate_interface hw WLAN verbose w = (Ok tt, w') /\
    after w (EvSetActive false :: evs) w' /\
    Forall (fun e => is_poll e = true) evs /\
    count is_active_query evs <= 5 /\
    stops_at EvActive (fun h => negb (hw_active hw h)) (trace w)
      (EvSetActive false :: evs) /\
    (count is_sleep evs + 1 = count is_active_query evs \/
     (count is_active_query evs = 5 /\ count is_sleep evs = 5)).
Proof.
  unfold deactivate_interface, bind, try_except, WLAN_set_active, log.
  match goal with
  | |- context [await_inactive hw WLAN 5 ?w1] =>
      destruct (await_inactive_run 5 w1)
        as (r & evs & w' & Hrun & [Hs Ht] & Hp & H1 & S1 & H3)
  end.
  cbn [trace] in S1.
  exists evs, w'. rewrite Hrun.
  assert (Ha : after w (EvSetActive false :: evs) w').
  { split; [exact Hs | rewrite Ht; cbn; now rewrite <- app_assoc]. }
  assert (S1' : stops_at EvActive (fun h => negb (hw_active hw h))
                  (trace w) (EvSetActive false :: evs)).
  { apply stops_at_cons; [discriminate | exact S1]. }
  destruct H3 as [[-> H3] | (-> & H3 & H4)];
    (split; [reflexivity|]); splits; auto.
Qed.

End Waits.

(* ===================================================================== *)
(** ** Facts about [access_point_reset] *)
(* ===================================================================== *)

Lemma count_poll_zero (p : event -> bool) (evs : list event) :
  (forall e, is_poll e = true -> p e = false) ->
  Forall (fun e => is_poll e = true) evs -> count p evs = 0.
Proof.
  intros Hp H. apply count_zero_iff. intros e He.
  apply Hp. rewrite Forall_forall in H. now apply H.
Qed.

Lemma dynamic_get_secret_at (name : string) (w : world) (text : string)
    (bs : list (string * pyval)) :
  secrets_py w = Some text -> exec_module text = Some bs ->
  dynamic_get_secret name w = (Ok (none_if_empty (getattr bs name None)), w).
Proof.
  intros Hs Hb. unfold dynamic_get_secret. now rewrite Hs, Hb.
Qed.

Lemma dynamic_set_secret_at (name : string) (value : pyval) (w : world)
    (text : string) :
  secrets_py w = Some text ->
  dynamic_set_secret name value w =
    (Ok (negb (is_None (none_if_empty value))),
     {| secrets_py :=
          Some (join (set_lines name (none_if_empty value) (readlines text)));
        trace := trace w |}).
Proof.
  destruct w as [s tr]. cbn [secrets_py trace]. intros ->.
  apply dynamic_set_secret_text.
Qed.

Section Reset.

Variable hw : Radio.

(** With a secrets file that imports, [access_point_reset] returns an
    interface created for [AP_IF] and configured with the stored
    access-point credentials; it leaves the secrets file as it is, creates
    one interface and neither scans nor connects. *)
Lemma access_point_reset_run (WLAN : wlan) (verbose : bool) (w : world)
    (text : string) (bs : list (string * pyval)) :
  secrets_py w = Some text -> exec_module text = Some bs ->
  let ssid := none_if_empty (getattr bs "AP_SSID" None) in
  let password := none_if_empty (getattr bs "AP_PASSWORD" None) in
  exists d a w',
    access_point_reset hw WLAN verbose w =
      (Ok ({| w_mode := AP_IF; w_ssid := ssid; w_password := password;
              w_pm := None |}, AP_IF), w') /\
    after w (reset_events ssid password d a) w' /\
    Forall (fun e => is_poll e = true) d /\
    Forall (fun e => is_poll e = true) a.
Proof.
  intros Hs Hb ssid password.
  unfold access_point_reset, bind, WLAN_disconnect, WLAN_deinit, WLAN_new,
    WLAN_config, log, ret.
  cbv beta iota.
  match goal with
  | |- context [deactivate_interface hw WLAN verbose ?w1] =>
      destruct (deactivate_interface_run hw WLAN verbose w1)
        as (d & w2 & Hd & [Hds Hdt] & Hdp & _)
  end.
  rewrite Hd. cbv beta iota. cbn [secrets_py trace] in *.
  unfold bind. cbv beta iota. cbn [secrets_py trace].
  set (w3 := {| secrets_py := secrets_py w2;
                trace := ((trace w2 ++ [EvDeinit]) ++ [EvNew AP_IF])%list |}).
  assert (Hs3 : secrets_py w3 = Some text) by (cbn; congruence).
  rewrite (dynamic_get_secret_at "AP_SSID" w3 text bs Hs3 Hb).
  rewrite (dynamic_get_secret_at "AP_PASSWORD" w3 text bs Hs3 Hb).
  cbv beta iota. fold ssid password.
  match goal with
  | |- context [activate_interface hw ?W verbose ?w4] =>
      destruct (activate_interface_run hw W verbose w4)
        as (a & w5 & Hact & [Has Hat] & Hap & _)
  end.
  rewrite Hact. exists d, a, w5. split; [reflexivity|].
  split; [|split; assumption].
  split.
  - rewrite Has. cbn. congruence.
  - rewrite Hat. cbn [trace w3]. rewrite Hdt. unfold reset_events.
    cbn [w_pm]. repeat rewrite <- app_assoc. reflexivity.
Qed.

End Reset.

(* ===================================================================== *)
(** ** Facts about [connect_interface] *)
(* ===================================================================== *)

Section Connect.

Variable hw : Radio.
Variable WLAN : wlan.

(** The wait for the connection started with [n] items left: it ends
    normally after fewer than [n] sleeps, or it runs out of items after
    [n] failed polls, each followed by a sleep. *)
Lemma await_connection_run (n : nat) (w : world) :
  exists r evs w',
    await_connection hw WLAN n w = (r, w') /\ after w evs w' /\
    Forall (fun e => is_poll e = true) evs /\
    ((r = Ok tt /\ count is_sleep evs < n) \/
     (r = Raise StopIteration /\ count is_sleep evs = n)).
Proof.
  revert w. induction n as [|n IH]; intros w.
  - exists (Raise StopIteration), [], w. simpl.
    splits; auto using after_nil.
  - simpl. unfold bind, WLAN_status, WLAN_isconnected, ask, sleep, log, ret.
    cbn [trace secrets_py].
    destruct (Z.eqb (hw_status hw (trace w ++ [EvStatus])%list)
                STAT_GOT_IP) eqn:Es.
    + exists (Ok tt), [EvStatus; EvStatus]. eexists.
      split; [reflexivity|].
      split; [split; cbn; [reflexivity | now rewrite <- app_assoc]|].
      splits; auto. left. split; [reflexivity | unfold count; simpl; lia].
    + cbn [trace secrets_py].
      destruct (hw_isconnected hw
                  ((trace w ++ [EvStatus]) ++ [EvStatus])%list) eqn:Ec.
      * exists (Ok tt), [EvStatus; EvStatus; EvIsConnected]. eexists.
        split; [reflexivity|].
        split; [split; cbn; [reflexivity | now rewrite <- !app_assoc]|].
        splits; auto. left. split; [reflexivity | unfold count; simpl; lia].
      * match goal with
        | |- context [await_connection hw WLAN n ?w1] =>
            destruct (IH w1) as (r & evs & w' & Hrun & [Hs Ht] & Hp & H3)
        end.
        exists r,
          ([EvStatus; EvStatus; EvIsConnected; EvSleep 1] ++ evs)%list, w'.
        split; [exact Hrun|].
        split; [split; [exact Hs | rewrite Ht; cbn; now rewrite <- !app_assoc]|].
        rewrite !count_app. unfold count at 1 3; simpl.
        splits.
        { repeat constructor. exact Hp. }
        destruct H3 as [[-> H3] | (-> & H3)]; [left | right];
          splits; (reflexivity || lia).
Qed.


Variable verbose : bool.
Variable w : world.
Variable text : string.
Variable bs : list (string * pyval).
Hypothesis Hfile : secrets_py w = Some text.
Hypothesis Himport : exec_module text = Some bs.

(** No stored SSID: [WLANConnectionError], and the radio is not touched. *)
Lemma connect_interface_no_ssid :
  none_if_empty (getattr bs "WLAN_SSID" None) = None ->
  connect_interface hw WLAN verbose w = (Raise WLANConnectionError, w).
Proof.
  intros Hn. unfold connect_interface, bind, try_except.
  rewrite (dynamic_get_secret_at "WLAN_SSID" w text bs Hfile Himport).
  rewrite (dynamic_get_secret_at "WLAN_PASSWORD" w text bs Hfile Himport).
  rewrite Hn. reflexivity.
Qed.


(** The stored SSID is visible and the connect request is accepted:
    [connect_interface] goes on to its wait. *)
Lemma connect_interface_request (ssid : string) (names : list string) :
  none_if_empty (getattr bs "WLAN_SSID" None) = Some ssid ->
  hw_scan hw (trace w) = Ok names ->
  member ssid (available_networks names) = true ->
  hw_connect hw (trace w ++ [EvScan])%list = None ->
  connect_interface hw WLAN verbose w =
    try_except (await_connection hw WLAN 30)
      (reraise hw WLAN)
      {| secrets_py := secrets_py w;
         trace := (trace w ++
                   [EvScan;
                    EvConnect ssid
                      (none_if_empty (getattr bs "WLAN_PASSWORD" None))])%list
      |}.
Proof.
  intros Hn Hscan Hmem Hconn. unfold connect_interface.
  unfold bind at 1. unfold try_except at 1. unfold bind at 1.
  rewrite (dynamic_get_secret_at "WLAN_SSID" w text bs Hfile Himport).
  unfold bind at 1.
  rewrite (dynamic_get_secret_at "WLAN_PASSWORD" w text bs Hfile Himport).
  rewrite Hn. unfold WLAN_scan, WLAN_connect.
  unfold bind at 1. unfold bind at 1. unfold ask at 1. rewrite Hscan.
  cbv beta iota. unfold ret at 1. rewrite Hmem. cbn [negb].
  unfold bind at 1. unfold ask at 1. cbn [trace secrets_py].
  rewrite Hconn. unfold ret at 1. cbv beta iota.
  rewrite <- app_assoc. reflexivity.
Qed.

(** Then it returns normally or re-raises the [StopIteration] of its wait;
    it raises it exactly when the thirty polls all failed. *)
Lemma connect_interface_wait (ssid : string) (names : list string) :
  none_if_empty (getattr bs "WLAN_SSID" None) = Some ssid ->
  hw_scan hw (trace w) = Ok names ->
  member ssid (available_networks names) = true ->
  hw_connect hw (trace w ++ [EvScan])%list = None ->
  exists r evs w',
    connect_interface hw WLAN verbose w = (r, w') /\ after w evs w' /\
    count is_scan evs = 1 /\ count is_connect evs = 1 /\
    ((r = Ok tt /\ count is_sleep evs < 30) \/
     (r = Raise StopIteration /\ count is_sleep evs = 30)).
Proof.
  intros Hn Hscan Hmem Hconn.
  rewrite (connect_interface_request ssid names Hn Hscan Hmem Hconn).
  unfold try_except.
  match goal with
  | |- context [await_connection hw WLAN 30 ?w1] =>
      destruct (await_connection_run 30 w1)
        as (r & evs & w' & Hrun & [Hs Ht] & Hp & H3)
  end.
  rewrite Hrun. cbn [trace secrets_py] in Hs, Ht.
  assert (Hz : forall p, (forall e, is_poll e = true -> p e = false) ->
                         count p evs = 0).
  { intros p Hpz. now apply count_poll_zero. }
  destruct H3 as [[-> H3] | (-> & H3)].
  - exists (Ok tt),
      ([EvScan; EvConnect ssid (none_if_empty (getattr bs "WLAN_PASSWORD" None))]
       ++ evs)%list, w'.
    split; [reflexivity|].
    split; [split; [exact Hs | rewrite Ht; now rewrite <- !app_assoc]|].
    count_simpl.
    rewrite (Hz is_scan), (Hz is_connect);
      try (intros [] He; try discriminate; reflexivity).
    splits; [reflexivity | reflexivity | left; split; [reflexivity | lia]].
  - unfold reraise, WLAN_status, bind, ask, raise. cbv beta iota.
    exists (Raise StopIteration),
      ([EvScan; EvConnect ssid (none_if_empty (getattr bs "WLAN_PASSWORD" None))]
       ++ evs ++ [EvStatus])%list.
    eexists. split; [reflexivity|].
    split; [split; cbn [secrets_py trace];
            [exact Hs | rewrite Ht; now rewrite <- !app_assoc]|].
    count_simpl.
    rewrite (Hz is_scan), (Hz is_connect);
      try (intros [] He; try discriminate; reflexivity).
    splits; [reflexivity | reflexivity | right; split; [reflexivity | lia]].
Qed.


End Connect.

(* ===================================================================== *)
(** ** Facts about [get_network_interface] *)
(* ===================================================================== *)

Lemma none_if_empty_nonempty (v : pyval) (s : string) :
  none_if_empty v = Some s -> s <> EmptyString.
Proof.
  destruct v as [[|c t]|]; cbn; intros H; inversion H; discriminate.
Qed.

Section Acquire.

Variable hw : Radio.
Variable verbose : bool.

(** With a stored station SSID and stored access-point credentials,
    [get_network_interface] writes nothing: it creates a station
    interface, activates it and tries to connect. *)
Lemma get_network_interface_station (w : world) (text : string)
    (bs : list (string * pyval)) (ssid a p : string) :
  secrets_py w = Some text -> exec_module text = Some bs ->
  none_if_empty (getattr bs "WLAN_SSID" None) = Some ssid ->
  none_if_empty (getattr bs "AP_SSID" None) = Some a ->
  none_if_empty (getattr bs "AP_PASSWORD" None) = Some p ->
  let WLAN := {| w_mode := STA_IF; w_ssid := Some a; w_password := Some p;
                 w_pm := Some PM |} in
  exists evs w1,
    after w ([EvNew STA_IF; EvConfig (Some a) (Some p) (Some PM);
              EvSetActive true] ++ evs)%list w1 /\
    Forall (fun e => is_poll e = true) evs /\
    get_network_interface hw verbose w =
      try_except
        (bind (connect_interface hw WLAN verbose)
              (fun _ => ret (WLAN, STA_IF)))
        (fallback hw WLAN verbose) w1.
Proof.
  intros Hs Hb Hssid Ha Hp WLAN.
  unfold get_network_interface.
  unfold bind at 1.
  rewrite (dynamic_get_secret_at "WLAN_SSID" w text bs Hs Hb).
  unfold bind at 1.
  rewrite (dynamic_get_secret_at "WLAN_PASSWORD" w text bs Hs Hb).
  unfold bind at 1.
  rewrite (dynamic_get_secret_at "AP_SSID" w text bs Hs Hb).
  unfold bind at 1.
  rewrite (dynamic_get_secret_at "AP_PASSWORD" w text bs Hs Hb).
  rewrite Hssid, Ha, Hp. cbn [is_None orb].
  assert (Hlen : (String.length (py_str (Some ssid)) <? 1)%nat = false).
  { apply none_if_empty_nonempty in Hssid.
    destruct ssid; [congruence | reflexivity]. }
  rewrite Hlen.
  unfold bind at 1. unfold ret at 1. cbv beta iota.
  unfold bind at 1. unfold ret at 1. cbv beta iota.
  unfold bind at 1. unfold WLAN_new, bind, log, ret. cbv beta iota.
  unfold WLAN_config, bind, log, ret. cbv beta iota.
  cbn [fst snd w_mode w_pm secrets_py trace].
  fold PM. fold WLAN.
  match goal with
  | |- context [activate_interface hw WLAN verbose ?w0] =>
      destruct (activate_interface_run hw WLAN verbose w0)
        as (evs & w1 & Hact & [Has Hat] & Hap & _)
  end.
  rewrite Hact. exists evs, w1.
  cbn [secrets_py trace] in Has, Hat.
  split; [split; [exact Has | rewrite Hat; now rewrite <- !app_assoc]|].
  split; [exact Hap|]. reflexivity.
Qed.

End Acquire.

Lemma count_reset_events (ssid password : pyval) (d a : list event) :
  Forall (fun e => is_poll e = true) d ->
  Forall (fun e => is_poll e = true) a ->
  count is_new_ap (reset_events ssid password d a) = 1 /\
  count is_deinit (reset_events ssid password d a) = 1 /\
  count is_scan (reset_events ssid password d a) = 0 /\
  count is_connect (reset_events ssid password d a) = 0.
Proof.
  intros Hd Ha. unfold reset_events. count_simpl.
  rewrite !(count_poll_zero _ d), !(count_poll_zero _ a);
    try assumption; try (intros [] He; try discriminate; reflexivity).
  splits; reflexivity.
Qed.

(* ===================================================================== *)
(** ** The claims *)
(* ===================================================================== *)

(** C4.  [connection_issue] depends on the mode and on what
    [WLAN.isconnected()] answers, and on nothing else.  In access-point mode
    it is true, and the radio is not even asked.  In station mode it is
    false when the radio answers connected and true when it answers not
    connected.  It leaves the secrets file alone and makes no call on the
    radio other than that one query. *)
Theorem connection_issue_table (hw : Radio) (WLAN : wlan) (verbose : bool)
    (w : world) :
  let connected := hw_isconnected hw (trace w) in
  connection_issue hw WLAN AP_IF verbose w = (Ok true, w) /\
  (exists w', connection_issue hw WLAN STA_IF verbose w
              = (Ok (negb connected), w') /\ after w [EvIsConnected] w') /\
  (connected = true ->
   fst (connection_issue hw WLAN STA_IF verbose w) = Ok false) /\
  (connected = false ->
   fst (connection_issue hw WLAN STA_IF verbose w) = Ok true).
Proof.
  cbv zeta. splits.
  - reflexivity.
  - eexists. split; [reflexivity | split; reflexivity].
  - intros H. cbn. now rewrite H.
  - intros H. cbn. now rewrite H.
Qed.

(** C8.  [activate_interface] and [deactivate_interface] return normally
    whatever the radio answers, also when all their polls fail.  Each polls
    at most five times, changes nothing but the history of calls, and makes
    no further call after a poll that reported the awaited state (status
    [STAT_GOT_IP] or active for the activation, not active for the
    deactivation). *)
Theorem activate_deactivate_return (hw : Radio) (WLAN : wlan)
    (verbose : bool) (w : world) :
  (exists evs w',
     activate_interface hw WLAN verbose w = (Ok tt, w') /\ after w evs w' /\
     count is_status evs <= 5 /\ count is_active_query evs <= 5 /\
     stops_at EvStatus (got_ip hw) (trace w) evs /\
     stops_at EvActive (hw_active hw) (trace w) evs) /\
  (exists evs w',
     deactivate_interface hw WLAN verbose w = (Ok tt, w') /\
     after w evs w' /\ count is_active_query evs <= 5 /\
     stops_at EvActive (fun h => negb (hw_active hw h)) (trace w) evs).
Proof.
  split.
  - destruct (activate_interface_run hw WLAN verbose w)
      as (evs & w' & Hrun & Ha & _ & H1 & H2 & S1 & S2 & _).
    exists (EvSetActive true :: evs), w'. count_simpl. splits; assumption.
  - destruct (deactivate_interface_run hw WLAN verbose w)
      as (evs & w' & Hrun & Ha & _ & H1 & S1 & _).
    exists (EvSetActive false :: evs), w'. count_simpl. splits; assumption.
Qed.







(* ===================================================================== *)
(** ** The first boot: from the file of [create_secrets] *)
(* ===================================================================== *)

Section FirstBoot.

Variable id : string.
Hypothesis Hhex : all_chars upper_hex id = true.
Hypothesis Hid : id <> EmptyString.

Lemma upper_hex_lit (c : ascii) : upper_hex c = true -> lit_char c = true.
Proof.
  destruct c as [[] [] [] [] [] [] [] []]; vm_compute; congruence.
Qed.

Lemma clean_id : clean (Some id) = true.
Proof. exact (all_chars_weaken _ _ _ upper_hex_lit Hhex). Qed.

Lemma clean_ap_ssid : clean (Some ("PICO-W-" ++ id)) = true.
Proof.
  unfold clean, py_str. rewrite all_chars_app.
  now rewrite (all_chars_weaken _ _ _ upper_hex_lit Hhex).
Qed.











End FirstBoot.





(* ===================================================================== *)
(** ** The [POST /connection] handler *)
(* ===================================================================== *)

Lemma in_set_lines_keep (name : string) (value : pyval) (ls : list string)
    (l : string) :
  In l ls -> str_in name l = false -> In l (set_lines name value ls).
Proof.
  intros Hin Hno. rewrite set_lines_spec. apply in_or_app. left.
  apply in_map_iff. exists l. now rewrite Hno.
Qed.

Lemma clean_none_if_empty (value : pyval) :
  clean value = true -> clean (none_if_empty value) = true.
Proof. destruct value as [[|c s]|]; intros H; (exact H || reflexivity). Qed.

(** The handler writes the password, then the SSID, whatever they are; its
    answer only depends on whether the SSID is empty. *)
Lemma set_connection_run (request : form) (w : world) (text : string) :
  secrets_py w = Some text ->
  set_connection request w =
    (Ok (if is_None (none_if_empty (input_ssid request))
         then bad_request else reset_content),
     {| secrets_py :=
          Some (join (set_lines "WLAN_SSID"
                        (none_if_empty (input_ssid request))
                        (readlines
                           (join (set_lines "WLAN_PASSWORD"
                                    (none_if_empty (input_password request))
                                    (readlines text))))));
        trace := trace w |}).
Proof.
  intros Hs. unfold set_connection. unfold bind at 1.
  rewrite (dynamic_set_secret_at "WLAN_PASSWORD" _ w text Hs).
  unfold bind at 1.
  erewrite (dynamic_set_secret_at "WLAN_SSID") by reflexivity.
  cbn [trace]. destruct (none_if_empty (input_ssid request)); reflexivity.
Qed.

(** C2 as stated fails.  The store holds the SSID "HomeNet"; a request with
    an empty [input-ssid] is answered with 400, and afterwards the stored
    SSID is unset: it has not remained what it was. *)
Lemma post_empty_ssid_clears_stored_ssid :
  fst (dynamic_get_secret "WLAN_SSID" (booted homenet)) = Ok (Some "HomeNet") /\
  fst (set_connection {| input_ssid := Some ""; input_password := Some "secret" |}
         (booted homenet)) = Ok bad_request /\
  fst (dynamic_get_secret "WLAN_SSID"
         (snd (set_connection
                 {| input_ssid := Some ""; input_password := Some "secret" |}
                 (booted homenet)))) = Ok None.
Proof. splits; vm_compute; reflexivity. Qed.

(** C2, amended.  For every request whose [input-ssid] is empty or missing,
    the handler answers with status 400 and [valid] false, and the stored
    [WLAN_SSID] is overwritten with the unset value, whatever it was: no
    SSID is stored afterwards.  (The store is a well-formed file with a
    [WLAN_SSID] line of its own, and the submitted password is text that can
    be written between quotes.) *)
Theorem post_empty_ssid_is_rejected_and_clears (request : form) (w : world)
    (text : string) :
  secrets_py w = Some text -> well_formed text = true ->
  existsb (fun l => str_in "WLAN_SSID" l && negb (str_in "WLAN_PASSWORD" l))%bool
    (readlines text) = true ->
  none_if_empty (input_ssid request) = None ->
  clean (input_password request) = true ->
  exists w',
    set_connection request w = (Ok bad_request, w') /\
    status_code bad_request = 400%Z /\
    trace w' = trace w /\
    dynamic_get_secret "WLAN_SSID" w' = (Ok None, w').
Proof.
  intros Hs Hwf Hline Hssid Hclean.
  rewrite (set_connection_run request w text Hs), Hssid. cbn [is_None].
  eexists. split; [reflexivity|]. split; [reflexivity|].
  split; [reflexivity|].
  set (ls1 := set_lines "WLAN_PASSWORD"
                (none_if_empty (input_password request)) (readlines text)).
  assert (Hg1 : forallb good_line ls1 = true).
  { apply set_lines_good;
      [reflexivity | now apply clean_none_if_empty | exact Hwf]. }
  rewrite (readlines_join ls1 (good_lines_proper ls1 Hg1)).
  assert (Hex : existsb (str_in "WLAN_SSID") ls1 = true).
  { apply existsb_exists in Hline as (l & Hin & Hl).
    apply andb_true_iff in Hl as [Hl1 Hl2]. apply negb_true_iff in Hl2.
    apply existsb_exists. exists l. split; [|exact Hl1].
    now apply in_set_lines_keep. }
  set (ls2 := set_lines "WLAN_SSID" None ls1).
  assert (Hg2 : forallb good_line ls2 = true).
  { apply set_lines_good; [reflexivity | reflexivity | exact Hg1]. }
  erewrite dynamic_get_secret_at;
    [| reflexivity | exact (well_formed_exec _ (well_formed_join ls2 Hg2))].
  rewrite (readlines_join ls2 (good_lines_proper ls2 Hg2)).
  unfold ls2. now rewrite (getattr_set_lines_None "WLAN_SSID" ls1 eq_refl Hex).
Qed.

Lemma post_empty_ssid_is_rejected_and_clears_witness :
  exists w',
    set_connection {| input_ssid := Some ""; input_password := Some "secret" |}
      (booted homenet) = (Ok bad_request, w') /\
    status_code bad_request = 400%Z /\
    trace w' = [] /\
    dynamic_get_secret "WLAN_SSID" w' = (Ok None, w').
Proof.
  exact (post_empty_ssid_is_rejected_and_clears
           {| input_ssid := Some ""; input_password := Some "secret" |}
           (booted homenet) homenet eq_refl eq_refl eq_refl eq_refl eq_refl).
Defined.

(* ===================================================================== *)
(** ** Where [dynamic_set_secret] loses what it was given *)
(* ===================================================================== *)

(** C5.  Two runs of [dynamic_set_secret] followed by [dynamic_get_secret]
    on the same key.  A value with a quote is written between quotes as it
    is, and the file cannot be imported any more: the read raises.  An empty
    value for a key that has no line yet is appended as the text ['None'],
    and reads back as the four-letter string "None", not as none. *)
Lemma set_then_get_loses_value :
  (bind (dynamic_set_secret "WLAN_PASSWORD" (Some "it's"))
        (fun _ => dynamic_get_secret "WLAN_PASSWORD") (booted baseline)
   = (Raise SyntaxError,
      booted (secrets_text None None None (Some "it's")))) /\
  fst (bind (dynamic_set_secret "WLAN_SSID" (Some ""))
            (fun stored => bind (dynamic_get_secret "WLAN_SSID")
                             (fun v => ret (stored, v)))
            (booted mqtt_only))
  = Ok (false, Some "None").
Proof. split; vm_compute; reflexivity. Qed.

(** C3.  The station SSID is unset in [mqtt_only] (it has no line), and
    [get_network_interface] does return an access-point interface; but it
    stores the text "None" as station SSID and password, and
    [connect_interface] then scans for a network of that name.  The same
    happens to the password on a provisioned board after a request with an
    empty SSID and the password "WLAN_SSID", which leaves the file without a
    line for the password: the SSID is unset, and after
    [get_network_interface] the stored password is the text "None". *)
Lemma acquire_on_partial_file_scans :
  fst (dynamic_get_secret "WLAN_SSID" (booted mqtt_only)) = Ok None /\
  (exists WLAN w',
     get_network_interface (radio ["HomeNet"] 0 true) true (booted mqtt_only)
       = (Ok (WLAN, AP_IF), w') /\
     count is_scan (trace w') = 1 /\
     fst (dynamic_get_secret "WLAN_SSID" w') = Ok (Some "None") /\
     fst (dynamic_get_secret "WLAN_PASSWORD" w') = Ok (Some "None")) /\
  (exists w1 WLAN w2,
     set_connection
       {| input_ssid := Some ""; input_password := Some "WLAN_SSID" |}
       (booted homenet) = (Ok bad_request, w1) /\
     fst (dynamic_get_secret "WLAN_SSID" w1) = Ok None /\
     get_network_interface (radio ["HomeNet"] 0 true) true w1
       = (Ok (WLAN, AP_IF), w2) /\
     fst (dynamic_get_secret "WLAN_PASSWORD" w2) = Ok (Some "None")).
Proof.
  split; [vm_compute; reflexivity|]. split.
  - eexists _, _. split; [vm_compute; reflexivity|].
    splits; vm_compute; reflexivity.
  - eexists _, _, _. split; [vm_compute; reflexivity|].
    split; [vm_compute; reflexivity|].
    split; vm_compute; reflexivity.
Qed.

(** C9.  The stored station SSID "AP_SSID" is not among the networks that
    the scan would return.  [get_network_interface] writes the access-point
    SSID over every line in which the text [AP_SSID] occurs, the line of
    [WLAN_SSID] included: it returns an access-point interface after one
    reset, but the stored station SSID is gone, and no scan was made. *)
Lemma acquire_overwrites_colliding_ssid :
  fst (dynamic_get_secret "WLAN_SSID" (booted colliding))
    = Ok (Some "AP_SSID") /\
  member "AP_SSID" (available_networks ["HomeNet"]) = false /\
  (exists WLAN w',
     get_network_interface (radio ["HomeNet"] 0 true) true (booted colliding)
       = (Ok (WLAN, AP_IF), w') /\
     count is_deinit (trace w') = 1 /\
     count is_scan (trace w') = 0 /\
     fst (dynamic_get_secret "WLAN_SSID" w') = Ok None).
Proof.
  split; [vm_compute; reflexivity|]. split; [reflexivity|].
  eexists _, _. split; [vm_compute; reflexivity|].
  splits; vm_compute; reflexivity.
Qed.

(** C10.  Two requests on a provisioned board.  A password with a quote is
    written as it is: the request is answered with 205, and the stored
    password cannot be read any more.  A password in which the text
    [WLAN_SSID] occurs is written, and its line is then overwritten by the
    write of the SSID: after the request no password is stored. *)
Lemma post_loses_password :
  (exists w',
     set_connection
       {| input_ssid := Some "HomeNet"; input_password := Some "it's" |}
       (booted homenet) = (Ok reset_content, w') /\
     fst (dynamic_get_secret "WLAN_PASSWORD" w') = Raise SyntaxError) /\
  (exists w',
     set_connection
       {| input_ssid := Some ""; input_password := Some "WLAN_SSID" |}
       (booted homenet) = (Ok bad_request, w') /\
     fst (dynamic_get_secret "WLAN_PASSWORD" w') = Ok None).
Proof.
  split; eexists; (split; [vm_compute; reflexivity|]); vm_compute; reflexivity.
Qed.

(* ===================================================================== *)
(** ** Where the store keeps what it was given *)
(* ===================================================================== *)

(** X1.  On a well-formed file, a non-empty value that can stand between
    quotes is read back as it was written, under any name that is an identifier;
    the write returns true and touches nothing but the file. *)
Theorem set_then_get_roundtrip (name s : string) (w : world) (text : string) :
  secrets_py w = Some text -> well_formed text = true ->
  is_ident name = true -> s <> EmptyString -> clean (Some s) = true ->
  exists w',
    dynamic_set_secret name (Some s) w = (Ok true, w') /\
    trace w' = trace w /\
    dynamic_get_secret name w' = (Ok (Some s), w').
Proof.
  intros Hs Hwf Hid Hne Hc.
  assert (Hn : none_if_empty (Some s) = Some s)
    by (destruct s; [congruence | reflexivity]).
  rewrite (dynamic_set_secret_at name (Some s) w text Hs), Hn.
  eexists. split; [reflexivity|]. split; [reflexivity|].
  set (ls := set_lines name (Some s) (readlines text)).
  assert (Hg : forallb good_line ls = true)
    by (apply set_lines_good; assumption).
  erewrite dynamic_get_secret_at;
    [| reflexivity | exact (well_formed_exec _ (well_formed_join ls Hg))].
  rewrite (readlines_join ls (good_lines_proper ls Hg)). unfold ls.
  now rewrite (getattr_set_lines_Some name s _ None Hid Hc), Hn.
Qed.

Lemma set_then_get_roundtrip_witness :
  exists w',
    dynamic_set_secret "WLAN_SSID" (Some "HomeNet") (booted baseline)
      = (Ok true, w') /\
    trace w' = [] /\
    dynamic_get_secret "WLAN_SSID" w' = (Ok (Some "HomeNet"), w').
Proof.
  refine (set_then_get_roundtrip "WLAN_SSID" "HomeNet" (booted baseline)
            baseline eq_refl eq_refl eq_refl _ eq_refl).
  discriminate.
Defined.

(** X2.  On a well-formed file in which the name occurs, an empty or
    missing value is stored as unset and read back as none; the write returns
    false. *)
Theorem set_empty_then_get_none (name : string) (value : pyval) (w : world)
    (text : string) :
  secrets_py w = Some text -> well_formed text = true ->
  is_ident name = true -> none_if_empty value = None ->
  existsb (str_in name) (readlines text) = true ->
  exists w',
    dynamic_set_secret name value w = (Ok false, w') /\
    trace w' = trace w /\
    dynamic_get_secret name w' = (Ok None, w').
Proof.
  intros Hs Hwf Hid Hn Hex.
  rewrite (dynamic_set_secret_at name value w text Hs), Hn.
  eexists. split; [reflexivity|]. split; [reflexivity|].
  set (ls := set_lines name None (readlines text)).
  assert (Hg : forallb good_line ls = true)
    by (apply set_lines_good; [assumption | reflexivity | assumption]).
  erewrite dynamic_get_secret_at;
    [| reflexivity | exact (well_formed_exec _ (well_formed_join ls Hg))].
  rewrite (readlines_join ls (good_lines_proper ls Hg)). unfold ls.
  now rewrite (getattr_set_lines_None name _ Hid Hex).
Qed.

Lemma set_empty_then_get_none_witness :
  exists w',
    dynamic_set_secret "WLAN_SSID" (Some "") (booted homenet)
      = (Ok false, w') /\
    trace w' = [] /\
    dynamic_get_secret "WLAN_SSID" w' = (Ok None, w').
Proof.
  exact (set_empty_then_get_none "WLAN_SSID" (Some "") (booted homenet)
           homenet eq_refl eq_refl eq_refl eq_refl eq_refl).
Defined.

(* ===================================================================== *)
(** ** Where [get_network_interface] and the handler do as intended *)
(* ===================================================================== *)



Lemma in_set_lines_found (name : string) (value : pyval) (ls : list string)
    (l : string) :
  existsb (str_in name) ls = true -> In l (set_lines name value ls) ->
  l = new_line name value \/ (In l ls /\ str_in name l = false).
Proof.
  intros Hex. rewrite set_lines_spec, Hex, app_nil_r. intros H.
  apply in_map_iff in H as (l0 & <- & Hl0).
  destruct (str_in name l0) eqn:E; [now left | right; now split].
Qed.

Section AcquireAccessPoint.

Variable hw : Radio.
Variable verbose : bool.

(** With no stored station SSID and stored access-point credentials,
    [get_network_interface] clears the two station credentials, creates an
    access-point interface, activates it and calls [connect_interface]. *)
Lemma get_network_interface_access_point (w : world) (text : string)
    (bs : list (string * pyval)) (a p : string) :
  secrets_py w = Some text -> exec_module text = Some bs ->
  none_if_empty (getattr bs "WLAN_SSID" None) = None ->
  none_if_empty (getattr bs "AP_SSID" None) = Some a ->
  none_if_empty (getattr bs "AP_PASSWORD" None) = Some p ->
  let WLAN := {| w_mode := AP_IF; w_ssid := Some a; w_password := Some p;
                 w_pm := Some PM |} in
  exists evs w1,
    secrets_py w1 = Some (cleared text) /\
    trace w1 = (trace w ++ [EvNew AP_IF; EvConfig (Some a) (Some p) (Some PM);
                            EvSetActive true] ++ evs)%list /\
    Forall (fun e => is_poll e = true) evs /\
    get_network_interface hw verbose w =
      try_except
        (bind (connect_interface hw WLAN verbose)
              (fun _ => ret (WLAN, AP_IF)))
        (fallback hw WLAN verbose) w1.
Proof.
  intros Hs Hb Hssid Ha Hp WLAN.
  unfold get_network_interface.
  unfold bind at 1.
  rewrite (dynamic_get_secret_at "WLAN_SSID" w text bs Hs Hb).
  unfold bind at 1.
  rewrite (dynamic_get_secret_at "WLAN_PASSWORD" w text bs Hs Hb).
  unfold bind at 1.
  rewrite (dynamic_get_secret_at "AP_SSID" w text bs Hs Hb).
  unfold bind at 1.
  rewrite (dynamic_get_secret_at "AP_PASSWORD" w text bs Hs Hb).
  rewrite Hssid, Ha, Hp. cbn [is_None orb].
  unfold bind at 1. unfold ret at 1. cbv beta iota.
  unfold bind at 1. unfold bind at 1.
  rewrite (dynamic_set_secret_at "WLAN_SSID" None w text Hs).
  unfold bind at 1.
  erewrite (dynamic_set_secret_at "WLAN_PASSWORD") by reflexivity.
  unfold ret at 1. cbn [trace fst snd none_if_empty].
  fold (cleared text).
  unfold bind at 1. unfold WLAN_new, bind, log, ret. cbv beta iota.
  unfold WLAN_config, bind, log, ret. cbv beta iota.
  cbn [w_mode w_pm secrets_py trace].
  fold PM. fold WLAN.
  match goal with
  | |- context [activate_interface hw WLAN verbose ?w0] =>
      destruct (activate_interface_run hw WLAN verbose w0)
        as (evs & w1 & Hact & [Has Hat] & Hap & _)
  end.
  rewrite Hact. exists evs, w1.
  cbn [secrets_py trace] in Has, Hat.
  split; [exact Has|].
  split; [rewrite Hat; now rewrite <- !app_assoc|].
  split; [exact Hap | reflexivity].
Qed.

(** X12.  Once the access-point credentials are stored, and on a
    well-formed file with a line for each station credential, an unset station SSID makes
    [get_network_interface] return an access-point interface without a scan
    or a connect request, and leaves both station credentials unset. *)
Theorem acquire_without_ssid_is_access_point (w : world) (text : string)
    (a p : string) :
  secrets_py w = Some text -> well_formed text = true ->
  none_if_empty (getattr (bindings (readlines text)) "WLAN_SSID" None) = None ->
  none_if_empty (getattr (bindings (readlines text)) "AP_SSID" None) = Some a ->
  none_if_empty (getattr (bindings (readlines text)) "AP_PASSWORD" None)
    = Some p ->
  existsb (str_in "WLAN_SSID") (readlines text) = true ->
  existsb (fun l => str_in "WLAN_PASSWORD" l && negb (str_in "WLAN_SSID" l))%bool
    (readlines text) = true ->
  exists WLAN' evs w',
    get_network_interface hw verbose w = (Ok (WLAN', AP_IF), w') /\
    w_mode WLAN' = AP_IF /\ trace w' = (trace w ++ evs)%list /\
    count is_scan evs = 0 /\ count is_connect evs = 0 /\
    dynamic_get_secret "WLAN_SSID" w' = (Ok None, w') /\
    dynamic_get_secret "WLAN_PASSWORD" w' = (Ok None, w').
Proof.
  intros Hs Hwf Hssid Ha Hp Hex1 Hex2.
  pose proof (well_formed_exec text Hwf) as Hb.
  destruct (get_network_interface_access_point w text _ a p Hs Hb Hssid Ha Hp)
    as (evs1 & w1 & Hs1 & Ht1 & Hp1 & ->).
  set (AP := {| w_mode := AP_IF; w_ssid := Some a; w_password := Some p;
                w_pm := Some PM |}) in *.
  (* the file after the two writes *)
  set (ls1 := set_lines "WLAN_SSID" None (readlines text)).
  assert (Hg1 : forallb good_line ls1 = true)
    by (apply set_lines_good; [reflexivity | reflexivity | exact Hwf]).
  assert (Hex : existsb (str_in "WLAN_PASSWORD") ls1 = true).
  { apply existsb_exists in Hex2 as (l & Hin & Hl).
    apply andb_true_iff in Hl as [Hl1 Hl2]. apply negb_true_iff in Hl2.
    apply existsb_exists. exists l. split; [|exact Hl1].
    now apply in_set_lines_keep. }
  set (ls2 := set_lines "WLAN_PASSWORD" None ls1).
  assert (Hg2 : forallb good_line ls2 = true)
    by (apply set_lines_good; [reflexivity | reflexivity | exact Hg1]).
  assert (Hc : cleared text = join ls2).
  { unfold cleared. fold ls1.
    now rewrite (readlines_join ls1 (good_lines_proper ls1 Hg1)). }
  assert (Hb2 : exec_module (cleared text) = Some (bindings ls2)).
  { rewrite Hc, (well_formed_exec _ (well_formed_join ls2 Hg2)).
    now rewrite (readlines_join ls2 (good_lines_proper ls2 Hg2)). }
  assert (Hpw : getattr (bindings ls2) "WLAN_PASSWORD" None = None)
    by exact (getattr_set_lines_None "WLAN_PASSWORD" ls1 eq_refl Hex).
  assert (Hss : getattr (bindings ls2) "WLAN_SSID" None = None).
  { apply getattr_all. intros l k v' Hl Hpl ->.
    apply (in_set_lines_found _ _ _ _ Hex) in Hl as [-> | [Hl _]].
    - rewrite parse_line_new in Hpl by reflexivity. discriminate.
    - apply (in_set_lines_found _ _ _ _ Hex1) in Hl as [-> | [Hl Hno]].
      + rewrite parse_line_new in Hpl by reflexivity. congruence.
      + apply parse_line_key in Hpl as [Hpl _]. congruence. }
  (* no station SSID: the connect fails at once, and the fallback runs *)
  unfold try_except, bind.
  rewrite (connect_interface_no_ssid hw AP verbose w1 _ _ Hs1 Hb2);
    [| now rewrite Hss].
  cbn [fallback].
  destruct (access_point_reset_run hw AP verbose w1 _ _ Hs1 Hb2)
    as (d & r & w2 & Hrun & [Hs2 Ht2] & Hd & Hr).
  rewrite Hrun.
  assert (Hs2' : secrets_py w2 = Some (cleared text)) by congruence.
  eexists _, _, w2. split; [reflexivity|]. split; [reflexivity|].
  split; [rewrite Ht2, Ht1; rewrite <- app_assoc; reflexivity|].
  destruct (count_reset_events
              (none_if_empty (getattr (bindings ls2) "AP_SSID" None))
              (none_if_empty (getattr (bindings ls2) "AP_PASSWORD" None))
              d r Hd Hr) as (_ & _ & Hsc & Hco).
  count_simpl. rewrite Hsc, Hco.
  rewrite !(count_poll_zero _ evs1);
    try exact Hp1; try (intros [] He; try discriminate; reflexivity).
  splits; try reflexivity.
  - now rewrite (dynamic_get_secret_at "WLAN_SSID" w2 _ _ Hs2' Hb2), Hss.
  - now rewrite (dynamic_get_secret_at "WLAN_PASSWORD" w2 _ _ Hs2' Hb2), Hpw.
Qed.

End AcquireAccessPoint.

Lemma acquire_without_ssid_is_access_point_witness :
  exists WLAN' evs w',
    get_network_interface (radio ["HomeNet"] 0 false) true
      (booted unprovisioned) = (Ok (WLAN', AP_IF), w') /\
    w_mode WLAN' = AP_IF /\ trace w' = ([] ++ evs)%list /\
    count is_scan evs = 0 /\ count is_connect evs = 0 /\
    dynamic_get_secret "WLAN_SSID" w' = (Ok None, w') /\
    dynamic_get_secret "WLAN_PASSWORD" w' = (Ok None, w').
Proof.
  exact (acquire_without_ssid_is_access_point (radio ["HomeNet"] 0 false)
           true (booted unprovisioned) unprovisioned
           "PICO-W-E66161234567890B" "E66161234567890B"
           eq_refl eq_refl eq_refl eq_refl eq_refl eq_refl eq_refl).
Defined.

Lemma set_lines_has_new (name s : string) (ls : list string) :
  In (format_quoted name (Some s)) (set_lines name (Some s) ls).
Proof.
  rewrite set_lines_spec. apply in_or_app.
  destruct (existsb (str_in name) ls) eqn:E.
  - left. apply existsb_exists in E as (l0 & Hl0 & Hin).
    apply in_map_iff. exists l0. now rewrite Hin.
  - right. now left.
Qed.

(** X8.  On a well-formed file, and when the submitted SSID is missing or
    can stand between quotes, a submitted password that is not empty, can
    stand between quotes and in whose line the text [WLAN_SSID] does not
    occur is the stored password after the request, whether the SSID is
    accepted (205) or rejected (400). *)
Theorem post_stores_password (request : form) (w : world) (text s : string) :
  secrets_py w = Some text -> well_formed text = true ->
  input_password request = Some s -> s <> EmptyString ->
  clean (Some s) = true -> clean (input_ssid request) = true ->
  str_in "WLAN_SSID" (format_quoted "WLAN_PASSWORD" (Some s)) = false ->
  exists w',
    set_connection request w =
      (Ok (if is_None (none_if_empty (input_ssid request))
           then bad_request else reset_content), w') /\
    dynamic_get_secret "WLAN_PASSWORD" w' = (Ok (Some s), w').
Proof.
  intros Hs Hwf Hpw Hne Hc Hcs Hno.
  assert (Hn : none_if_empty (Some s) = Some s)
    by (destruct s; [congruence | reflexivity]).
  rewrite (set_connection_run request w text Hs), Hpw, Hn.
  eexists. split; [reflexivity|].
  set (sv := none_if_empty (input_ssid request)).
  assert (Hcv : clean sv = true) by now apply clean_none_if_empty.
  set (ls1 := set_lines "WLAN_PASSWORD" (Some s) (readlines text)).
  assert (Hg1 : forallb good_line ls1 = true)
    by (apply set_lines_good; [reflexivity | exact Hc | exact Hwf]).
  rewrite (readlines_join ls1 (good_lines_proper ls1 Hg1)).
  set (ls2 := set_lines "WLAN_SSID" sv ls1).
  assert (Hg2 : forallb good_line ls2 = true)
    by (apply set_lines_good; [reflexivity | exact Hcv | exact Hg1]).
  erewrite dynamic_get_secret_at;
    [| reflexivity | exact (well_formed_exec _ (well_formed_join ls2 Hg2))].
  rewrite (readlines_join ls2 (good_lines_proper ls2 Hg2)).
  assert (Hget : getattr (bindings ls2) "WLAN_PASSWORD" None = Some s).
  { apply getattr_some.
    - intros l k v' Hl Hp ->.
      apply in_set_lines in Hl as [-> | [-> | [Hl _]]].
      + rewrite parse_line_new in Hp by (reflexivity || assumption).
        discriminate.
      + rewrite parse_line_quoted in Hp by (reflexivity || assumption).
        discriminate.
      + apply in_set_lines in Hl as [-> | [-> | [Hl Hl']]].
        * rewrite parse_line_new in Hp by (reflexivity || assumption).
          congruence.
        * rewrite parse_line_quoted in Hp by (reflexivity || assumption).
          cbn in Hp. congruence.
        * apply parse_line_key in Hp as [Hp _]. congruence.
    - exists (format_quoted "WLAN_PASSWORD" (Some s)). split.
      + apply in_set_lines_keep; [apply set_lines_has_new | exact Hno].
      + now rewrite parse_line_quoted. }
  now rewrite Hget, Hn.
Qed.

Lemma post_stores_password_witness :
  exists w',
    set_connection {| input_ssid := Some ""; input_password := Some "secret2" |}
      (booted homenet) = (Ok bad_request, w') /\
    dynamic_get_secret "WLAN_PASSWORD" w' = (Ok (Some "secret2"), w').
Proof.
  refine (post_stores_password
            {| input_ssid := Some ""; input_password := Some "secret2" |}
            (booted homenet) homenet "secret2"
            eq_refl eq_refl eq_refl _ eq_refl eq_refl eq_refl).
  discriminate.
Defined.

(* ===================================================================== *)
(** ** Messages: [debug_message] *)
(* ===================================================================== *)

Lemma split_LF_pieces (s : string) :
  split_LF s <> [] /\
  Forall (fun l => has_char LF l = false) (split_LF s).
Proof.
  induction s as [|c s [Hne IH]]; cbn [split_LF].
  - split; [discriminate | repeat constructor].
  - destruct (is_LF c) eqn:Hc.
    + split; [discriminate | constructor; [reflexivity | exact IH]].
    + destruct (split_LF s) as [|l ls]; [contradiction|].
      split; [discriminate|].
      inversion IH as [|? ? Hl Hls]; subst.
      constructor; [|exact Hls].
      cbn [has_char]. rewrite Hl, orb_false_r.
      unfold is_LF in Hc. rewrite Ascii.eqb_sym. exact Hc.
Qed.

Lemma split_LF_line (l : string) :
  has_char LF l = false -> split_LF l = [l].
Proof.
  induction l as [|c l IH]; cbn [split_LF has_char]; [reflexivity|].
  intros H. apply orb_false_iff in H as [Hc Hl].
  unfold is_LF. rewrite Ascii.eqb_sym, Hc, (IH Hl). reflexivity.
Qed.

Lemma split_LF_app (l r : string) :
  has_char LF l = false ->
  split_LF (l ++ String LF r) = l :: split_LF r.
Proof.
  induction l as [|c l IH]; cbn [split_LF has_char append].
  - intros _. unfold is_LF. now rewrite Ascii.eqb_refl.
  - intros H. apply orb_false_iff in H as [Hc Hl].
    unfold is_LF in *. rewrite Ascii.eqb_sym, Hc, (IH Hl). reflexivity.
Qed.

Lemma split_join_LF (ls : list string) :
  ls <> [] -> Forall (fun l => has_char LF l = false) ls ->
  split_LF (join_LF ls) = ls.
Proof.
  induction ls as [|l ls IH]; [contradiction|].
  intros _ H. inversion H as [|? ? Hl Hls]; subst.
  destruct ls as [|l2 ls].
  - cbn [join_LF]. now apply split_LF_line.
  - change (join_LF (l :: l2 :: ls)) with (l ++ String LF (join_LF (l2 :: ls))).
    rewrite (split_LF_app _ _ Hl), IH; [reflexivity | discriminate | exact Hls].
Qed.

Lemma lstrip_chars (c : ascii) (s : string) :
  has_char c s = false -> has_char c (lstrip s) = false.
Proof.
  induction s as [|d s IH]; cbn [lstrip has_char]; [reflexivity|].
  intros H. destruct (is_space d); [|exact H].
  apply orb_false_iff in H as [_ Hs]. exact (IH Hs).
Qed.

Lemma rstrip_chars (c : ascii) (s : string) :
  has_char c s = false -> has_char c (rstrip s) = false.
Proof.
  induction s as [|d s IH]; cbn [rstrip has_char]; [reflexivity|].
  intros H. apply orb_false_iff in H as [Hd Hs]. specialize (IH Hs).
  destruct (rstrip s) as [|e r].
  - destruct (is_space d); cbn [has_char]; [reflexivity | now rewrite Hd].
  - cbn [has_char] in *. now rewrite Hd, IH.
Qed.

Lemma strip_chars (c : ascii) (s : string) :
  has_char c s = false -> has_char c (strip s) = false.
Proof. intros H. apply rstrip_chars, lstrip_chars, H. Qed.

Lemma rstrip_last (s : string) (c : ascii) :
  last_char (rstrip s) = Some c -> is_space c = false.
Proof.
  induction s as [|d s IH]; cbn [rstrip]; [discriminate|].
  destruct (rstrip s) as [|e r].
  - destruct (is_space d) eqn:Hd; cbn [last_char]; [discriminate|].
    intros [= <-]. exact Hd.
  - intros H. apply IH. exact H.
Qed.

Lemma rstrip_first (c : ascii) (s : string) :
  is_space c = false -> exists r, rstrip (String c s) = String c r.
Proof.
  intros Hc. cbn [rstrip]. destruct (rstrip s) as [|e r].
  - rewrite Hc. now exists EmptyString.
  - now exists (String e r).
Qed.

Lemma lstrip_first (s : string) :
  match lstrip s with
  | EmptyString => True
  | String c _ => is_space c = false
  end.
Proof.
  induction s as [|d s IH]; cbn [lstrip]; [exact I|].
  destruct (is_space d) eqn:Hd; [exact IH | exact Hd].
Qed.

Lemma strip_trimmed (s : string) : trimmed (strip s) = true.
Proof.
  unfold trimmed, strip. apply andb_true_iff. split.
  - pose proof (lstrip_first s) as H. destruct (lstrip s) as [|c t].
    + reflexivity.
    + destruct (rstrip_first c t H) as [r ->]. now rewrite H.
  - destruct (last_char (rstrip (lstrip s))) as [c|] eqn:Hl; [|reflexivity].
    now rewrite (rstrip_last _ _ Hl).
Qed.

Lemma rstrip_trimmed (s : string) :
  match last_char s with
  | None => true
  | Some c => negb (is_space c)
  end = true ->
  rstrip s = s.
Proof.
  induction s as [|d s IH]; [reflexivity|].
  cbn [last_char rstrip]. destruct s as [|e s].
  - cbn [rstrip]. intros H. apply negb_true_iff in H. now rewrite H.
  - intros H. rewrite (IH H). reflexivity.
Qed.

Lemma trimmed_strip (s : string) : trimmed s = true -> strip s = s.
Proof.
  unfold trimmed, strip. intros H. apply andb_true_iff in H as [Hf Hl].
  destruct s as [|c s]; [reflexivity|].
  apply negb_true_iff in Hf. cbn [lstrip]. rewrite Hf.
  now apply rstrip_trimmed.
Qed.

(** X18.  With [verbose] off [debug_message] prints nothing.  With [verbose]
    on it prints the message line by line, each line with the white space
    at its two ends removed: as many lines as the message has, none of them
    starting or ending with white space.  A message that was printed is
    printed unchanged when it is passed again. *)
Theorem debug_message_strips_lines (message : string) :
  debug_message message false = None /\
  exists out,
    debug_message message true = Some out /\
    split_LF out = map strip (split_LF message) /\
    List.length (split_LF out) = List.length (split_LF message) /\
    Forall (fun l => trimmed l = true) (split_LF out) /\
    debug_message out true = Some out.
Proof.
  split; [reflexivity|].
  exists (join_LF (map strip (split_LF message))).
  destruct (split_LF_pieces message) as [Hne Hlf].
  assert (Hsplit : split_LF (join_LF (map strip (split_LF message)))
                   = map strip (split_LF message)).
  { apply split_join_LF.
    - destruct (split_LF message); [contradiction | discriminate].
    - apply Forall_map. revert Hlf. apply Forall_impl.
      intros l. apply strip_chars. }
  assert (Htrim : Forall (fun l => trimmed l = true)
                    (map strip (split_LF message))).
  { apply Forall_map, Forall_forall. intros l _. apply strip_trimmed. }
  splits.
  - reflexivity.
  - exact Hsplit.
  - now rewrite Hsplit, length_map.
  - now rewrite Hsplit.
  - unfold debug_message. cbn [negb]. rewrite Hsplit. f_equal. f_equal.
    clear Hsplit. induction Htrim as [|l ls Hl _ IH]; cbn [map]; [reflexivity|].
    now rewrite (trimmed_strip _ Hl), IH.
Qed.

(* ===================================================================== *)
(** ** The clock: [synchronise_time] *)
(* ===================================================================== *)

Lemma attempt_settime_run (ntp : Ntp) (left calls : nat) :
  (forall n, ntp n = None \/ ntp n = Some OSError) ->
  (exists made,
     1 <= made <= left /\
     attempt_settime ntp left calls = (Ok tt, calls + made) /\
     ntp (calls + made - 1) = None /\
     forall j, j < made - 1 -> ntp (calls + j) = Some OSError) \/
  (attempt_settime ntp left calls = (Raise StopIteration, calls + left) /\
   forall j, j < left -> ntp (calls + j) = Some OSError).
Proof.
  intros Hntp. revert calls.
  induction left as [|left IH]; intros calls; cbn [attempt_settime].
  - right. split; [now rewrite Nat.add_0_r | lia].
  - destruct (Hntp calls) as [H0 | H0]; rewrite H0.
    + left. exists 1. splits.
      * lia.
      * lia.
      * now rewrite Nat.add_1_r.
      * now replace (calls + 1 - 1) with calls by lia.
      * lia.
    + destruct (IH (S calls))
        as [(made & Hm & Hrun & Hlast & Hbefore) | [Hrun Hall]].
      * left. exists (S made). splits.
        -- lia.
        -- lia.
        -- rewrite Hrun. f_equal. lia.
        -- replace (calls + S made - 1) with (S calls + made - 1) by lia.
           exact Hlast.
        -- intros j Hj. destruct j as [|j].
           ++ now rewrite Nat.add_0_r.
           ++ replace (calls + S j) with (S calls + j) by lia.
              apply Hbefore. lia.
      * right. split.
        -- rewrite Hrun. f_equal. lia.
        -- intros j Hj. destruct j as [|j].
           ++ now rewrite Nat.add_0_r.
           ++ replace (calls + S j) with (S calls + j) by lia.
              apply Hall. lia.
Qed.

(** X19.  When [ntptime.settime()] either succeeds or raises [OSError],
    [synchronise_time] never raises and calls it at most thirty times, one
    call straight after the other.  It returns true at the first call that
    succeeds, all calls before it having failed, and makes no call after
    it; it returns false when thirty calls in a row have failed. *)
Theorem synchronise_time_retries (ntp : Ntp) (verbose : bool) (calls : nat) :
  (forall n, ntp n = None \/ ntp n = Some OSError) ->
  (exists made,
     1 <= made <= 30 /\
     synchronise_time ntp verbose calls = (Ok true, calls + made) /\
     ntp (calls + made - 1) = None /\
     forall j, j < made - 1 -> ntp (calls + j) = Some OSError) \/
  (synchronise_time ntp verbose calls = (Ok false, calls + 30) /\
   forall j, j < 30 -> ntp (calls + j) = Some OSError).
Proof.
  intros Hntp. unfold synchronise_time.
  destruct (attempt_settime_run ntp 30 calls Hntp)
    as [(made & Hm & Hrun & Hlast & Hbefore) | [Hrun Hall]]; rewrite Hrun.
  - left. exists made. splits; try assumption; try lia. reflexivity.
  - right. split; [reflexivity | exact Hall].
Qed.

Lemma synchronise_time_retries_witness :
  (exists made,
     1 <= made <= 30 /\
     synchronise_time ntp_late true 0 = (Ok true, 0 + made) /\
     ntp_late (0 + made - 1) = None /\
     forall j, j < made - 1 -> ntp_late (0 + j) = Some OSError) \/
  (synchronise_time ntp_late true 0 = (Ok false, 0 + 30) /\
   forall j, j < 30 -> ntp_late (0 + j) = Some OSError).
Proof.
  apply (synchronise_time_retries ntp_late true 0).
  intros n. unfold ntp_late. destruct (n <? 3)%nat; [right | left]; reflexivity.
Defined.

(* ===================================================================== *)
(** ** Certificates: [get_context] *)
(* ===================================================================== *)

(** X20.  [get_context] returns a context exactly when the three files of
    [certs/] can be opened, and the context then holds the certificate and
    the private key as the chain, in that order, and the root certificate
    as the authority, and it requires the certificate of the server.  When
    the private key is missing the [OSError] names the certificate file;
    when the certificate is missing it names the root certificate; when the
    root certificate is missing the handler itself fails with [IndexError].
    No context is returned in these cases. *)
Theorem get_context_files (open : string -> option (list byte))
    (verbose : bool) :
  let key := open "certs/irrigation-control.private.key.der" in
  let cert := open "certs/irrigation-control.certificate.der" in
  let ca := open "certs/AmazonRootCA1.cer" in
  match get_context open verbose with
  | inr context =>
      key = Some (snd (cert_chain context)) /\
      cert = Some (fst (cert_chain context)) /\
      ca = Some (cadata context) /\
      verify_mode context = CERT_REQUIRED
  | inl (CertOSError message) =>
      (key = None /\
       message = "certs/irrigation-control.certificate.der missing") \/
      (key <> None /\ cert = None /\
       message = "certs/AmazonRootCA1.cer missing")
  | inl CertIndexError => key <> None /\ cert <> None /\ ca = None
  end.
Proof.
  cbv zeta. unfold get_context.
  destruct (open "certs/irrigation-control.private.key.der") as [k|].
  - destruct (open "certs/irrigation-control.certificate.der") as [c|].
    + destruct (open "certs/AmazonRootCA1.cer") as [a|].
      * cbn. splits; reflexivity.
      * cbn. splits; [discriminate | discriminate | reflexivity].
    + cbn. right. splits; [discriminate | reflexivity | reflexivity].
  - cbn. left. split; reflexivity.
Qed.

(* ===================================================================== *)
(** ** The secrets file: reads, first write, frame and overwrite *)
(* ===================================================================== *)

Lemma getattr_app (a b : list (string * pyval)) (name : string) (d : pyval) :
  getattr (a ++ b) name d = getattr b name (getattr a name d).
Proof.
  revert d. induction a as [|[k v] a IH]; intros d; [reflexivity|].
  cbn [app getattr]. apply IH.
Qed.

Lemma getattr_in (bs : list (string * pyval)) (name s : string) (d : pyval) :
  getattr bs name d = Some s -> d = Some s \/ In (name, Some s) bs.
Proof.
  revert d. induction bs as [|[k v] bs IH]; intros d; cbn [getattr].
  - now left.
  - intros H. apply IH in H as [H | H]; [|right; now right].
    destruct (String.eqb_spec k name) as [->|_].
    + right. left. now rewrite H.
    + now left.
Qed.

Lemma getattr_missing (bs : list (string * pyval)) (name : string)
    (d : pyval) :
  (forall v, ~ In (name, v) bs) -> getattr bs name d = d.
Proof.
  revert d. induction bs as [|[k v] bs IH]; intros d H; [reflexivity|].
  cbn [getattr]. destruct (String.eqb_spec k name) as [->|_].
  - exfalso. apply (H v). now left.
  - apply IH. intros v' Hin. apply (H v'). now right.
Qed.

(** X3.  On a secrets file that imports, and for a name that is an
    identifier, [dynamic_get_secret] returns and leaves the file and the
    radio alone; a string that it returns is assigned to that name in the
    file and is never the empty string, and a name that the file does not
    assign reads as [None]. *)
Theorem get_secret_reads_the_file (name : string) (w : world)
    (text : string) (bs : list (string * pyval)) :
  is_ident name = true ->
  secrets_py w = Some text -> exec_module text = Some bs ->
  exists v,
    dynamic_get_secret name w = (Ok v, w) /\
    v <> Some EmptyString /\
    (forall s, v = Some s -> In (name, Some s) bs) /\
    ((forall x, ~ In (name, x) bs) -> v = None).
Proof.
  intros _ Hs Hb.
  exists (none_if_empty (getattr bs name None)).
  splits.
  - exact (dynamic_get_secret_at name w text bs Hs Hb).
  - destruct (getattr bs name None) as [[|c s]|]; discriminate.
  - intros s Hv.
    assert (Hg : getattr bs name None = Some s).
    { destruct (getattr bs name None) as [[|c t]|]; cbn in Hv; congruence. }
    apply getattr_in in Hg as [Hg | Hg]; [discriminate | exact Hg].
  - intros Hno. now rewrite (getattr_missing bs name None Hno).
Qed.

Lemma get_secret_reads_the_file_witness :
  exists v,
    dynamic_get_secret "WLAN_SSID" (booted homenet) = (Ok v, booted homenet) /\
    v <> Some EmptyString /\
    (forall s, v = Some s -> In ("WLAN_SSID", Some s) homenet_bindings) /\
    ((forall x, ~ In ("WLAN_SSID", x) homenet_bindings) -> v = None).
Proof.
  exact (get_secret_reads_the_file "WLAN_SSID" (booted homenet) homenet
           homenet_bindings eq_refl eq_refl eq_refl).
Defined.



(** Writing [name] leaves the value of [other] as it was, when the lines in
    which [name] occurs do not assign [other]. *)
Lemma getattr_set_lines_other (name other : string) (value d : pyval)
    (ls : list string) :
  is_ident name = true -> clean value = true -> name <> other ->
  apart name other ls = true ->
  getattr (bindings (set_lines name value ls)) other d
  = getattr (bindings ls) other d.
Proof.
  intros Hid Hc Hne Hap. rewrite set_lines_spec.
  unfold bindings at 1. rewrite flat_map_app. fold bindings.
  rewrite getattr_app.
  assert (Hneq : String.eqb name other = false)
    by now apply String.eqb_neq.
  assert (Htail : forall d',
             getattr (bindings (if existsb (str_in name) ls then []
                                else [format_quoted name value])) other d'
             = d').
  { intros d'. destruct (existsb (str_in name) ls); [reflexivity|].
    cbn [bindings flat_map]. rewrite (parse_line_quoted name value Hid Hc).
    cbn [app getattr]. now rewrite Hneq. }
  unfold bindings in Htail. rewrite Htail. clear Htail. fold bindings.
  revert d. induction ls as [|l ls IH]; intros d; [reflexivity|].
  cbn [apart forallb] in Hap. apply andb_true_iff in Hap as [Hl Hap].
  cbn [map bindings flat_map]. fold (bindings ls).
  fold (bindings (map (fun l0 => if str_in name l0 then new_line name value
                                 else l0) ls)).
  rewrite !getattr_app, (IH Hap). f_equal.
  destruct (str_in name l) eqn:Hin.
  - rewrite (parse_line_new name value Hid Hc). cbn [getattr]. rewrite Hneq.
    cbn [negb orb] in Hl.
    destruct (parse_line l) as [[k v]|]; [|reflexivity].
    cbn [getattr]. apply negb_true_iff in Hl. now rewrite Hl.
  - reflexivity.
Qed.

(** X5.  Writing one secret leaves another as it was.  On a well-formed
    file, after [dynamic_set_secret name value], with [name] an identifier
    and [value] unset or made of printable characters other than the quote
    and the backslash, every other identifier reads as before, provided
    that the lines in which the text [name] occurs do not assign it. *)
Theorem set_keeps_other_secrets (name other : string) (value : pyval)
    (w : world) (text : string) :
  secrets_py w = Some text -> well_formed text = true ->
  is_ident name = true -> clean value = true ->
  is_ident other = true -> name <> other ->
  apart name other (readlines text) = true ->
  exists stored v w',
    dynamic_set_secret name value w = (Ok stored, w') /\
    trace w' = trace w /\
    dynamic_get_secret other w = (Ok v, w) /\
    dynamic_get_secret other w' = (Ok v, w').
Proof.
  intros Hs Hwf Hid Hc _ Hne Hap.
  rewrite (dynamic_set_secret_at name value w text Hs).
  do 3 eexists. split; [reflexivity|]. split; [reflexivity|].
  rewrite (dynamic_get_secret_at other w text _ Hs (well_formed_exec _ Hwf)).
  split; [reflexivity|].
  set (ls := set_lines name (none_if_empty value) (readlines text)).
  assert (Hcv : clean (none_if_empty value) = true)
    by now apply clean_none_if_empty.
  assert (Hg : forallb good_line ls = true)
    by (apply set_lines_good; assumption).
  erewrite dynamic_get_secret_at;
    [| reflexivity | exact (well_formed_exec _ (well_formed_join ls Hg))].
  rewrite (readlines_join ls (good_lines_proper ls Hg)). unfold ls.
  now rewrite (getattr_set_lines_other name other _ None _ Hid Hcv Hne Hap).
Qed.

Lemma set_keeps_other_secrets_witness :
  exists stored v w',
    dynamic_set_secret "WLAN_SSID" (Some "Cafe") (booted homenet)
      = (Ok stored, w') /\
    trace w' = [] /\
    dynamic_get_secret "WLAN_PASSWORD" (booted homenet)
      = (Ok v, booted homenet) /\
    dynamic_get_secret "WLAN_PASSWORD" w' = (Ok v, w').
Proof.
  refine (set_keeps_other_secrets "WLAN_SSID" "WLAN_PASSWORD" (Some "Cafe")
            (booted homenet) homenet eq_refl eq_refl eq_refl eq_refl eq_refl
            _ eq_refl).
  discriminate.
Defined.

Lemma str_in_new_line (name : string) (value : pyval) :
  str_in name (new_line name value) = true.
Proof.
  destruct value; cbn [new_line]; unfold format_quoted, format_plain;
    apply str_in_prefix.
Qed.

Lemma str_in_format_quoted (name : string) (value : pyval) :
  str_in name (format_quoted name value) = true.
Proof. unfold format_quoted. apply str_in_prefix. Qed.

Lemma set_lines_twice (name : string) (v1 v2 : pyval) (ls : list string) :
  existsb (str_in name) ls = true \/ v2 <> None ->
  set_lines name v2 (set_lines name v1 ls) = set_lines name v2 ls.
Proof.
  intros H. rewrite !set_lines_spec.
  set (f1 := fun l => if str_in name l then new_line name v1 else l).
  set (f2 := fun l => if str_in name l then new_line name v2 else l).
  assert (Hmap : forall l, f2 (f1 l) = f2 l).
  { intros l. unfold f1, f2. destruct (str_in name l) eqn:E.
    - now rewrite str_in_new_line.
    - now rewrite E. }
  destruct (existsb (str_in name) ls) eqn:Hex.
  - rewrite !app_nil_r.
    assert (Hex1 : existsb (str_in name) (map f1 ls) = true).
    { apply existsb_exists in Hex as (l & Hl & Hin).
      apply existsb_exists. exists (f1 l). split; [now apply in_map|].
      unfold f1. rewrite Hin. apply str_in_new_line. }
    rewrite Hex1, app_nil_r, map_map. apply map_ext. exact Hmap.
  - destruct H as [H | H]; [discriminate|].
    destruct v2 as [s2|]; [|contradiction].
    rewrite existsb_app. cbn [existsb]. rewrite str_in_format_quoted.
    cbn [orb]. rewrite orb_true_r, app_nil_r, map_app, map_map.
    cbn [map]. f_equal; [apply map_ext; exact Hmap|].
    unfold f2. now rewrite str_in_format_quoted.
Qed.

Lemma proper_lines_set (name : string) (value : pyval) (ls : list string) :
  has_char LF name = false -> has_char LF (py_str value) = false ->
  forallb proper_line ls = true ->
  forallb proper_line (set_lines name value ls) = true.
Proof.
  intros Hn Hv Hls.
  assert (Hq : proper_line (format_quoted name value) = true).
  { unfold format_quoted.
    change (name ++ " = '" ++ py_str value ++ "'" ++ NL)
      with (name ++ " = '" ++ py_str value ++ "'" ++ String LF EmptyString).
    rewrite <- !append_assoc. apply proper_line_intro.
    now rewrite !has_char_app, Hn, Hv. }
  assert (Hp : proper_line (format_plain name value) = true).
  { unfold format_plain.
    change (name ++ " = " ++ py_str value ++ NL)
      with (name ++ " = " ++ py_str value ++ String LF EmptyString).
    rewrite <- !append_assoc. apply proper_line_intro.
    now rewrite !has_char_app, Hn, Hv. }
  assert (Hnew : proper_line (new_line name value) = true)
    by (destruct value; assumption).
  rewrite set_lines_spec, forallb_app. apply andb_true_iff. split.
  - rewrite forallb_forall in *. intros l Hl.
    apply in_map_iff in Hl as (l0 & <- & Hl0).
    destruct (str_in name l0); [exact Hnew | now apply Hls].
  - destruct (existsb (str_in name) ls); [reflexivity|].
    cbn [forallb]. now rewrite Hq.
Qed.

(** X6.  The last write wins: on a file whose lines all end with their line
    feed, and when neither [name] nor the first value contains a line feed,
    writing [name] twice leaves the file that the second write alone would
    leave, and answers the same.  (When no line mentions [name] yet, this
    is so for a second value that is not empty.)  In particular, writing
    the same value again changes nothing. *)
Theorem set_twice_is_set_last (name : string) (v1 v2 : pyval) (w : world)
    (text : string) :
  secrets_py w = Some text ->
  forallb proper_line (readlines text) = true ->
  has_char LF name = false -> has_char LF (py_str v1) = false ->
  existsb (str_in name) (readlines text) = true \/ none_if_empty v2 <> None ->
  bind (dynamic_set_secret name v1) (fun _ => dynamic_set_secret name v2) w
  = dynamic_set_secret name v2 w.
Proof.
  intros Hs Hp Hn Hv1 H.
  unfold bind at 1.
  rewrite !(dynamic_set_secret_at name _ w text Hs).
  rewrite dynamic_set_secret_text. f_equal. f_equal. f_equal. f_equal.
  assert (Hv1' : has_char LF (py_str (none_if_empty v1)) = false)
    by (destruct v1 as [[|c s]|]; [reflexivity | exact Hv1 | reflexivity]).
  rewrite (readlines_join _ (proper_lines_set name _ _ Hn Hv1' Hp)).
  now apply set_lines_twice.
Qed.

Lemma set_twice_is_set_last_witness :
  bind (dynamic_set_secret "WLAN_SSID" (Some "Cafe"))
       (fun _ => dynamic_set_secret "WLAN_SSID" (Some "Library"))
       (booted homenet)
  = dynamic_set_secret "WLAN_SSID" (Some "Library") (booted homenet).
Proof.
  refine (set_twice_is_set_last "WLAN_SSID" (Some "Cafe") (Some "Library")
            (booted homenet) homenet eq_refl eq_refl eq_refl eq_refl _).
  left. reflexivity.
Defined.

(* ===================================================================== *)
(** ** [get_network_interface]: the station path *)
(* ===================================================================== *)

Section Station.

Variable hw : Radio.
Variable verbose : bool.


Lemma connect_interface_scan_error (WLAN : wlan) (w : world) (text : string)
    (bs : list (string * pyval)) (ssid : string) (e : exn) :
  secrets_py w = Some text -> exec_module text = Some bs ->
  none_if_empty (getattr bs "WLAN_SSID" None) = Some ssid ->
  hw_scan hw (trace w) = Raise e ->
  connect_interface hw WLAN verbose w =
    (Raise (connect_error e),
     {| secrets_py := secrets_py w; trace := (trace w ++ [EvScan])%list |}).
Proof.
  intros Hs Hb Hn Hscan. unfold connect_interface, bind, try_except.
  rewrite (dynamic_get_secret_at "WLAN_SSID" w text bs Hs Hb).
  rewrite (dynamic_get_secret_at "WLAN_PASSWORD" w text bs Hs Hb).
  rewrite Hn. unfold WLAN_scan, bind, ask. rewrite Hscan.
  cbv beta iota. unfold raise. destruct e; reflexivity.
Qed.

Lemma connect_interface_connect_error (WLAN : wlan) (w : world)
    (text : string) (bs : list (string * pyval)) (ssid : string)
    (names : list string) (e : exn) :
  secrets_py w = Some text -> exec_module text = Some bs ->
  none_if_empty (getattr bs "WLAN_SSID" None) = Some ssid ->
  hw_scan hw (trace w) = Ok names ->
  member ssid (available_networks names) = true ->
  hw_connect hw (trace w ++ [EvScan])%list = Some e ->
  connect_interface hw WLAN verbose w =
    (Raise (connect_error e),
     {| secrets_py := secrets_py w;
        trace := (trace w ++
                  [EvScan;
                   EvConnect ssid
                     (none_if_empty (getattr bs "WLAN_PASSWORD" None))])%list
     |}).
Proof.
  intros Hs Hb Hn Hscan Hmem Hconn. unfold connect_interface.
  unfold bind at 1. unfold try_except at 1. unfold bind at 1.
  rewrite (dynamic_get_secret_at "WLAN_SSID" w text bs Hs Hb).
  unfold bind at 1.
  rewrite (dynamic_get_secret_at "WLAN_PASSWORD" w text bs Hs Hb).
  rewrite Hn. unfold WLAN_scan, WLAN_connect.
  unfold bind at 1. unfold bind at 1. unfold ask at 1. rewrite Hscan.
  cbv beta iota. unfold ret at 1. rewrite Hmem. cbn [negb].
  unfold bind at 1. unfold ask at 1. cbn [trace secrets_py].
  rewrite Hconn. rewrite <- app_assoc. unfold raise.
  destruct e; reflexivity.
Qed.


End Station.



(** X13.  An [OSError] of the radio is not turned into the connection
    error.  When [WLAN.scan()] raises [OSError], or the scan lists the
    stored SSID and [WLAN.connect()] raises [OSError], the handler of
    [connect_interface] fails on the name [e], which it never bound:
    [NameError] leaves [get_network_interface], which has no clause for it.
    There is no fallback: no interface is deinitialised and no access
    point is created. *)
Theorem acquire_OSError_escapes (hw : Radio) (verbose : bool) (w : world)
    (text : string) (bs : list (string * pyval)) (ssid a p : string)
    (names : list string) :
  secrets_py w = Some text -> exec_module text = Some bs ->
  none_if_empty (getattr bs "WLAN_SSID" None) = Some ssid ->
  none_if_empty (getattr bs "AP_SSID" None) = Some a ->
  none_if_empty (getattr bs "AP_PASSWORD" None) = Some p ->
  (forall h, hw_scan hw h = Raise OSError) \/
  ((forall h, hw_scan hw h = Ok names) /\
   member ssid (available_networks names) = true /\
   (forall h, hw_connect hw h = Some OSError)) ->
  exists evs w',
    get_network_interface hw verbose w = (Raise NameError, w') /\
    after w evs w' /\
    count is_deinit evs = 0 /\ count is_new_ap evs = 0.
Proof.
  intros Hs Hb Hssid Ha Hp Hradio.
  destruct (get_network_interface_station hw verbose w text bs ssid a p
              Hs Hb Hssid Ha Hp)
    as (polls & w1 & [Hs1 Ht1] & Hpolls & ->).
  assert (Hs1' : secrets_py w1 = Some text) by congruence.
  assert (Hz : forall q, (forall e, is_poll e = true -> q e = false) ->
                         count q polls = 0).
  { intros q Hq. now apply count_poll_zero. }
  unfold try_except at 1. unfold bind at 1.
  destruct Hradio as [Hscan | (Hscan & Hmem & Hconn)].
  - rewrite (connect_interface_scan_error hw verbose _ w1 text bs ssid
               OSError Hs1' Hb Hssid (Hscan _)).
    cbn [connect_error fallback]. unfold raise.
    eexists ([EvNew STA_IF; EvConfig (Some a) (Some p) (Some PM);
               EvSetActive true]
              ++ polls ++ [EvScan])%list, _.
    split; [reflexivity|].
    split; [split; cbn [secrets_py trace];
            [exact Hs1 | rewrite Ht1; now rewrite <- !app_assoc]|].
    count_simpl.
    rewrite (Hz is_deinit), (Hz is_new_ap);
      try (intros [] He; try discriminate; reflexivity).
    split; reflexivity.
  - rewrite (connect_interface_connect_error hw verbose _ w1 text bs ssid
               names OSError Hs1' Hb Hssid (Hscan _) Hmem (Hconn _)).
    cbn [connect_error fallback]. unfold raise.
    eexists ([EvNew STA_IF; EvConfig (Some a) (Some p) (Some PM);
               EvSetActive true]
              ++ polls
              ++ [EvScan;
                  EvConnect ssid
                    (none_if_empty (getattr bs "WLAN_PASSWORD" None))])%list,
      _.
    split; [reflexivity|].
    split; [split; cbn [secrets_py trace];
            [exact Hs1 | rewrite Ht1; now rewrite <- !app_assoc]|].
    count_simpl.
    rewrite (Hz is_deinit), (Hz is_new_ap);
      try (intros [] He; try discriminate; reflexivity).
    split; reflexivity.
Qed.

Lemma acquire_OSError_escapes_witness :
  exists evs w',
    get_network_interface radio_scan_fails true (booted homenet)
      = (Raise NameError, w') /\
    after (booted homenet) evs w' /\
    count is_deinit evs = 0 /\ count is_new_ap evs = 0.
Proof.
  refine (acquire_OSError_escapes radio_scan_fails true (booted homenet)
            homenet homenet_bindings "HomeNet" "PICO-W-E66161234567890B"
            "E66161234567890B" [] eq_refl eq_refl eq_refl eq_refl eq_refl _).
  left. intros h. reflexivity.
Defined.

(* ===================================================================== *)
(** ** The two copies of [connect_interface] *)
(* ===================================================================== *)

Lemma connect_request_OSError (hw : Radio) (WLAN : wlan) (w w1 : world) :
  connect_request hw WLAN w = (Raise OSError, w1) ->
  (exists h, hw_scan hw h = Raise OSError) \/
  (exists h, hw_connect hw h = Some OSError).
Proof.
  unfold connect_request, bind, dynamic_get_secret, raise.
  destruct (secrets_py w) as [text|] eqn:Hs; [|discriminate].
  destruct (exec_module text) as [bs|] eqn:Hb; [|discriminate].
  cbv beta iota. rewrite Hs, Hb. cbv beta iota.
  destruct (none_if_empty (getattr bs "WLAN_SSID" None)) as [ssid|];
    [|discriminate].
  unfold WLAN_scan, WLAN_connect, bind, ask, ret, raise.
  cbn [trace secrets_py].
  destruct (hw_scan hw (trace w)) as [names|e] eqn:Hscan.
  - destruct (negb (member ssid (available_networks names)));
      [discriminate|].
    cbn [trace secrets_py].
    destruct (hw_connect hw (trace w ++ [EvScan])%list) as [e|] eqn:Hconn;
      [|discriminate].
    intros [= -> _]. right. eauto.
  - intros [= -> _]. left. eauto.
Qed.

Lemma connect_interface_cases (hw : Radio) (WLAN : wlan) (verbose : bool)
    (w : world) :
  connect_interface hw WLAN verbose w =
    match connect_request hw WLAN w with
    | (Ok _, w1) =>
        try_except (await_connection hw WLAN 30) (reraise hw WLAN) w1
    | (Raise e, w1) => (Raise (connect_error e), w1)
    end.
Proof.
  unfold connect_interface. fold (connect_request hw WLAN).
  unfold bind at 1. unfold try_except at 1.
  destruct (connect_request hw WLAN w) as [[u|e] w1];
    [reflexivity | destruct e; reflexivity].
Qed.

Lemma connect_interface_cases_2 (hw : Radio) (WLAN : wlan) (verbose : bool)
    (w : world) :
  PicoWebserver.connect_interface hw WLAN verbose w =
    match connect_request hw WLAN w with
    | (Ok _, w1) =>
        try_except (await_connection hw WLAN 30) (reraise hw WLAN) w1
    | (Raise e, w1) =>
        (Raise match e with
               | OSError => WLANConnectionError
               | _ => connect_error e
               end, w1)
    end.
Proof.
  unfold PicoWebserver.connect_interface. fold (connect_request hw WLAN).
  unfold bind at 1. unfold try_except at 1.
  destruct (connect_request hw WLAN w) as [[u|e] w1];
    [reflexivity | destruct e; reflexivity].
Qed.

(** X21.  The two copies of [connect_interface] make the same calls and
    leave the same state, and they answer the same but for one case: where
    the copy of [micropython_default] raises [NameError] on an [OSError] of
    the radio, the copy of [pico-webserver] raises [WLANConnectionError].
    On a radio whose scan and connect never raise [OSError] the two are
    equal. *)
Theorem connect_interface_variants (hw : Radio) (WLAN : wlan)
    (verbose : bool) (w : world) :
  snd (PicoWebserver.connect_interface hw WLAN verbose w)
  = snd (connect_interface hw WLAN verbose w) /\
  (fst (PicoWebserver.connect_interface hw WLAN verbose w)
   = fst (connect_interface hw WLAN verbose w) \/
   (fst (connect_interface hw WLAN verbose w) = Raise NameError /\
    fst (PicoWebserver.connect_interface hw WLAN verbose w)
    = Raise WLANConnectionError)) /\
  ((forall h, hw_scan hw h <> Raise OSError) ->
   (forall h, hw_connect hw h <> Some OSError) ->
   PicoWebserver.connect_interface hw WLAN verbose w
   = connect_interface hw WLAN verbose w).
Proof.
  rewrite connect_interface_cases, connect_interface_cases_2.
  destruct (connect_request hw WLAN w) as [[u|e] w1] eqn:Hbody.
  - splits; [reflexivity | left; reflexivity | reflexivity].
  - destruct e; cbn [fst snd connect_error];
      try (splits; [reflexivity | left; reflexivity | reflexivity]).
    splits; [reflexivity | right; split; reflexivity |].
    intros Hscan Hconn. exfalso.
    destruct (connect_request_OSError hw WLAN w w1 Hbody) as [[h H] | [h H]].
    + exact (Hscan h H).
    + exact (Hconn h H).
Qed.

(* ===================================================================== *)
(** ** What a result of [get_network_interface] tells *)
(* ===================================================================== *)

Lemma bind_Ok {A B : Type} (m : M A) (k : A -> M B) (w : world) (b : B)
    (w' : world) :
  bind m k w = (Ok b, w') ->
  exists a w1, m w = (Ok a, w1) /\ k a w1 = (Ok b, w').
Proof.
  unfold bind. destruct (m w) as [[a|e] w1]; [|discriminate].
  intros H. now exists a, w1.
Qed.

Lemma try_except_Ok {A : Type} (m : M A) (h : exn -> M A) (w : world)
    (a : A) (w' : world) :
  try_except m h w = (Ok a, w') ->
  m w = (Ok a, w') \/ exists e w1, m w = (Raise e, w1) /\ h e w1 = (Ok a, w').
Proof.
  unfold try_except. destruct (m w) as [[a0|e] w1].
  - intros [= -> ->]. now left.
  - intros H. right. now exists e, w1.
Qed.

Lemma dynamic_get_secret_Ok (name : string) (w : world) (v : pyval)
    (w' : world) :
  dynamic_get_secret name w = (Ok v, w') ->
  w' = w /\ secrets_py w <> None.
Proof.
  unfold dynamic_get_secret.
  destruct (secrets_py w) as [text|]; [|discriminate].
  destruct (exec_module text); [|discriminate].
  intros [= _ <-]. split; [reflexivity | discriminate].
Qed.

Lemma dynamic_set_secret_total (name : string) (value : pyval) (w : world) :
  exists text',
    dynamic_set_secret name value w =
      (Ok (negb (is_None (none_if_empty value))),
       {| secrets_py := Some text'; trace := trace w |}).
Proof.
  destruct w as [[text|] tr].
  - eexists. apply dynamic_set_secret_text.
  - exists (join (set_lines name (none_if_empty value) (readlines baseline))).
    change (dynamic_set_secret name value {| secrets_py := None; trace := tr |})
      with (dynamic_set_secret name value
              {| secrets_py := Some baseline; trace := tr |}).
    apply dynamic_set_secret_text.
Qed.

Section Results.

Variable hw : Radio.

Lemma await_connection_Ok (WLAN : wlan) (n : nat) (w w' : world) :
  await_connection hw WLAN n w = (Ok tt, w') ->
  connection_reported hw (trace w').
Proof.
  revert w. induction n as [|n IH]; intros w; [discriminate|].
  cbn [await_connection].
  unfold bind, WLAN_status, WLAN_isconnected, ask, sleep, log, ret.
  cbn [trace secrets_py].
  destruct (Z.eqb (hw_status hw (trace w ++ [EvStatus])%list) STAT_GOT_IP)
    eqn:Es.
  - intros [= <-]. exists (trace w ++ [EvStatus])%list. left.
    split; [reflexivity | exact Es].
  - cbn [trace secrets_py].
    destruct (hw_isconnected hw ((trace w ++ [EvStatus]) ++ [EvStatus])%list)
      eqn:Ec.
    + intros [= <-]. exists ((trace w ++ [EvStatus]) ++ [EvStatus])%list.
      right. split; [reflexivity | exact Ec].
    + apply IH.
Qed.

Lemma connect_request_Ok (WLAN : wlan) (w : world) (u : unit) (w1 : world) :
  connect_request hw WLAN w = (Ok u, w1) ->
  secrets_py w1 = secrets_py w /\ secrets_py w <> None.
Proof.
  unfold connect_request. intros H.
  apply bind_Ok in H as (ssid & w2 & Hg1 & H).
  apply dynamic_get_secret_Ok in Hg1 as [-> Hne].
  apply bind_Ok in H as (pw & w2 & Hg2 & H).
  apply dynamic_get_secret_Ok in Hg2 as [-> _].
  split; [|exact Hne].
  destruct ssid as [ssid|]; [|discriminate].
  apply bind_Ok in H as (names & w2 & Hscan & H).
  unfold WLAN_scan, bind, ask in Hscan.
  destruct (hw_scan hw (trace w)); [|discriminate].
  injection Hscan as _ <-.
  destruct (negb (member ssid (available_networks names))); [discriminate|].
  unfold WLAN_connect, bind, ask in H. cbn [trace secrets_py] in H.
  destruct (hw_connect hw (trace w ++ [EvScan])%list); [discriminate|].
  injection H as _ <-. reflexivity.
Qed.

Lemma connect_interface_Ok (WLAN : wlan) (verbose : bool) (w w' : world) :
  connect_interface hw WLAN verbose w = (Ok tt, w') ->
  connection_reported hw (trace w') /\ secrets_py w' <> None.
Proof.
  rewrite connect_interface_cases.
  destruct (connect_request hw WLAN w) as [[u|e] w1] eqn:Hreq;
    [|discriminate].
  apply connect_request_Ok in Hreq as [Hs1 Hne].
  intros H. apply try_except_Ok in H as [H | (e & w2 & _ & H)].
  - split; [exact (await_connection_Ok WLAN 30 w1 w' H)|].
    destruct (await_connection_run hw WLAN 30 w1)
      as (r & evs & w2 & Hrun & [Hs2 _] & _).
    rewrite H in Hrun. injection Hrun as _ <-. congruence.
  - destruct e; discriminate H.
Qed.

Lemma access_point_reset_Ok (WLAN : wlan) (verbose : bool) (w : world)
    (AP : wlan) (mode : Z) (w' : world) :
  access_point_reset hw WLAN verbose w = (Ok (AP, mode), w') ->
  mode = AP_IF /\ w_mode AP = AP_IF /\ secrets_py w' <> None.
Proof.
  unfold access_point_reset. intros H.
  apply bind_Ok in H as (? & w1 & _ & H).
  apply bind_Ok in H as (? & w2 & _ & H).
  apply bind_Ok in H as (? & w3 & _ & H).
  apply bind_Ok in H as (W & w4 & Hnew & H).
  apply bind_Ok in H as (ssid & w5 & Hg1 & H).
  apply dynamic_get_secret_Ok in Hg1 as [-> Hne].
  apply bind_Ok in H as (pw & w5 & Hg2 & H).
  apply dynamic_get_secret_Ok in Hg2 as [-> _].
  apply bind_Ok in H as (W2 & w5 & Hcfg & H).
  apply bind_Ok in H as (? & w6 & Hact & H).
  unfold ret in H. injection H as <- <- <-.
  unfold WLAN_new, bind, log, ret in Hnew. injection Hnew as <- _.
  unfold WLAN_config, bind, log, ret in Hcfg. cbn [w_mode] in Hcfg.
  injection Hcfg as <- <-.
  destruct (activate_interface_run hw
              {| w_mode := AP_IF; w_ssid := ssid; w_password := pw;
                 w_pm := None |} verbose
              {| secrets_py := secrets_py w4;
                 trace := (trace w4 ++ [EvConfig ssid pw None])%list |})
    as (evs & w7 & Hrun & [Hs7 _] & _).
  cbn [w_pm] in Hact. rewrite Hact in Hrun. injection Hrun as _ <-.
  splits; [reflexivity | reflexivity |].
  rewrite Hs7. exact Hne.
Qed.

End Results.

(** A result of [get_network_interface] in the model: the mode is one of
    the two, it is the mode of the interface, the first read of the file
    succeeded, and [STA_IF] comes straight after a poll that reported the
    connection. *)
Lemma get_network_interface_Ok (hw : Radio) (verbose : bool)
    (w : world) (WLAN : wlan) (mode : Z) (w' : world) :
  get_network_interface hw verbose w = (Ok (WLAN, mode), w') ->
  (mode = STA_IF \/ mode = AP_IF) /\
  w_mode WLAN = mode /\
  secrets_py w' <> None /\
  (mode = STA_IF -> connection_reported hw (trace w')) /\
  (mode = AP_IF -> connection_issue hw WLAN mode verbose w' = (Ok true, w')).
Proof.
  unfold get_network_interface. intros H.
  apply bind_Ok in H as (WLAN_SSID & w1 & Hg & H).
  apply dynamic_get_secret_Ok in Hg as [-> _].
  apply bind_Ok in H as (WLAN_PASSWORD & w1 & Hg & H).
  apply dynamic_get_secret_Ok in Hg as [-> _].
  apply bind_Ok in H as (AP_SSID & w1 & Hg & H).
  apply dynamic_get_secret_Ok in Hg as [-> _].
  apply bind_Ok in H as (AP_PASSWORD & w1 & Hg & H).
  apply dynamic_get_secret_Ok in Hg as [-> _].
  apply bind_Ok in H as (AP & w1 & _ & H).
  apply bind_Ok in H as (WLAN_MODE & w2 & Hmode & H).
  assert (Hm : WLAN_MODE = STA_IF \/ WLAN_MODE = AP_IF).
  { destruct (is_None WLAN_SSID
              || (String.length (py_str WLAN_SSID) <? 1)%nat)%bool.
    - apply bind_Ok in Hmode as (? & ? & _ & Hmode).
      apply bind_Ok in Hmode as (? & ? & _ & Hmode).
      unfold ret in Hmode. injection Hmode as <- _. now right.
    - unfold ret in Hmode. injection Hmode as <- _. now left. }
  clear Hmode.
  apply bind_Ok in H as (W1 & w3 & Hnew & H).
  unfold WLAN_new, bind, log, ret in Hnew. injection Hnew as <- _.
  apply bind_Ok in H as (W2 & w4 & Hcfg & H).
  unfold WLAN_config, bind, log, ret in Hcfg. cbn [w_mode w_pm] in Hcfg.
  injection Hcfg as <- _.
  apply bind_Ok in H as (? & w5 & _ & H).
  assert (Hissue : forall W m s, m = AP_IF ->
            connection_issue hw W m verbose s = (Ok true, s)).
  { intros W m s ->. reflexivity. }
  apply try_except_Ok in H as [H | (e & w6 & _ & H)].
  - apply bind_Ok in H as ([] & w6 & Hconn & H).
    unfold ret in H. injection H as <- <- <-.
    apply connect_interface_Ok in Hconn as [Hrep Hne].
    splits; [exact Hm | reflexivity | exact Hne | intros _; exact Hrep |
             apply Hissue].
  - assert (Hreset : access_point_reset hw
                       {| w_mode := WLAN_MODE; w_ssid := fst AP;
                          w_password := snd AP;
                          w_pm := Some 10555712%Z |} verbose w6
                     = (Ok (WLAN, mode), w'))
      by (destruct e; solve [discriminate H | exact H]).
    apply access_point_reset_Ok in Hreset as (-> & HW & Hne).
    splits; [now right | exact HW | exact Hne | discriminate | apply Hissue].
Qed.

(* ===================================================================== *)
(** ** Bounds on the calls that are made *)
(* ===================================================================== *)

Section Bounds.

Variable p : event -> bool.

Lemma at_most_le {A : Type} (k k' : nat) (m : M A) :
  k <= k' -> at_most p k m -> at_most p k' m.
Proof.
  intros Hk H w. destruct (H w) as (evs & Ht & Hc).
  exists evs. split; [exact Ht | lia].
Qed.

Lemma at_most_quiet {A : Type} (m : M A) :
  (forall w, trace (snd (m w)) = trace w) -> at_most p 0 m.
Proof.
  intros H w. exists []. rewrite app_nil_r.
  split; [apply H | apply Nat.le_refl].
Qed.

Lemma at_most_ret {A : Type} (a : A) : at_most p 0 (ret a).
Proof. apply at_most_quiet. reflexivity. Qed.

Lemma at_most_raise {A : Type} (e : exn) : at_most p 0 (@raise A e).
Proof. apply at_most_quiet. reflexivity. Qed.

Lemma at_most_bind {A B : Type} (k1 k2 : nat) (m : M A) (f : A -> M B) :
  at_most p k1 m -> (forall a, at_most p k2 (f a)) ->
  at_most p (k1 + k2) (bind m f).
Proof.
  intros Hm Hf w. unfold bind.
  destruct (Hm w) as (e1 & Ht1 & Hc1).
  destruct (m w) as [[a|e] w1]; cbn [snd] in *.
  - destruct (Hf a w1) as (e2 & Ht2 & Hc2).
    exists (e1 ++ e2)%list. rewrite Ht2, Ht1, app_assoc, count_app.
    split; [reflexivity | lia].
  - exists e1. split; [exact Ht1 | lia].
Qed.

Lemma at_most_try {A : Type} (k1 k2 : nat) (m : M A) (h : exn -> M A) :
  at_most p k1 m -> (forall e, at_most p k2 (h e)) ->
  at_most p (k1 + k2) (try_except m h).
Proof.
  intros Hm Hh w. unfold try_except.
  destruct (Hm w) as (e1 & Ht1 & Hc1).
  destruct (m w) as [[a|e] w1]; cbn [snd] in *.
  - exists e1. split; [exact Ht1 | lia].
  - destruct (Hh e w1) as (e2 & Ht2 & Hc2).
    exists (e1 ++ e2)%list. rewrite Ht2, Ht1, app_assoc, count_app.
    split; [reflexivity | lia].
Qed.

Lemma at_most_log (e : event) : at_most p (weight p e) (log e).
Proof.
  intros w. exists [e]. split; [reflexivity|].
  rewrite count_cons, count_nil. unfold weight. lia.
Qed.

Lemma at_most_ask {A : Type} (e : event) (answer : list event -> A) :
  at_most p (weight p e) (ask e answer).
Proof.
  intros w. exists [e]. split; [reflexivity|].
  rewrite count_cons, count_nil. unfold weight. lia.
Qed.

Lemma at_most_get (name : string) : at_most p 0 (dynamic_get_secret name).
Proof.
  apply at_most_quiet. intros w. unfold dynamic_get_secret.
  destruct (secrets_py w) as [text|]; [|reflexivity].
  destruct (exec_module text); reflexivity.
Qed.

Lemma at_most_set (name : string) (value : pyval) :
  at_most p 0 (dynamic_set_secret name value).
Proof.
  apply at_most_quiet. intros w.
  destruct (dynamic_set_secret_total name value w) as [text' ->].
  reflexivity.
Qed.

Variable hw : Radio.

Lemma at_most_await_active (WLAN : wlan) (n : nat) :
  at_most p (n * round_active p) (await_active hw WLAN n).
Proof.
  induction n as [|n IH]; [apply at_most_raise|].
  cbn [await_active]. eapply at_most_le;
    [| apply (at_most_bind (weight p EvStatus)
                (weight p EvActive
                 + (weight p (EvSleep 1) + n * round_active p)));
       [apply at_most_ask|]].
  - unfold round_active. lia.
  - intros status. destruct (Z.eqb status STAT_GOT_IP).
    + eapply at_most_le; [|apply at_most_ret]. lia.
    + apply at_most_bind; [apply at_most_ask|].
      intros active. destruct active.
      * eapply at_most_le; [|apply at_most_ret]. lia.
      * apply at_most_bind; [apply at_most_log | intros _; exact IH].
Qed.

Lemma at_most_await_inactive (WLAN : wlan) (n : nat) :
  at_most p (n * round_inactive p) (await_inactive hw WLAN n).
Proof.
  induction n as [|n IH]; [apply at_most_raise|].
  cbn [await_inactive]. eapply at_most_le;
    [| apply (at_most_bind (weight p EvActive)
                (weight p (EvSleep 1) + n * round_inactive p));
       [apply at_most_ask|]].
  - unfold round_inactive. lia.
  - intros active. destruct (negb active).
    + eapply at_most_le; [|apply at_most_ret]. lia.
    + apply at_most_bind; [apply at_most_log | intros _; exact IH].
Qed.

Lemma at_most_await_connection (WLAN : wlan) (n : nat) :
  at_most p (n * round_connection p) (await_connection hw WLAN n).
Proof.
  induction n as [|n IH]; [apply at_most_raise|].
  cbn [await_connection]. eapply at_most_le;
    [| apply (at_most_bind (weight p EvStatus)
                (weight p EvStatus
                 + (weight p EvIsConnected
                    + (weight p (EvSleep 1) + n * round_connection p))));
       [apply at_most_ask|]].
  - unfold round_connection. lia.
  - intros _. apply at_most_bind; [apply at_most_ask|].
    intros status. destruct (Z.eqb status STAT_GOT_IP).
    + eapply at_most_le; [|apply at_most_ret]. lia.
    + apply at_most_bind; [apply at_most_ask|].
      intros connected. destruct connected.
      * eapply at_most_le; [|apply at_most_ret]. lia.
      * apply at_most_bind; [apply at_most_log | intros _; exact IH].
Qed.

Lemma at_most_activate (WLAN : wlan) (verbose : bool) :
  at_most p (weight p (EvSetActive true) + 5 * round_active p)
    (activate_interface hw WLAN verbose).
Proof.
  unfold activate_interface.
  apply at_most_bind; [apply at_most_log|]. intros _.
  eapply at_most_le;
    [| apply (at_most_try (5 * round_active p) 0);
       [apply at_most_await_active|]].
  - lia.
  - intros e. destruct e; (apply at_most_ret || apply at_most_raise).
Qed.

Lemma at_most_deactivate (WLAN : wlan) (verbose : bool) :
  at_most p (weight p (EvSetActive false) + 5 * round_inactive p)
    (deactivate_interface hw WLAN verbose).
Proof.
  unfold deactivate_interface.
  apply at_most_bind; [apply at_most_log|]. intros _.
  eapply at_most_le;
    [| apply (at_most_try (5 * round_inactive p) 0);
       [apply at_most_await_inactive|]].
  - lia.
  - intros e. destruct e; (apply at_most_ret || apply at_most_raise).
Qed.

(** Bounds on the weight of the calls that carry arguments. *)
Variable new_interface : nat.
Variable config : nat.
Variable connect : nat.
Hypothesis Hnew : forall mode, weight p (EvNew mode) <= new_interface.
Hypothesis Hconfig :
  forall ssid password pm, weight p (EvConfig ssid password pm) <= config.
Hypothesis Hconnect :
  forall ssid password, weight p (EvConnect ssid password) <= connect.

Lemma at_most_new (mode : Z) : at_most p new_interface (WLAN_new mode).
Proof.
  unfold WLAN_new. eapply at_most_le;
    [| apply (at_most_bind (weight p (EvNew mode)) 0);
       [apply at_most_log | intros _; apply at_most_ret]].
  rewrite Nat.add_0_r. apply Hnew.
Qed.

Lemma at_most_config (WLAN : wlan) (ssid password : pyval) (pm : option Z) :
  at_most p config (WLAN_config WLAN ssid password pm).
Proof.
  unfold WLAN_config. eapply at_most_le;
    [| apply (at_most_bind (weight p (EvConfig ssid password pm)) 0);
       [apply at_most_log | intros _; apply at_most_ret]].
  rewrite Nat.add_0_r. apply Hconfig.
Qed.

Lemma at_most_connect_request (WLAN : wlan) :
  at_most p (weight p EvScan + connect) (connect_request hw WLAN).
Proof.
  unfold connect_request.
  eapply at_most_le;
    [| apply (at_most_bind 0 (0 + (weight p EvScan + connect)));
       [apply at_most_get|]]; [lia|].
  intros WLAN_SSID. apply at_most_bind; [apply at_most_get|].
  intros WLAN_PASSWORD. destruct WLAN_SSID as [ssid|].
  - unfold WLAN_scan, WLAN_connect.
    eapply at_most_le;
      [| apply (at_most_bind (weight p EvScan + 0) connect);
         [apply at_most_bind; [apply at_most_ask|]|]].
    + lia.
    + intros r. destruct r; [apply at_most_ret | apply at_most_raise].
    + intros names.
      destruct (negb (member ssid (available_networks names))).
      * eapply at_most_le; [|apply at_most_raise]. lia.
      * eapply at_most_le;
          [| apply (at_most_bind (weight p (EvConnect ssid WLAN_PASSWORD)) 0);
             [apply at_most_ask|]].
        -- rewrite Nat.add_0_r. apply Hconnect.
        -- intros r. destruct r; [apply at_most_raise | apply at_most_ret].
  - eapply at_most_le; [|apply at_most_raise]. lia.
Qed.

Lemma at_most_connect_interface (WLAN : wlan) (verbose : bool) :
  at_most p (cost_connect p connect) (connect_interface hw WLAN verbose).
Proof.
  unfold connect_interface. fold (connect_request hw WLAN).
  unfold cost_connect.
  apply at_most_bind.
  - eapply at_most_le;
      [| apply (at_most_try (weight p EvScan + connect) 0);
         [apply at_most_connect_request|]]; [lia|].
    intros e. destruct e; apply at_most_raise.
  - intros _. apply at_most_try; [apply at_most_await_connection|].
    intros e. destruct e;
      try (eapply at_most_le; [|apply at_most_raise]; lia).
    eapply at_most_le;
      [| apply (at_most_bind (weight p EvStatus) 0);
         [apply at_most_ask | intros _; apply at_most_raise]].
    lia.
Qed.

Lemma at_most_access_point_reset (WLAN : wlan) (verbose : bool) :
  at_most p (cost_reset p new_interface config)
    (access_point_reset hw WLAN verbose).
Proof.
  unfold access_point_reset, WLAN_disconnect, WLAN_deinit.
  eapply at_most_le;
    [| apply at_most_bind; [apply at_most_log | intros _];
       apply at_most_bind; [apply at_most_deactivate | intros _];
       apply at_most_bind; [apply at_most_log | intros _];
       apply at_most_bind; [apply at_most_new | intros W];
       apply at_most_bind; [apply at_most_get | intros AP_SSID];
       apply at_most_bind; [apply at_most_get | intros AP_PASSWORD];
       apply at_most_bind; [apply at_most_config | intros W'];
       apply at_most_bind; [apply at_most_activate | intros _];
       apply at_most_ret].
  unfold cost_reset. lia.
Qed.

Lemma at_most_get_network_interface (verbose : bool) :
  at_most p (cost_acquire p new_interface config connect)
    (get_network_interface hw verbose).
Proof.
  unfold get_network_interface.
  eapply at_most_le;
    [| apply at_most_bind; [apply at_most_get | intros WLAN_SSID];
       apply at_most_bind; [apply at_most_get | intros WLAN_PASSWORD];
       apply at_most_bind; [apply at_most_get | intros AP_SSID];
       apply at_most_bind; [apply at_most_get | intros AP_PASSWORD];
       apply (at_most_bind 0); [| intros AP];
       [| apply (at_most_bind 0); [| intros WLAN_MODE];
          [| apply at_most_bind; [apply at_most_new | intros W];
             apply at_most_bind; [apply at_most_config | intros W'];
             apply at_most_bind; [apply at_most_activate | intros _];
             apply (at_most_try (cost_connect p connect)
                      (cost_reset p new_interface config))]]].
  - unfold cost_acquire. lia.
  - destruct (is_None AP_SSID || is_None AP_PASSWORD)%bool;
      [|apply at_most_ret].
    apply (at_most_bind 0 0); [apply at_most_set | intros _].
    apply (at_most_bind 0 0); [apply at_most_set | intros _].
    apply at_most_ret.
  - destruct (is_None WLAN_SSID
              || (String.length (py_str WLAN_SSID) <? 1)%nat)%bool;
      [|apply at_most_ret].
    apply (at_most_bind 0 0); [apply at_most_set | intros _].
    apply (at_most_bind 0 0); [apply at_most_set | intros _].
    apply at_most_ret.
  - eapply at_most_le;
      [| apply (at_most_bind (cost_connect p connect) 0);
         [apply at_most_connect_interface | intros _; apply at_most_ret]].
    lia.
  - intros e. destruct e;
      try (eapply at_most_le; [|apply at_most_raise]; lia);
      apply at_most_access_point_reset.
Qed.

End Bounds.

(* ===================================================================== *)
(** ** What the code keeps of the secrets file *)
(* ===================================================================== *)

Lemma preserves_bind {A B : Type} (I : world -> Prop) (m : M A)
    (f : A -> M B) :
  preserves I m -> (forall a, preserves I (f a)) -> preserves I (bind m f).
Proof.
  intros Hm Hf w Hw. unfold bind. specialize (Hm w Hw).
  destruct (m w) as [[a|e] w1]; cbn [snd] in *; [now apply Hf | exact Hm].
Qed.

Lemma preserves_try {A : Type} (I : world -> Prop) (m : M A)
    (h : exn -> M A) :
  preserves I m -> (forall e, preserves I (h e)) ->
  preserves I (try_except m h).
Proof.
  intros Hm Hh w Hw. unfold try_except. specialize (Hm w Hw).
  destruct (m w) as [[a|e] w1]; cbn [snd] in *; [exact Hm | now apply Hh].
Qed.

Section FileKept.

(** A property of the secrets file alone. *)
Variable I : world -> Prop.
Hypothesis I_file : forall w w', secrets_py w' = secrets_py w -> I w -> I w'.

Lemma preserves_same_file {A : Type} (m : M A) :
  (forall w, secrets_py (snd (m w)) = secrets_py w) -> preserves I m.
Proof. intros H w Hw. exact (I_file w _ (H w) Hw). Qed.

Lemma preserves_ret {A : Type} (a : A) : preserves I (ret a).
Proof. apply preserves_same_file. reflexivity. Qed.

Lemma preserves_raise {A : Type} (e : exn) : preserves I (@raise A e).
Proof. apply preserves_same_file. reflexivity. Qed.

Lemma preserves_log (e : event) : preserves I (log e).
Proof. apply preserves_same_file. reflexivity. Qed.

Lemma preserves_ask {A : Type} (e : event) (answer : list event -> A) :
  preserves I (ask e answer).
Proof. apply preserves_same_file. reflexivity. Qed.

Lemma preserves_get (name : string) : preserves I (dynamic_get_secret name).
Proof.
  apply preserves_same_file. intros w. unfold dynamic_get_secret.
  destruct (secrets_py w) as [text|] eqn:E; [|exact E].
  destruct (exec_module text); exact E.
Qed.

Variable hw : Radio.

Lemma preserves_await_active (WLAN : wlan) (n : nat) :
  preserves I (await_active hw WLAN n).
Proof.
  induction n as [|n IH]; [apply preserves_raise|].
  cbn [await_active]. apply preserves_bind; [apply preserves_ask|].
  intros status. destruct (Z.eqb status STAT_GOT_IP); [apply preserves_ret|].
  apply preserves_bind; [apply preserves_ask|].
  intros active. destruct active; [apply preserves_ret|].
  apply preserves_bind; [apply preserves_log | intros _; exact IH].
Qed.

Lemma preserves_await_inactive (WLAN : wlan) (n : nat) :
  preserves I (await_inactive hw WLAN n).
Proof.
  induction n as [|n IH]; [apply preserves_raise|].
  cbn [await_inactive]. apply preserves_bind; [apply preserves_ask|].
  intros active. destruct (negb active); [apply preserves_ret|].
  apply preserves_bind; [apply preserves_log | intros _; exact IH].
Qed.

Lemma preserves_await_connection (WLAN : wlan) (n : nat) :
  preserves I (await_connection hw WLAN n).
Proof.
  induction n as [|n IH]; [apply preserves_raise|].
  cbn [await_connection]. apply preserves_bind; [apply preserves_ask|].
  intros _. apply preserves_bind; [apply preserves_ask|].
  intros status. destruct (Z.eqb status STAT_GOT_IP); [apply preserves_ret|].
  apply preserves_bind; [apply preserves_ask|].
  intros connected. destruct connected; [apply preserves_ret|].
  apply preserves_bind; [apply preserves_log | intros _; exact IH].
Qed.

Lemma preserves_activate (WLAN : wlan) (verbose : bool) :
  preserves I (activate_interface hw WLAN verbose).
Proof.
  unfold activate_interface.
  apply preserves_bind; [apply preserves_log | intros _].
  apply preserves_try; [apply preserves_await_active|].
  intros e. destruct e; (apply preserves_ret || apply preserves_raise).
Qed.

Lemma preserves_deactivate (WLAN : wlan) (verbose : bool) :
  preserves I (deactivate_interface hw WLAN verbose).
Proof.
  unfold deactivate_interface.
  apply preserves_bind; [apply preserves_log | intros _].
  apply preserves_try; [apply preserves_await_inactive|].
  intros e. destruct e; (apply preserves_ret || apply preserves_raise).
Qed.

Lemma preserves_connect_request (WLAN : wlan) :
  preserves I (connect_request hw WLAN).
Proof.
  unfold connect_request.
  apply preserves_bind; [apply preserves_get | intros WLAN_SSID].
  apply preserves_bind; [apply preserves_get | intros WLAN_PASSWORD].
  destruct WLAN_SSID as [ssid|]; [|apply preserves_raise].
  unfold WLAN_scan, WLAN_connect. apply preserves_bind.
  - apply preserves_bind; [apply preserves_ask|].
    intros r. destruct r; [apply preserves_ret | apply preserves_raise].
  - intros names.
    destruct (negb (member ssid (available_networks names)));
      [apply preserves_raise|].
    apply preserves_bind; [apply preserves_ask|].
    intros r. destruct r; [apply preserves_raise | apply preserves_ret].
Qed.

Lemma preserves_connect_interface (WLAN : wlan) (verbose : bool) :
  preserves I (connect_interface hw WLAN verbose).
Proof.
  unfold connect_interface. fold (connect_request hw WLAN).
  apply preserves_bind.
  - apply preserves_try; [apply preserves_connect_request|].
    intros e. destruct e; apply preserves_raise.
  - intros _. apply preserves_try; [apply preserves_await_connection|].
    intros e. destruct e; try apply preserves_raise.
    apply preserves_bind;
      [apply preserves_ask | intros _; apply preserves_raise].
Qed.

Lemma preserves_access_point_reset (WLAN : wlan) (verbose : bool) :
  preserves I (access_point_reset hw WLAN verbose).
Proof.
  unfold access_point_reset, WLAN_disconnect, WLAN_deinit, WLAN_new,
    WLAN_config.
  apply preserves_bind; [apply preserves_log | intros _].
  apply preserves_bind; [apply preserves_deactivate | intros _].
  apply preserves_bind; [apply preserves_log | intros _].
  apply preserves_bind;
    [apply preserves_bind;
       [apply preserves_log | intros _; apply preserves_ret] | intros W].
  apply preserves_bind; [apply preserves_get | intros AP_SSID].
  apply preserves_bind; [apply preserves_get | intros AP_PASSWORD].
  apply preserves_bind;
    [apply preserves_bind;
       [apply preserves_log | intros _; apply preserves_ret] | intros W'].
  apply preserves_bind; [apply preserves_activate | intros _].
  apply preserves_ret.
Qed.

End FileKept.

Lemma well_kept_file (w w' : world) :
  secrets_py w' = secrets_py w -> well_kept w -> well_kept w'.
Proof. intros H (text & Hs & Hwf). exists text. now rewrite H. Qed.

Lemma preserves_set (name : string) (value : pyval) :
  is_ident name = true -> clean value = true ->
  preserves well_kept (dynamic_set_secret name value).
Proof.
  intros Hid Hc w (text & Hs & Hwf).
  rewrite (dynamic_set_secret_at name value w text Hs). cbn [snd].
  eexists. split; [reflexivity|].
  apply well_formed_join, set_lines_good;
    [exact Hid | now apply clean_none_if_empty | exact Hwf].
Qed.

(** On a well-formed secrets file [get_network_interface] leaves a
    well-formed file, whatever the radio does: what it writes are the
    identifier of the board and unset values. *)
Lemma preserves_get_network_interface (hw : Radio) (verbose : bool) :
  preserves well_kept (get_network_interface hw verbose).
Proof.
  pose proof well_kept_file as F.
  unfold get_network_interface.
  apply preserves_bind; [now apply preserves_get | intros WLAN_SSID].
  apply preserves_bind; [now apply preserves_get | intros WLAN_PASSWORD].
  apply preserves_bind; [now apply preserves_get | intros AP_SSID].
  apply preserves_bind; [now apply preserves_get | intros AP_PASSWORD].
  apply preserves_bind; [| intros AP].
  { destruct (is_None AP_SSID || is_None AP_PASSWORD)%bool;
      [|now apply preserves_ret].
    apply preserves_bind; [| intros _].
    - apply preserves_set; [reflexivity|].
      apply clean_ap_ssid, hexlify_upper_hex.
    - apply preserves_bind; [| intros _; now apply preserves_ret].
      apply preserves_set; [reflexivity|].
      apply clean_id, hexlify_upper_hex. }
  apply preserves_bind; [| intros WLAN_MODE].
  { destruct (is_None WLAN_SSID
              || (String.length (py_str WLAN_SSID) <? 1)%nat)%bool;
      [|now apply preserves_ret].
    apply preserves_bind; [now apply preserves_set | intros _].
    apply preserves_bind; [now apply preserves_set | intros _].
    now apply preserves_ret. }
  unfold WLAN_new, WLAN_config.
  apply preserves_bind;
    [apply preserves_bind;
       [now apply preserves_log | intros _; now apply preserves_ret]
    | intros W].
  apply preserves_bind;
    [apply preserves_bind;
       [now apply preserves_log | intros _; now apply preserves_ret]
    | intros W'].
  apply preserves_bind; [now apply preserves_activate | intros _].
  apply preserves_try.
  - apply preserves_bind;
      [now apply preserves_connect_interface
      | intros _; now apply preserves_ret].
  - intros e. destruct e;
      solve [now apply preserves_raise
            | now apply preserves_access_point_reset].
Qed.

(** X14.  On a well-formed secrets file and whatever the radio answers, a
    result of [get_network_interface] is consistent: the mode is [STA_IF]
    or [AP_IF], it is the mode for which the interface was created, and the
    secrets file is still well formed.  The mode [STA_IF] is returned only
    straight after a poll in which the radio reported the connection, and
    an interface in mode [AP_IF] is reported by [connection_issue] without
    a call on the radio. *)
Theorem acquire_result_is_consistent (hw : Radio) (verbose : bool)
    (w : world) (text : string) (WLAN : wlan) (mode : Z) (w' : world) :
  secrets_py w = Some text -> well_formed text = true ->
  get_network_interface hw verbose w = (Ok (WLAN, mode), w') ->
  (mode = STA_IF \/ mode = AP_IF) /\
  w_mode WLAN = mode /\
  well_kept w' /\
  (mode = STA_IF -> connection_reported hw (trace w')) /\
  (mode = AP_IF -> connection_issue hw WLAN mode verbose w' = (Ok true, w')).
Proof.
  intros Hs Hwf Hrun.
  destruct (get_network_interface_Ok hw verbose w WLAN mode w' Hrun)
    as (Hm & HW & _ & Hrep & Hissue).
  splits; try assumption.
  replace w' with (snd (get_network_interface hw verbose w))
    by now rewrite Hrun.
  apply preserves_get_network_interface. now exists text.
Qed.

Lemma acquire_result_is_consistent_witness :
  (STA_IF = STA_IF \/ STA_IF = AP_IF) /\
  w_mode {| w_mode := STA_IF; w_ssid := Some "PICO-W-E66161234567890B";
            w_password := Some "E66161234567890B"; w_pm := Some PM |}
  = STA_IF /\
  well_kept (snd (get_network_interface (radio ["HomeNet"] 3 true) true
                    (booted homenet))) /\
  (STA_IF = STA_IF ->
   connection_reported (radio ["HomeNet"] 3 true)
     (trace (snd (get_network_interface (radio ["HomeNet"] 3 true) true
                    (booted homenet))))) /\
  (STA_IF = AP_IF ->
   connection_issue (radio ["HomeNet"] 3 true)
     {| w_mode := STA_IF; w_ssid := Some "PICO-W-E66161234567890B";
        w_password := Some "E66161234567890B"; w_pm := Some PM |}
     STA_IF true
     (snd (get_network_interface (radio ["HomeNet"] 3 true) true
             (booted homenet)))
   = (Ok true,
      snd (get_network_interface (radio ["HomeNet"] 3 true) true
             (booted homenet)))).
Proof.
  apply (acquire_result_is_consistent (radio ["HomeNet"] 3 true) true
           (booted homenet) homenet).
  - reflexivity.
  - reflexivity.
  - vm_compute. reflexivity.
Defined.

(** X15.  On a well-formed secrets file [get_network_interface] is
    bounded, whatever the radio answers and whether it returns or raises:
    it sleeps at most 45 times, one second each (5 for the activation, 30
    for the connection, 10 for the reset), scans at most once, asks to
    connect at most once and deinitialises at most one interface; and it
    leaves a well-formed secrets file. *)
Theorem acquire_is_bounded (hw : Radio) (verbose : bool) (w : world)
    (text : string) :
  secrets_py w = Some text -> well_formed text = true ->
  within is_sleep 45 (get_network_interface hw verbose) w /\
  within is_scan 1 (get_network_interface hw verbose) w /\
  within is_connect 1 (get_network_interface hw verbose) w /\
  within is_deinit 1 (get_network_interface hw verbose) w /\
  well_kept (snd (get_network_interface hw verbose w)).
Proof.
  intros Hs Hwf. splits.
  - refine (at_most_le is_sleep _ 45 _ _
              (at_most_get_network_interface is_sleep hw 0 0 0 _ _ _ verbose)
              w); try (intros; reflexivity);
      try (vm_compute; lia).
  - refine (at_most_le is_scan _ 1 _ _
              (at_most_get_network_interface is_scan hw 0 0 0 _ _ _ verbose)
              w); try (intros; reflexivity);
      try (vm_compute; lia).
  - refine (at_most_le is_connect _ 1 _ _
              (at_most_get_network_interface is_connect hw 0 0 1 _ _ _
                 verbose) w); try (intros; reflexivity);
      try (vm_compute; lia).
  - refine (at_most_le is_deinit _ 1 _ _
              (at_most_get_network_interface is_deinit hw 0 0 0 _ _ _ verbose)
              w); try (intros; reflexivity);
      try (vm_compute; lia).
  - apply preserves_get_network_interface. now exists text.
Qed.

Lemma acquire_is_bounded_witness :
  within is_sleep 45 (get_network_interface (radio ["HomeNet"] 1 false) true)
    (booted homenet) /\
  within is_scan 1 (get_network_interface (radio ["HomeNet"] 1 false) true)
    (booted homenet) /\
  within is_connect 1 (get_network_interface (radio ["HomeNet"] 1 false) true)
    (booted homenet) /\
  within is_deinit 1 (get_network_interface (radio ["HomeNet"] 1 false) true)
    (booted homenet) /\
  well_kept (snd (get_network_interface (radio ["HomeNet"] 1 false) true
                    (booted homenet))).
Proof.
  exact (acquire_is_bounded (radio ["HomeNet"] 1 false) true (booted homenet)
           homenet eq_refl eq_refl).
Defined.

(** X16.  The parts are bounded in the same way, on a secrets file that
    imports and whatever the radio answers, and they leave the file as it
    is.  [activate_interface] and [deactivate_interface] sleep at most 5
    times each.  [connect_interface] sleeps at most 30 times, scans and
    asks to connect at most once, and never deinitialises the interface.
    [access_point_reset] sleeps at most 10 times, creates one access-point
    interface at most, deinitialises one at most, and never scans or asks
    to connect. *)
Theorem parts_are_bounded (hw : Radio) (WLAN : wlan) (verbose : bool)
    (w : world) (text : string) (bs : list (string * pyval)) :
  secrets_py w = Some text -> exec_module text = Some bs ->
  (within is_sleep 5 (activate_interface hw WLAN verbose) w /\
   secrets_py (snd (activate_interface hw WLAN verbose w)) = Some text) /\
  (within is_sleep 5 (deactivate_interface hw WLAN verbose) w /\
   secrets_py (snd (deactivate_interface hw WLAN verbose w)) = Some text) /\
  (within is_sleep 30 (connect_interface hw WLAN verbose) w /\
   within is_scan 1 (connect_interface hw WLAN verbose) w /\
   within is_connect 1 (connect_interface hw WLAN verbose) w /\
   within is_deinit 0 (connect_interface hw WLAN verbose) w /\
   secrets_py (snd (connect_interface hw WLAN verbose w)) = Some text) /\
  (within is_sleep 10 (access_point_reset hw WLAN verbose) w /\
   within is_new_ap 1 (access_point_reset hw WLAN verbose) w /\
   within is_deinit 1 (access_point_reset hw WLAN verbose) w /\
   within is_scan 0 (access_point_reset hw WLAN verbose) w /\
   within is_connect 0 (access_point_reset hw WLAN verbose) w /\
   secrets_py (snd (access_point_reset hw WLAN verbose w)) = Some text).
Proof.
  intros Hs _.
  assert (F : forall w1 w2 : world,
            secrets_py w2 = secrets_py w1 ->
            secrets_py w1 = Some text -> secrets_py w2 = Some text)
    by (intros w1 w2 H1 H2; congruence).
  splits.
  - refine (at_most_le is_sleep _ 5 _ _
              (at_most_activate is_sleep hw WLAN verbose) w).
    vm_compute. lia.
  - exact (preserves_activate _ F hw WLAN verbose w Hs).
  - refine (at_most_le is_sleep _ 5 _ _
              (at_most_deactivate is_sleep hw WLAN verbose) w).
    vm_compute. lia.
  - exact (preserves_deactivate _ F hw WLAN verbose w Hs).
  - refine (at_most_le is_sleep _ 30 _ _
              (at_most_connect_interface is_sleep hw 0 _ WLAN verbose) w);
      try (intros; reflexivity);
      try (vm_compute; lia).
  - refine (at_most_le is_scan _ 1 _ _
              (at_most_connect_interface is_scan hw 0 _ WLAN verbose) w);
      try (intros; reflexivity);
      try (vm_compute; lia).
  - refine (at_most_le is_connect _ 1 _ _
              (at_most_connect_interface is_connect hw 1 _ WLAN verbose) w);
      try (intros; reflexivity);
      try (vm_compute; lia).
  - refine (at_most_le is_deinit _ 0 _ _
              (at_most_connect_interface is_deinit hw 0 _ WLAN verbose) w);
      try (intros; reflexivity);
      try (vm_compute; lia).
  - exact (preserves_connect_interface _ F hw WLAN verbose w Hs).
  - refine (at_most_le is_sleep _ 10 _ _
              (at_most_access_point_reset is_sleep hw 0 0 _ _ WLAN verbose)
              w); try (intros; reflexivity);
      try (vm_compute; lia).
  - refine (at_most_le is_new_ap _ 1 _ _
              (at_most_access_point_reset is_new_ap hw 1 0 _ _ WLAN verbose)
              w); try (intros; reflexivity); try (vm_compute; lia).
    intros m. unfold weight. cbn [is_new_ap].
    destruct (Z.eqb m AP_IF); lia.
  - refine (at_most_le is_deinit _ 1 _ _
              (at_most_access_point_reset is_deinit hw 0 0 _ _ WLAN verbose)
              w); try (intros; reflexivity);
      try (vm_compute; lia).
  - refine (at_most_le is_scan _ 0 _ _
              (at_most_access_point_reset is_scan hw 0 0 _ _ WLAN verbose)
              w); try (intros; reflexivity);
      try (vm_compute; lia).
  - refine (at_most_le is_connect _ 0 _ _
              (at_most_access_point_reset is_connect hw 0 0 _ _ WLAN verbose)
              w); try (intros; reflexivity);
      try (vm_compute; lia).
  - exact (preserves_access_point_reset _ F hw WLAN verbose w Hs).
Qed.

Lemma parts_are_bounded_witness :
  (within is_sleep 5 (activate_interface (radio [] 0 false) station true)
     (booted homenet) /\
   secrets_py (snd (activate_interface (radio [] 0 false) station true
                      (booted homenet))) = Some homenet) /\
  (within is_sleep 5 (deactivate_interface (radio [] 0 false) station true)
     (booted homenet) /\
   secrets_py (snd (deactivate_interface (radio [] 0 false) station true
                      (booted homenet))) = Some homenet) /\
  (within is_sleep 30 (connect_interface (radio [] 0 false) station true)
     (booted homenet) /\
   within is_scan 1 (connect_interface (radio [] 0 false) station true)
     (booted homenet) /\
   within is_connect 1 (connect_interface (radio [] 0 false) station true)
     (booted homenet) /\
   within is_deinit 0 (connect_interface (radio [] 0 false) station true)
     (booted homenet) /\
   secrets_py (snd (connect_interface (radio [] 0 false) station true
                      (booted homenet))) = Some homenet) /\
  (within is_sleep 10 (access_point_reset (radio [] 0 false) station true)
     (booted homenet) /\
   within is_new_ap 1 (access_point_reset (radio [] 0 false) station true)
     (booted homenet) /\
   within is_deinit 1 (access_point_reset (radio [] 0 false) station true)
     (booted homenet) /\
   within is_scan 0 (access_point_reset (radio [] 0 false) station true)
     (booted homenet) /\
   within is_connect 0 (access_point_reset (radio [] 0 false) station true)
     (booted homenet) /\
   secrets_py (snd (access_point_reset (radio [] 0 false) station true
                      (booted homenet))) = Some homenet).
Proof.
  exact (parts_are_bounded (radio [] 0 false) station true (booted homenet)
           homenet homenet_bindings eq_refl eq_refl).
Defined.

(* ===================================================================== *)
(** ** The handler, and the handler followed by [get_network_interface] *)
(* ===================================================================== *)








(* ===================================================================== *)
(** ** The identifier of the board *)
(* ===================================================================== *)

Lemma unhexlify_byte (b : byte) (s : string) :
  unhexlify (upper (hexlify [b] ++ s)) = b :: unhexlify (upper s).
Proof.
  cbn [hexlify append upper unhexlify].
  assert (H : Byte.of_nat
                (16 * unhex_digit (upper_char (hex_digit (Byte.to_nat b / 16)))
                 + unhex_digit (upper_char (hex_digit (Byte.to_nat b mod 16))))
              = Some b)
    by (destruct b; vm_compute; reflexivity).
  now rewrite H.
Qed.

Lemma unhexlify_hexlify (bs : list byte) :
  unhexlify (upper (hexlify bs)) = bs.
Proof.
  induction bs as [|b bs IH]; [reflexivity|].
  change (hexlify (b :: bs)) with (hexlify [b] ++ hexlify bs).
  now rewrite unhexlify_byte, IH.
Qed.

(** X17.  The identifier tells the boards apart: [PICO_ID] stands for the
    bytes of [machine.unique_id()], which can be read back from it, so two
    boards with different identifiers get different access-point SSIDs and
    passwords. *)
Theorem pico_id_identifies_the_board (hw1 hw2 : Radio) :
  hw_unique_id hw1 <> hw_unique_id hw2 ->
  unhexlify (PICO_ID hw1) = hw_unique_id hw1 /\
  PICO_ID hw1 <> PICO_ID hw2 /\
  "PICO-W-" ++ PICO_ID hw1 <> "PICO-W-" ++ PICO_ID hw2.
Proof.
  intros Hne. unfold PICO_ID.
  assert (Hid : upper (hexlify (hw_unique_id hw1))
                <> upper (hexlify (hw_unique_id hw2))).
  { intros H. apply Hne.
    now rewrite <- (unhexlify_hexlify (hw_unique_id hw1)), H,
      unhexlify_hexlify. }
  splits; [apply unhexlify_hexlify | exact Hid |].
  intros H. apply Hid. cbn [append] in H. now injection H.
Qed.

Lemma pico_id_identifies_the_board_witness :
  unhexlify (PICO_ID (radio [] 0 false)) = hw_unique_id (radio [] 0 false) /\
  PICO_ID (radio [] 0 false) <> PICO_ID other_board /\
  "PICO-W-" ++ PICO_ID (radio [] 0 false)
  <> "PICO-W-" ++ PICO_ID other_board.
Proof.
  apply (pico_id_identifies_the_board (radio [] 0 false) other_board).
  discriminate.
Defined.

(* ===================================================================== *)
(** ** The waits on a radio that never reports active *)
(* ===================================================================== *)

Lemma await_active_never (hw : Radio) (WLAN : wlan) (n : nat) (w : world) :
  (forall h, hw_active hw h = false) ->
  (forall h, got_ip hw h = false) ->
  await_active hw WLAN n w =
    (Raise StopIteration,
     {| secrets_py := secrets_py w;
        trace := (trace w ++ rounds n [EvStatus; EvActive; EvSleep 1])%list |}).
Proof.
  intros Hact Hgot. revert w. induction n as [|n IH]; intros w.
  - cbn [await_active rounds]. rewrite app_nil_r. now destruct w.
  - cbn [await_active rounds].
    unfold bind, WLAN_status, WLAN_active, ask, sleep, log, ret.
    cbn [trace secrets_py]. unfold got_ip in Hgot. rewrite Hgot, Hact.
    rewrite IH. cbn [trace secrets_py]. now rewrite <- !app_assoc.
Qed.

(** X22.  On a radio that never reports active and has no address, which
    the source says is what the Pico W does in station mode,
    [activate_interface] always takes its full five rounds, a status poll,
    an [active()] query and a sleep of one second each, and then returns;
    [deactivate_interface] returns after its first query, without
    sleeping. *)
Theorem waits_on_inactive_radio (hw : Radio) (WLAN : wlan) (verbose : bool)
    (w : world) :
  (forall h, hw_active hw h = false) ->
  (forall h, got_ip hw h = false) ->
  activate_interface hw WLAN verbose w =
    (Ok tt,
     {| secrets_py := secrets_py w;
        trace := (trace w ++ EvSetActive true
                  :: rounds 5 [EvStatus; EvActive; EvSleep 1])%list |}) /\
  deactivate_interface hw WLAN verbose w =
    (Ok tt,
     {| secrets_py := secrets_py w;
        trace := (trace w ++ [EvSetActive false; EvActive])%list |}).
Proof.
  intros Hact Hgot. split.
  - unfold activate_interface, WLAN_set_active.
    unfold bind at 1. unfold log at 1. unfold try_except.
    rewrite (await_active_never hw WLAN 5 _ Hact Hgot).
    cbn [trace secrets_py]. unfold ret. now rewrite <- app_assoc.
  - unfold deactivate_interface, WLAN_set_active.
    unfold bind at 1. unfold log at 1. unfold try_except.
    cbn [await_inactive].
    unfold bind, WLAN_active, ask, ret. cbn [trace secrets_py].
    rewrite Hact. cbn [negb]. now rewrite <- app_assoc.
Qed.

Lemma waits_on_inactive_radio_witness :
  activate_interface (radio [] 0 false) station true (booted homenet) =
    (Ok tt,
     {| secrets_py := secrets_py (booted homenet);
        trace := (trace (booted homenet) ++ EvSetActive true
                  :: rounds 5 [EvStatus; EvActive; EvSleep 1])%list |}) /\
  deactivate_interface (radio [] 0 false) station true (booted homenet) =
    (Ok tt,
     {| secrets_py := secrets_py (booted homenet);
        trace := (trace (booted homenet)
                  ++ [EvSetActive false; EvActive])%list |}).
Proof.
  apply (waits_on_inactive_radio (radio [] 0 false) station true
           (booted homenet)).
  - intros h. reflexivity.
  - intros h. reflexivity.
Defined.

(* ===================================================================== *)
(** ** [get_network_interface] returns *)
(* ===================================================================== *)

Lemma raises_only_weaken {A : Type} (E E' : exn -> Prop) (m : M A) :
  (forall e, E e -> E' e) -> raises_only E m -> raises_only E' m.
Proof.
  intros HE Hm w Hw. destruct (Hm w Hw) as [Hk Hr]. split; [exact Hk|].
  destruct (fst (m w)); [exact I | now apply HE].
Qed.









Section Returns.

Variable hw : Radio.
Hypothesis Hscan : forall h e, hw_scan hw h = Raise e -> e = TypeError.
Hypothesis Hconnect : forall h e, hw_connect hw h = Some e -> e = TypeError.












End Returns.


